(** * vscode-jupyter-launcher: launch arguments, configuration wizard and
      server registry

    A shallow embedding of [src/jupyterLauncher.ts] (the option wizard,
    the construction of the command line and the launch in a terminal), of
    the three revisions of [src/jupyterIntegration.ts] that the repository
    carries (the registry of running servers and its reconciliation with
    the open terminals), of [src/helpers.ts] and of the launch command of
    [src/extension.ts], followed by the properties established about them.

    Conventions.
    - A JavaScript string is a [string]; its characters are read as code
      units below 256.
    - A JavaScript number that holds a process id, a port or a clock value
      is an [N] or a [Z]; [Number.prototype.toString] is stdpp's [pretty].
      A value that is only ever tested for truthiness keeps [0] for every
      falsy number ([0], [NaN], [undefined]).
    - [undefined] is [None].
    - Suspension points ([await]) are sequenced in program order; the
      handlers run to completion one after the other. *)

From Stdlib Require Import ZArith NArith List String Ascii Bool Lia.
From stdpp Require Import base decidable option list strings pretty gmap.

Local Open Scope string_scope.
Local Open Scope list_scope.

(** ** JavaScript primitives used by the sources *)

Module JS.

(** A thrown value: [new Error(msg)] made by the sources, a [TypeError]
    of the runtime, or the value a promise of a library was rejected
    with. *)
Inductive thrown : Type :=
| NewError (msg : string)
| TypeError (msg : string)
| Rejection (reason : string).

(** How a call ends: [return v], [return;] or a throw. *)
Inductive completion (A : Type) : Type :=
| Returned (v : A)
| ReturnedUndefined
| Thrown (err : thrown).
Arguments Returned {A} v.
Arguments ReturnedUndefined {A}.
Arguments Thrown {A} err.

(** A string is truthy unless it is empty. *)
Definition truthy (s : string) : bool :=
  match s with EmptyString => false | String _ _ => true end.

(** [value && ...] on a [string | undefined]. *)
Definition truthy_opt (o : option string) : bool :=
  match o with Some s => truthy s | None => false end.

(** White space and line terminators below code unit 256: TAB, LF, VT,
    FF, CR, SP and NBSP. *)
Definition isWhiteSpace (a : ascii) : bool :=
  let n := N_of_ascii a in
  ((9 <=? n) && (n <=? 13) || (n =? 32) || (n =? 160))%N.

Fixpoint trimStart (s : string) : string :=
  match s with
  | EmptyString => EmptyString
  | String a s' => if isWhiteSpace a then trimStart s' else s
  end.

Fixpoint trimEnd (s : string) : string :=
  match s with
  | EmptyString => EmptyString
  | String a s' =>
      let r := trimEnd s' in
      if isWhiteSpace a && negb (truthy r) then EmptyString else String a r
  end.

(** [String.prototype.trim]. *)
Definition trim (s : string) : string := trimEnd (trimStart s).

(** [String.prototype.startsWith]. *)
Definition startsWith (s p : string) : bool := String.prefix p s.

(** [a ?? b]. *)
Definition nullish {A} (a : option A) (b : A) : A :=
  match a with Some x => x | None => b end.

Definition hexDigit (n : N) : ascii :=
  ascii_of_N (if (n <? 10)%N then 48 + n else 87 + n)%N.

(** [Buffer.toString("hex")]: two lower-case digits per byte. *)
Fixpoint toHex (bytes : list N) : string :=
  match bytes with
  | [] => EmptyString
  | b :: bs =>
      String (hexDigit ((b / 16) mod 16)) (String (hexDigit (b mod 16)) (toHex bs))
  end.

(** [s.slice(0, n)] for [n >= 0]. *)
Fixpoint slice0 (n : nat) (s : string) : string :=
  match n, s with
  | S k, String a s' => String a (slice0 k s')
  | _, _ => EmptyString
  end.

(** [Array.from(new Set(l))]: a set keeps insertion order, so the result
    holds the first occurrences in order. [seen] is the set built so far. *)
Fixpoint dedupeFrom {A} `{EqDecision A} (seen l : list A) : list A :=
  match l with
  | [] => []
  | x :: l' =>
      if bool_decide (x ∈ seen) then dedupeFrom seen l'
      else x :: dedupeFrom (x :: seen) l'
  end.

Definition dedupe {A} `{EqDecision A} (l : list A) : list A := dedupeFrom [] l.

(** A decimal digit and its value. *)
Definition digitValue (a : ascii) : option N :=
  let n := N_of_ascii a in
  if ((48 <=? n) && (n <=? 57))%N then Some (n - 48)%N else None.

(** The longest prefix of decimal digits, read as a number; [acc] is
    [None] until a digit has been seen. *)
Fixpoint leadingDigits (acc : option N) (s : string) : option N :=
  match s with
  | EmptyString => acc
  | String a s' =>
      match digitValue a with
      | Some d => leadingDigits (Some (10 * default 0 acc + d)%N) s'
      | None => acc
      end
  end.

(** [parseInt(s, 10)]: leading white space is skipped, one sign is read,
    then the longest run of digits; [None] is [NaN]. Integers are exact
    here (a double is exact up to 2^53), and [-0] is [0]. *)
Definition parseInt (s : string) : option Z :=
  let t := trimStart s in
  let '(negative, body) :=
    match t with
    | String "-" r => (true, r)
    | String "+" r => (false, r)
    | _ => (false, t)
    end in
  match leadingDigits None body with
  | None => None
  | Some n => Some (if negative then - Z.of_N n else Z.of_N n)%Z
  end.

(** Truthiness of a number ([0] and [NaN] are falsy). *)
Definition truthyNum (n : Z) : bool := negb (n =? 0)%Z.

(** [s.slice(n)] for [n >= 0]. *)
Fixpoint sliceFrom (n : nat) (s : string) : string :=
  match n, s with
  | S k, String _ s' => sliceFrom k s'
  | _, _ => s
  end.

(** [s.replace(pat, rep)] for a pattern that is a string and a
    replacement without [$]: the first occurrence of [pat], if there is
    one, is replaced. *)
Fixpoint replace (s pat rep : string) : string :=
  if String.prefix pat s then rep +:+ sliceFrom (String.length pat) s
  else
    match s with
    | EmptyString => EmptyString
    | String a s' => String a (replace s' pat rep)
    end.

(** [l.join(sep)] on an array of strings. *)
Definition join (sep : string) (l : list string) : string := String.concat sep l.

(** [new Error(msg).toString()]. *)
Definition errorText (msg : string) : string :=
  if truthy msg then "Error: " +:+ msg else "Error".

(** *** Vocabulary of the properties *)

(** Every character of [s] passes the test [p]. *)
Fixpoint everyChar (p : ascii -> bool) (s : string) : bool :=
  match s with
  | EmptyString => true
  | String a s' => p a && everyChar p s'
  end.

(** A decimal digit. *)
Definition isDigit (a : ascii) : bool :=
  match digitValue a with Some _ => true | None => false end.

(** A decimal digit or one of the letters [a] to [f]. *)
Definition isHexDigit (a : ascii) : bool :=
  let n := N_of_ascii a in
  ((48 <=? n) && (n <=? 57) || (97 <=? n) && (n <=? 102))%N.

End JS.

(** ** [src/jupyterLauncher.ts] *)

Module Launcher.
Import JS.

Inductive JupyterType : Type := JupyterNotebook | JupyterLab.

(** The [options] argument of [launchJupyter] and [getLaunchArgs]. The
    cancellation token is read at fixed points; each reading is an input
    of the function that performs it. *)
Record Options : Type := {
  type : JupyterType;
  customize : bool;
  canGoBack : bool;
  displayOptionToIntegrateWithJupyter : bool }.

(** What [getLaunchArgs] reads from the host when it starts:
    [workspace.workspaceFolders[0].uri.fsPath] when there is a folder, and
    [os.tmpdir()]. *)
Record Env : Type := {
  workspaceFolder : option string;
  tmpDir : string }.

(** The [token] object of [getLaunchArgs]. *)
Record Token : Type := {
  value : string;
  isRandom : bool;
  isEmpty : bool }.

(** The [let] variables of [getLaunchArgs]. *)
Record Locals : Type := {
  shouldOpenBrowser : bool;
  registerWithJupyterExtension : bool;
  cors : bool;
  cwd : string;
  useCustomWorkingDirectory : bool;
  customCwd : option string;
  jupyterExtensionWorkingDirectory : option string;
  token : Token;
  password : string }.

Definition set_token (t : Token) (l : Locals) : Locals :=
  {| shouldOpenBrowser := shouldOpenBrowser l;
     registerWithJupyterExtension := registerWithJupyterExtension l;
     cors := cors l; cwd := cwd l;
     useCustomWorkingDirectory := useCustomWorkingDirectory l;
     customCwd := customCwd l;
     jupyterExtensionWorkingDirectory := jupyterExtensionWorkingDirectory l;
     token := t; password := password l |}.

Definition set_password (p : string) (l : Locals) : Locals :=
  {| shouldOpenBrowser := shouldOpenBrowser l;
     registerWithJupyterExtension := registerWithJupyterExtension l;
     cors := cors l; cwd := cwd l;
     useCustomWorkingDirectory := useCustomWorkingDirectory l;
     customCwd := customCwd l;
     jupyterExtensionWorkingDirectory := jupyterExtensionWorkingDirectory l;
     token := token l; password := p |}.

Definition set_custom (use : bool) (c : option string) (l : Locals) : Locals :=
  {| shouldOpenBrowser := shouldOpenBrowser l;
     registerWithJupyterExtension := registerWithJupyterExtension l;
     cors := cors l; cwd := cwd l;
     useCustomWorkingDirectory := use;
     customCwd := c;
     jupyterExtensionWorkingDirectory := jupyterExtensionWorkingDirectory l;
     token := token l; password := password l |}.

Definition set_mapping (m : option string) (l : Locals) : Locals :=
  {| shouldOpenBrowser := shouldOpenBrowser l;
     registerWithJupyterExtension := registerWithJupyterExtension l;
     cors := cors l; cwd := cwd l;
     useCustomWorkingDirectory := useCustomWorkingDirectory l;
     customCwd := customCwd l;
     jupyterExtensionWorkingDirectory := m;
     token := token l; password := password l |}.

(** The declarations that open [getLaunchArgs]. *)
Definition initialLocals (env : Env) : Locals :=
  let cwd0 := nullish (workspaceFolder env) (tmpDir env) in
  {| shouldOpenBrowser := false;
     registerWithJupyterExtension := true;
     cors := true;
     cwd := cwd0;
     useCustomWorkingDirectory := false;
     customCwd := None;
     jupyterExtensionWorkingDirectory := Some cwd0;
     token := {| value := ""; isRandom := true; isEmpty := false |};
     password := "" |}.

(** *** The quick pick of the wizard *)

(** The [QuickPickItem] objects. They are compared by identity
    ([includes], [!==]) and, after acceptance, by their label. *)
Inductive Item : Type :=
| passwordEnabled
| randomToken
| emptyToken
| specificToken
| localPathMapping
| cwdPrompt
| corsEnabled
| openInBrowser
| registerWithJupyterExtensionPrompt.

#[global] Instance Item_eq_dec : EqDecision Item.
Proof. solve_decision. Defined.

Definition label (i : Item) : string :=
  match i with
  | passwordEnabled => "Password"
  | randomToken => "Random Token"
  | emptyToken => "Empty Token"
  | specificToken => "Specific Token"
  | localPathMapping => "Map local dir to remote notebook dir"
  | cwdPrompt => "Custom Working Directory"
  | corsEnabled => "Allow access from other WebSites (bypass CORS)"
  | openInBrowser => "Open in browser"
  | registerWithJupyterExtensionPrompt => "Register with Jupyter Extension"
  end.

(** The [picked] property, set when the items are created and once more
    for [openInBrowser]; never written afterwards. *)
Definition picked (o : Options) (i : Item) : bool :=
  match i with
  | randomToken | corsEnabled | registerWithJupyterExtensionPrompt => true
  | openInBrowser => displayOptionToIntegrateWithJupyter o
  | _ => false
  end.

(** The [items] array. [randomToken] is not listed (its line is commented
    out in the source). *)
Definition items (o : Options) : list Item :=
  [passwordEnabled; emptyToken; specificToken; corsEnabled; openInBrowser;
   cwdPrompt; localPathMapping]
  ++ (if displayOptionToIntegrateWithJupyter o
      then [registerWithJupyterExtensionPrompt] else []).

Definition includes (l : list Item) (i : Item) : bool := bool_decide (i ∈ l).

(** [l.filter((i) => i !== a && i !== b)]. *)
Definition without2 (a b : Item) (l : list Item) : list Item :=
  List.filter
    (fun i => negb (bool_decide (i = a)) && negb (bool_decide (i = b))) l.

(** [l.filter((i) => i !== a)]. *)
Definition without (a : Item) (l : list Item) : list Item :=
  List.filter (fun i => negb (bool_decide (i = a))) l.

(** [selections.some((i) => i.label === s)]. *)
Definition someLabel (s : string) (l : list Item) : bool :=
  existsb (fun i => String.eqb (label i) s) l.

(** The state shared by the handlers of the quick pick: the selection the
    quick pick holds, the two variables the handlers close over, and the
    variables of [getLaunchArgs] they assign. The [description] texts of
    the items are display only and are left out. *)
Record Wizard : Type := {
  selectedItems : list Item;
  ignoreNext : bool;
  previousSelections : list Item;
  locals : Locals }.

(** One [onDidChangeSelection] event: the selection [e] it reports and,
    when the handler opens a sub-prompt, what that prompt resolves to
    ([window.showInputBox] for the password and the token, [captureCwd]
    for the two folders; [None] is [undefined], a dismissed prompt). *)
Record Change : Type := {
  e : list Item;
  answer : option string }.

(** How the wait for the user ends: [onDidAccept], or the Back button. *)
Inductive Outcome : Type := Accept | Back.

(** [captureToken]: [(jpToken || "").trim()]. *)
Definition captureToken (answer : option string) : string :=
  trim (match answer with
        | Some s => if truthy s then s else ""
        | None => ""
        end).

Section Wizard.

(** What the quick pick holds after the extension assigns
    [quickPick.selectedItems]. The host decides; two readings are
    given below. *)
Variable assign : list Item -> list Item.

Definition displayQuickPick (w : Wizard) : Wizard :=
  let prev := dedupe (previousSelections w) in
  {| selectedItems := assign prev;
     ignoreNext := ignoreNext w;
     previousSelections := prev;
     locals := locals w |}.

(** The handler given to [quickPick.onDidChangeSelection]. When the
    event fires the quick pick already holds the reported selection. *)
Definition onDidChangeSelection (w : Wizard) (c : Change) : Wizard :=
  let e := e c in
  let prev := previousSelections w in
  let l := locals w in
  if ignoreNext w then
    {| selectedItems := e; ignoreNext := false;
       previousSelections := e; locals := l |}
  else if includes e passwordEnabled && negb (includes prev passwordEnabled) then
    let selectedPassword := answer c in
    displayQuickPick
      (if truthy_opt selectedPassword then
         {| selectedItems := e; ignoreNext := true;
            previousSelections := prev ++ [passwordEnabled];
            locals := set_password (nullish selectedPassword "") l |}
       else
         {| selectedItems := e; ignoreNext := true;
            previousSelections := without passwordEnabled prev;
            locals := l |})
  else if includes e emptyToken && negb (includes prev emptyToken) then
    displayQuickPick
      {| selectedItems := e; ignoreNext := true;
         previousSelections := without2 randomToken specificToken prev ++ [emptyToken];
         locals :=
           set_token {| value := value (token l);
                        isRandom := false; isEmpty := true |} l |}
  else if includes e specificToken && negb (includes prev specificToken) then
    let capturedToken := captureToken (answer c) in
    displayQuickPick
      (if truthy capturedToken then
         {| selectedItems := e; ignoreNext := true;
            previousSelections := without2 emptyToken randomToken prev ++ [specificToken];
            locals :=
              set_token {| value := capturedToken;
                           isRandom := false; isEmpty := false |} l |}
       else
         {| selectedItems := e; ignoreNext := true;
            previousSelections := without2 emptyToken specificToken prev ++ [randomToken];
            locals :=
              set_token {| value := value (token l);
                           isRandom := true; isEmpty := false |} l |})
  else if includes e cwdPrompt && negb (includes prev cwdPrompt) then
    let capturedCwd := answer c in
    displayQuickPick
      (if truthy_opt capturedCwd then
         {| selectedItems := e; ignoreNext := true;
            previousSelections := prev ++ [cwdPrompt];
            locals := set_custom true capturedCwd l |}
       else
         {| selectedItems := e; ignoreNext := true;
            previousSelections := without cwdPrompt prev;
            locals := set_custom true (customCwd l) l |})
  else if includes e localPathMapping && negb (includes prev localPathMapping) then
    let mappedFolder := answer c in
    displayQuickPick
      (if truthy_opt mappedFolder then
         {| selectedItems := e; ignoreNext := true;
            previousSelections := prev ++ [localPathMapping];
            locals := set_mapping mappedFolder l |}
       else
         {| selectedItems := e; ignoreNext := true;
            previousSelections := without localPathMapping prev;
            locals := set_mapping (Some (cwd l)) l |})
  else if negb (includes e cwdPrompt) && includes prev cwdPrompt then
    displayQuickPick
      {| selectedItems := e; ignoreNext := true;
         previousSelections := e;
         locals := set_custom true (customCwd l) l |}
  else if negb (includes e emptyToken) && negb (includes e randomToken) then
    let held := assign (without2 emptyToken randomToken e ++ [randomToken]) in
    {| selectedItems := held; ignoreNext := true;
       previousSelections := held; locals := l |}
  else
    {| selectedItems := e; ignoreNext := false;
       previousSelections := e; locals := l |}.

(** The quick pick as it is first shown. *)
Definition openQuickPick (o : Options) (env : Env) : Wizard :=
  let shown := assign (List.filter (picked o) (items o)) in
  {| selectedItems := shown;
     ignoreNext := false;
     previousSelections := shown;
     locals := initialLocals env |}.

(** The selection events up to the moment the user accepts or goes
    back. *)
Definition runWizard (w : Wizard) (script : list Change) : Wizard :=
  fold_left onDidChangeSelection script w.

End Wizard.

(** The host keeps every assigned item. *)
Definition assignVerbatim (l : list Item) : list Item := l.

(** The host keeps the assigned items that are listed in [items] (what
    the extension host of VS Code does). *)
Definition assignListed (o : Options) (l : list Item) : list Item :=
  List.filter (includes (items o)) l.

(** *** After the wizard: port, token and command line *)

(** The object [getLaunchArgs] resolves to. *)
Module Info.
Record t : Type := {
  shellArgs : list string;
  token : string;
  port : N;
  password : string;
  registerWithJupyterExtension : bool;
  cwd : string;
  jupyterExtensionWorkingDirectory : option string }.
End Info.

(** The block that follows [quickPick.hide()]: what the accepted
    selection makes of the variables, or [None] where the source
    returns nothing. *)
Definition readSelections (o : Options) (outcome : Outcome) (w : Wizard)
  : option Locals :=
  match outcome with
  | Back => None
  | Accept =>
      let selections := selectedItems w in
      let l := locals w in
      if (length selections =? 0)%nat then None
      else if forallb (fun i => negb (picked o i)) selections then None
      else
        let mapped :=
          someLabel (label localPathMapping) selections
          && truthy_opt (jupyterExtensionWorkingDirectory l) in
        Some
          {| shouldOpenBrowser := someLabel (label openInBrowser) selections;
             registerWithJupyterExtension :=
               someLabel "Register with Jupyter Extension" selections;
             cors := someLabel (label corsEnabled) selections;
             cwd := cwd l;
             useCustomWorkingDirectory := useCustomWorkingDirectory l;
             customCwd := customCwd l;
             jupyterExtensionWorkingDirectory :=
               if mapped then jupyterExtensionWorkingDirectory l else None;
             token := token l;
             password :=
               if someLabel (label passwordEnabled) selections
               then password l else "" |}
  end.

(** The [if] chain on [token]: the token the server will be given, or
    the error thrown. *)
Definition resolveToken (now : N) (t : Token) : thrown + Token :=
  if isRandom t then
    inr {| value := pretty now; isRandom := isRandom t; isEmpty := isEmpty t |}
  else if isEmpty t then
    inr {| value := ""; isRandom := isRandom t; isEmpty := isEmpty t |}
  else if negb (truthy (trim (value t))) then inl (NewError "Token cannot be empty")
  else inr t.

Section Build.

(** [crypto]: the hexadecimal SHA-1 digest of a string, and the bytes
    the [k]-th call of [crypto.randomBytes(size)] returns. *)
Variable sha1Hex : string -> string.
Variable randomBytes : nat -> nat -> list N.

(** [genRandomString(length)], drawing with call number [k]. *)
Definition genRandomString (k : nat) (length : nat) : string :=
  slice0 length (toHex (randomBytes k (Nat.div2 (length + 1)))).

(** [generateHashedPassword(password)], drawing with call number [k]. *)
Definition generateHashedPassword (k : nat) (password : string) : string :=
  let salt := genRandomString k 16 in
  "sha1:" +:+ salt +:+ ":" +:+ sha1Hex (password +:+ salt).

(** The pushes onto [shellArgs], in program order. *)
Definition buildShellArgs (ty : JupyterType) (l : Locals) (tokenValue : string)
    (port : N) : list string :=
  ["-m"; "jupyter";
   match ty with JupyterLab => "lab" | JupyterNotebook => "notebook" end]
  ++ (if negb (shouldOpenBrowser l) then ["--no-browser"] else [])
  ++ (if cors l
      then ["--NotebookApp.allow_origin"; "*"; "--ServerApp.allow_origin"; "*"]
      else [])
  ++ ["--NotebookApp.token"; trim tokenValue;
      "--ServerApp.token"; trim tokenValue]
  ++ (if (0 <? String.length (trim (password l)))%nat
      then ["--NotebookApp.password"; generateHashedPassword 0 (password l);
            "--ServerApp.password"; generateHashedPassword 1 (password l)]
      else ["--NotebookApp.password"; ""; "--ServerApp.password"; ""])
  ++ (if truthy_opt (customCwd l) && useCustomWorkingDirectory l
      then ["--notebook-dir"; nullish (customCwd l) ""]
      else if truthy (cwd l) then ["--notebook-dir"; cwd l]
      else [])
  ++ ["--port"; pretty port].

(** From [getPorts.getPortPromise] to the [return]. [probe] is the
    outcome of the port probe (the port, or the message of its
    rejection), [cancelled] the reading of
    [options.token?.isCancellationRequested] after it, [now] the value
    of [Date.now()]. *)
Definition finishLaunch (ty : JupyterType) (probe : string + N)
    (cancelled : bool) (now : N) (l : Locals) : completion Info.t :=
  match probe with
  | inl reason => Thrown (Rejection reason)
  | inr port =>
      if cancelled then ReturnedUndefined
      else
        match resolveToken now (token l) with
        | inl err => Thrown err
        | inr t =>
            Returned
              {| Info.shellArgs := buildShellArgs ty l (value t) port;
                 Info.token := value t;
                 Info.port := port;
                 Info.password := password l;
                 Info.registerWithJupyterExtension :=
                   registerWithJupyterExtension l;
                 Info.cwd := cwd l;
                 Info.jupyterExtensionWorkingDirectory :=
                   jupyterExtensionWorkingDirectory l |}
        end
  end.

(** [getLaunchArgs]. With [customize] the wizard runs first: [script]
    is the sequence of selection events and [outcome] how the wait
    ends. *)
Definition getLaunchArgs (assign : list Item -> list Item) (o : Options)
    (env : Env) (script : list Change) (outcome : Outcome)
    (probe : string + N) (cancelled : bool) (now : N)
  : completion Info.t :=
  if customize o then
    match readSelections o outcome
            (runWizard assign (openQuickPick assign o env) script) with
    | None => ReturnedUndefined
    | Some l => finishLaunch (type o) probe cancelled now l
    end
  else finishLaunch (type o) probe cancelled now (initialLocals env).

End Build.

(** *** Vocabulary of the properties *)

(** The three members of the token group. *)
Inductive TokenMode : Type := Random | Empty | Specific.

(** The mode the [token] object stands for: the order of the tests is
    the order of the [if] chain that materialises the token. *)
Definition tokenMode (t : Token) : TokenMode :=
  if isRandom t then Random else if isEmpty t then Empty else Specific.

(** The item of the quick pick that stands for a mode. *)
Definition tokenItem (m : TokenMode) : Item :=
  match m with
  | Random => randomToken
  | Empty => emptyToken
  | Specific => specificToken
  end.

(** The event makes the handler open the token sub-prompt: no echo is
    awaited, the [Password] and [Empty Token] branches do not take it,
    and [Specific Token] is newly selected. *)
Definition opensTokenPrompt (w : Wizard) (c : Change) : bool :=
  negb (ignoreNext w)
  && negb (includes (e c) passwordEnabled
           && negb (includes (previousSelections w) passwordEnabled))
  && negb (includes (e c) emptyToken
           && negb (includes (previousSelections w) emptyToken))
  && includes (e c) specificToken
  && negb (includes (previousSelections w) specificToken).

(** The configuration a run of the wizard is accepted with, if it is;
    without [customize] the defaults stand. *)
Definition accepted (assign : list Item -> list Item) (o : Options) (env : Env)
    (script : list Change) (outcome : Outcome) : option Locals :=
  if customize o then
    readSelections o outcome (runWizard assign (openQuickPick assign o env) script)
  else Some (initialLocals env).

(** The working directory a configuration resolves to: the folder picked
    in the wizard when one is in force, else the default directory when
    it has a name. *)
Definition workingDirectory (l : Locals) : option string :=
  if truthy_opt (customCwd l) && useCustomWorkingDirectory l then customCwd l
  else if truthy (cwd l) then Some (cwd l)
  else None.

Definition kindWord (ty : JupyterType) : string :=
  match ty with JupyterLab => "lab" | JupyterNotebook => "notebook" end.

(** The command line in the fixed order, the working-directory flag
    being present when there is a directory [dir] to name. *)
Definition orderedArgs (ty : JupyterType) (openBrowser corsOn : bool)
    (tok pw1 pw2 : string) (dir : option string) (port : N) : list string :=
  ["-m"; "jupyter"; kindWord ty]
  ++ (if openBrowser then [] else ["--no-browser"])
  ++ (if corsOn
      then ["--NotebookApp.allow_origin"; "*"; "--ServerApp.allow_origin"; "*"]
      else [])
  ++ ["--NotebookApp.token"; tok; "--ServerApp.token"; tok]
  ++ ["--NotebookApp.password"; pw1; "--ServerApp.password"; pw2]
  ++ match dir with Some d => ["--notebook-dir"; d] | None => [] end
  ++ ["--port"; pretty port].

(** The two flags of the [token] object are not both set. *)
Definition exclusiveFlags (t : Token) : Prop :=
  isRandom t && isEmpty t = false.

(** A dismissed token sub-prompt puts the token group back where it
    was: the mode is the one before the event, and its item is among
    the selections the handler keeps. *)
Definition revertsToPrior (assign : list Item -> list Item) (w : Wizard)
    (c : Change) : Prop :=
  let w' := onDidChangeSelection assign w c in
  tokenMode (token (locals w')) = tokenMode (token (locals w))
  /\ includes (previousSelections w')
       (tokenItem (tokenMode (token (locals w)))) = true.

(** The command line as the specification words it: every flag group in
    the fixed order, the working-directory flag always there. *)
Definition specifiedArgs (ty : JupyterType) (openBrowser corsOn : bool)
    (tok pw1 pw2 dir : string) (port : N) : list string :=
  orderedArgs ty openBrowser corsOn tok pw1 pw2 (Some dir) port.

(** A token object the [if] chain of [getLaunchArgs] takes without an
    error and hands on as it is: in the mode [Specific] its value is not
    empty and has no white space around it. *)
Definition readyToken (t : Token) : Prop :=
  tokenMode t = Specific -> truthy (value t) = true /\ trim (value t) = value t.

(** Of the three token items, [l] holds the one of the mode [m] and no
    other. *)
Definition onlyTokenItem (m : TokenMode) (l : list Item) : Prop :=
  forall m', includes l (tokenItem m') = true <-> m' = m.

(** The event is a tick in the token group that the handler acts on: no
    echo is awaited, the [Password] branch does not take it, and
    [Empty Token] or [Specific Token] is newly selected. *)
Definition tokenTick (w : Wizard) (c : Change) : bool :=
  negb (ignoreNext w)
  && negb (includes (e c) passwordEnabled
           && negb (includes (previousSelections w) passwordEnabled))
  && (includes (e c) emptyToken
        && negb (includes (previousSelections w) emptyToken)
      || includes (e c) specificToken
        && negb (includes (previousSelections w) specificToken)).

(** The default directory: the first workspace folder, else the
    temporary directory. *)
Definition defaultDirectory (env : Env) : string :=
  nullish (workspaceFolder env) (tmpDir env).

(** [args] holds the flag [flag] directly followed by [v]. *)
Definition passes (args : list string) (flag v : string) : Prop :=
  exists before after, args = before ++ [flag; v] ++ after.

(** The event reports a selection made of items the quick pick lists. *)
Definition reportsListed (o : Options) (c : Change) : Prop :=
  forall i, i ∈ e c -> i ∈ items o.

(** The command line of a launch that is not customised. *)
Definition defaultArgs (ty : JupyterType) (dir : string) (now port : N)
  : list string :=
  ["-m"; "jupyter"; kindWord ty; "--no-browser";
   "--NotebookApp.allow_origin"; "*"; "--ServerApp.allow_origin"; "*";
   "--NotebookApp.token"; pretty now; "--ServerApp.token"; pretty now;
   "--NotebookApp.password"; ""; "--ServerApp.password"; ""]
  ++ (if truthy dir then ["--notebook-dir"; dir] else [])
  ++ ["--port"; pretty port].

End Launcher.

(** ** What the three revisions of [src/jupyterIntegration.ts] share *)

Module Host.
Import JS.

(** A [Terminal] of [window.terminals]: its identity, its name and what
    [await t.processId] yields. *)
Record Terminal : Type := {
  tid : nat;
  name : string;
  processId : option Z }.

#[global] Instance Terminal_eq_dec : EqDecision Terminal.
Proof. solve_decision. Defined.

(** The test on the name that opens [restoreJupyterServers]. *)
Definition isJupyterTerminal (t : Terminal) : bool :=
  startsWith (name t) "Jupyter Notebook at"
  || startsWith (name t) "Jupyter Lab at".

(** One callback of [window.terminals.map(async (t) => ...)]. *)
Definition recordTerminal (m : gmap Z Terminal) (t : Terminal) : gmap Z Terminal :=
  if negb (isJupyterTerminal t) then m
  else
    match processId t with
    | None => m
    | Some pid =>
        if negb (truthyNum pid) then m
        else if bool_decide (m !! pid = Some t) then m
        else <[pid := t]> m
    end.

(** The map [terminalsByPid] once [Promise.all] has settled; the
    callbacks are taken in the order of [window.terminals]. *)
Definition terminalsByPid (terminals : list Terminal) : gmap Z Terminal :=
  fold_left recordTerminal terminals ∅.

(** [OutputChannel.instance?.appendLine(line)]. *)
Definition appendLine (line : string) (channel : option (list string))
  : option (list string) :=
  match channel with
  | Some lines => Some (lines ++ [line])
  | None => None
  end.

(** The server object [launchJupyter] resolves to. [dispose] names the
    terminal the closure disposes, if any. *)
Record JupyterServer : Type := {
  shellArgs : list string;
  token : string;
  port : option Z;
  password : string;
  registerWithJupyterExtension : bool;
  dispose : option nat;
  pid : Z;
  type : Launcher.JupyterType;
  baseUrl : string;
  cwd : string;
  jupyterExtensionWorkingDirectory : option string }.

Definition typeName (t : Launcher.JupyterType) : string :=
  match t with
  | Launcher.JupyterNotebook => "Jupyter Notebook"
  | Launcher.JupyterLab => "Jupyter Lab"
  end.

(** What the [catch] of [startJupyterServer] (the two later revisions)
    receives: the [CancellationError] it throws itself when the launch
    returns nothing, or what [launchJupyter] has thrown. *)
Inductive Caught : Type :=
| CaughtCancellation
| CaughtThrown (err : thrown).

(** The options [startJupyterServer] (the two later revisions) gives to
    [launchJupyter]. *)
Definition pickerOptions (ty : Launcher.JupyterType) : Launcher.Options :=
  {| Launcher.type := ty; Launcher.customize := true;
     Launcher.canGoBack := false;
     Launcher.displayOptionToIntegrateWithJupyter := false |}.

(** The line [addJupyterServer] writes when the process id is registered
    already (the revisions that key the registry by string). *)
Definition duplicateWarning (p : Z) : string :=
  "[Warning]: Jupyter server already started for this workspace with pid "
    +:+ pretty p +:+ ".".

End Host.

(** ** [src/helpers.ts] *)

Module Helpers.
Import JS Host.

(** What [logAndDisplayError] writes to: the messages shown with
    [window.showErrorMessage] and the lines of the output channel
    ([None] while there is no channel). *)
Record Ui : Type := {
  errorMessages : list string;
  channel : option (list string) }.

(** [logAndDisplayError(ex)] for an [ex] whose [message] property reads
    [message] ([None] when it has none) and whose [toString()] gives
    [text]. *)
Definition logAndDisplayError (message : option string) (text : string)
    (ui : Ui) : Ui :=
  {| errorMessages :=
       errorMessages ui
       ++ [if truthy_opt message then nullish message "" else text];
     channel := appendLine ("[Error]:" +:+ text) (channel ui) |}.

Section Dispose.

(** The objects with a [dispose] method. An element of the array may be
    a hole ([None]: [undefined] or [null]). A call of [dispose] is
    recorded whether it returns or throws; what it throws is dropped by
    the [catch]. *)
Context {D : Type}.

(** [disposables.pop()]: the last element and the array without it,
    [None] on the empty array. *)
Definition pop (disposables : list (option D))
  : option (option D * list (option D)) :=
  match List.rev disposables with
  | [] => None
  | item :: front => Some (item, List.rev front)
  end.

(** The [while] loop of [disposeAllDisposables] for at most [fuel]
    rounds: the array as the loop leaves it and the calls of [dispose]
    made, in order, after those of [disposed]. *)
Fixpoint disposeLoop (fuel : nat) (disposables : list (option D))
    (disposed : list D) : list (option D) * list D :=
  match fuel with
  | O => (disposables, disposed)
  | S fuel' =>
      match pop disposables with
      | None => (disposables, disposed)
      | Some (item, rest) =>
          disposeLoop fuel' rest
            match item with
            | Some d => disposed ++ [d]
            | None => disposed
            end
      end
  end.

(** [disposeAllDisposables]: every round pops one element, so as many
    rounds as the array is long are all the loop can make. *)
Definition disposeAllDisposables (disposables : list (option D))
    (disposed : list D) : list (option D) * list D :=
  disposeLoop (length disposables) disposables disposed.

(** [Disposables.push]. *)
Definition push (disposables : list (option D)) (disposable : D)
  : list (option D) :=
  disposables ++ [Some disposable].

End Dispose.

(** A [Uri | string] argument of [getDisplayPath]; of a [Uri] only the
    [fsPath] is read. *)
Inductive PathArg : Type :=
| AUri (fsPath : string)
| AString (s : string).

(** [!a] is false. *)
Definition given (a : option PathArg) : bool :=
  match a with
  | None => false
  | Some (AString s) => truthy s
  | Some (AUri _) => true
  end.

Section DisplayPath.

(** [Uri.file(s).fsPath] and [path.basename]. *)
Variable fileFsPath : string -> string.
Variable basename : string -> string.

(** [a instanceof Uri ? a : Uri.file(a)], read through [fsPath]. *)
Definition fsPathOf (a : PathArg) : string :=
  match a with
  | AUri p => p
  | AString s => fileFsPath s
  end.

(** The directory the path is shown against: the [cwd] argument when
    it is given, else the first workspace folder when there is one
    ([workspaceFolder] is its [uri.fsPath]). *)
Definition displayRoot (workspaceFolder : option string) (cwd : option PathArg)
  : option string :=
  match cwd with
  | Some c => if given cwd then Some (fsPathOf c) else workspaceFolder
  | None => workspaceFolder
  end.

(** [getDisplayPath(file, cwd)]; [homeDir] is [os.homedir()]. *)
Definition getDisplayPath (homeDir : string) (workspaceFolder : option string)
    (file cwd : option PathArg) : string :=
  match file with
  | None => ""
  | Some f =>
      if negb (given file) then ""
      else
        let file := fsPathOf f in
        let home :=
          if startsWith file homeDir then replace file homeDir "~" else file in
        match displayRoot workspaceFolder cwd with
        | Some cwd =>
            if String.eqb file cwd then basename file
            else if startsWith file cwd then replace file cwd "."
            else home
        | None => home
        end
  end.

End DisplayPath.

End Helpers.

(** ** [src/jupyterLauncher.ts]: [launchJupyter] *)

Module Launch.
Import JS Launcher Host.

(** [resolvedEnv.environment]. *)
Module Environment.
Record t : Type := {
  type : option string;
  name : option string }.
End Environment.

(** What [pythonExt.environments.resolveEnvironment] resolves to:
    [executable.uri] by its [fsPath] ([None] when there is none),
    [executable.sysPrefix] and [environment]. *)
Module Resolved.
Record t : Type := {
  uri : option string;
  sysPrefix : string;
  environment : option Environment.t }.
End Resolved.

(** What [launchJupyter] reads from the host once the launch parameters
    are there: whether the Python extension exports its API, the
    resolved environment ([None] for [undefined]), the reading of
    [options.token?.isCancellationRequested] that follows, the variables
    [PATH] and [Path] of [process.env], and of the terminal
    [window.createTerminal] returns its identity and what
    [await terminal.processId] yields. *)
Record Platform : Type := {
  pythonExt : bool;
  resolvedEnv : option Resolved.t;
  isCancellationRequested : bool;
  envPATH : option string;
  envPath : option string;
  terminalId : nat;
  terminalPid : option Z }.

(** The options given to [window.createTerminal]; of [env] the two
    variables the function writes. *)
Module TerminalOptions.
Record t : Type := {
  name : string;
  shellPath : string;
  shellArgs : list string;
  cwd : string;
  PATH : option string;
  Path : option string;
  message : string }.
End TerminalOptions.

(** What [launchJupyter] does that can be seen: the calls of
    [options.showProgress], the messages given to [progress.report], the
    error messages and the output channel, the terminals created (with
    their identity) and the terminals disposed. *)
Record Trace : Type := {
  shown : nat;
  reports : list string;
  ui : Helpers.Ui;
  terminals : list (nat * TerminalOptions.t);
  disposed : list nat }.

Definition showProgress (given : bool) (tr : Trace) : Trace :=
  if given then
    {| shown := S (shown tr); reports := reports tr; ui := ui tr;
       terminals := terminals tr; disposed := disposed tr |}
  else tr.

Definition report (msg : string) (tr : Trace) : Trace :=
  {| shown := shown tr; reports := reports tr ++ [msg]; ui := ui tr;
     terminals := terminals tr; disposed := disposed tr |}.

Definition appendLine (line : string) (tr : Trace) : Trace :=
  {| shown := shown tr; reports := reports tr;
     ui := {| Helpers.errorMessages := Helpers.errorMessages (ui tr);
              Helpers.channel := Host.appendLine line (Helpers.channel (ui tr)) |};
     terminals := terminals tr; disposed := disposed tr |}.

Definition createTerminal (id : nat) (options : TerminalOptions.t) (tr : Trace)
  : Trace :=
  {| shown := shown tr; reports := reports tr; ui := ui tr;
     terminals := terminals tr ++ [(id, options)]; disposed := disposed tr |}.

(** The [catch] block: [logAndDisplayError(ex)] for the [Error] made
    with [msg], then [terminal.dispose()]. *)
Definition catchAndDispose (msg : string) (id : nat) (tr : Trace) : Trace :=
  {| shown := shown tr; reports := reports tr;
     ui := Helpers.logAndDisplayError (Some msg) (errorText msg) (ui tr);
     terminals := terminals tr; disposed := disposed tr ++ [id] |}.

(** The terminal [window.createTerminal] has made, as
    [window.terminals] lists it. *)
Definition terminalOf (h : Platform) (options : TerminalOptions.t) : Terminal :=
  {| tid := terminalId h;
     Host.name := TerminalOptions.name options;
     processId := terminalPid h |}.

Section Launch.

(** [crypto] as in [getLaunchArgs], the host's reading of an assigned
    selection, and [path.dirname] and [path.delimiter]. *)
Variable sha1Hex : string -> string.
Variable randomBytes : nat -> nat -> list N.
Variable assign : list Item -> list Item.
Variable dirname : string -> string.
Variable delimiter : string.

(** The assignment to [pythonEnv.PATH] (and to [pythonEnv.Path]), made
    when the variable is set and not empty. *)
Definition withPython (r : Resolved.t) (fsPath : string) (v : option string)
  : option string :=
  if truthy_opt v then
    Some (dirname fsPath +:+ delimiter +:+ Resolved.sysPrefix r +:+ delimiter
            +:+ nullish v "")
  else v.

(** The name in the message for an environment that is refused:
    [environment.name || executable.uri.fsPath || executable.sysPrefix]. *)
Definition environmentLabel (r : Resolved.t) (e : Environment.t)
    (fsPath : string) : string :=
  if truthy_opt (Environment.name e) then nullish (Environment.name e) ""
  else if truthy fsPath then fsPath
  else Resolved.sysPrefix r.

(** The callback given to [window.withProgress]. *)
Definition startServer (progress : bool) (ty : JupyterType) (launchInfo : Info.t)
    (h : Platform) (tr : Trace) : Trace * completion JupyterServer :=
  let tr := showProgress progress tr in
  if negb (pythonExt h) then (tr, Thrown (NewError "Python extension not found"))
  else if isCancellationRequested h then (tr, ReturnedUndefined)
  else
    match resolvedEnv h with
    | None => (tr, Thrown (NewError "Python environment not found"))
    | Some r =>
        match Resolved.uri r with
        | None => (tr, Thrown (NewError "Python environment not found"))
        | Some fsPath =>
            let refused :=
              match Resolved.environment r with
              | Some e =>
                  if truthy_opt (Environment.type e)
                     && negb (String.eqb (nullish (Environment.type e) "")
                                "VirtualEnvironment")
                  then Some e else None
              | None => None
              end in
            match refused with
            | Some e =>
                (tr,
                 Thrown
                   (NewError
                      ("Selected Python environment ("
                         +:+ environmentLabel r e fsPath
                         +:+ ") is not a virtual env")))
            | None =>
                let tr := report "Resolving Python Environment" tr in
                let shellArgs := Info.shellArgs launchInfo in
                let port := Info.port launchInfo in
                let token := Info.token launchInfo in
                let shellPath := fsPath in
                let starting :=
                  "Starting Jupyter with " +:+ shellPath +:+ " "
                    +:+ join " " shellArgs in
                let tr := appendLine starting tr in
                let baseUrl := "http://localhost:" +:+ pretty port +:+ "/" in
                let url :=
                  "http://localhost:" +:+ pretty port +:+ "/?token=" +:+ token in
                let tr := report "Creating terminal..." tr in
                let options :=
                  {| TerminalOptions.name := typeName ty +:+ " at " +:+ pretty port;
                     TerminalOptions.shellPath := shellPath;
                     TerminalOptions.shellArgs := shellArgs;
                     TerminalOptions.cwd := Info.cwd launchInfo;
                     TerminalOptions.PATH := withPython r fsPath (envPATH h);
                     TerminalOptions.Path := withPython r fsPath (envPath h);
                     TerminalOptions.message := starting |} in
                let tr := createTerminal (terminalId h) options tr in
                let tr := appendLine ("Jupyter Started at " +:+ url) tr in
                let tr := report "Waiting for server..." tr in
                let tr := report "Waiting for terminal process..." tr in
                match terminalPid h with
                | Some pid =>
                    if truthyNum pid then
                      (tr,
                       Returned
                         {| Host.shellArgs := shellArgs;
                            Host.token := token;
                            Host.port := Some (Z.of_N port);
                            Host.password := Info.password launchInfo;
                            Host.registerWithJupyterExtension :=
                              Info.registerWithJupyterExtension launchInfo;
                            Host.dispose := Some (terminalId h);
                            Host.pid := pid;
                            Host.type := ty;
                            Host.baseUrl := baseUrl;
                            Host.cwd := Info.cwd launchInfo;
                            Host.jupyterExtensionWorkingDirectory :=
                              Info.jupyterExtensionWorkingDirectory launchInfo |})
                    else
                      (catchAndDispose "Failed to get PID" (terminalId h) tr,
                       ReturnedUndefined)
                | None =>
                    (catchAndDispose "Failed to get PID" (terminalId h) tr,
                     ReturnedUndefined)
                end
            end
        end
    end.

(** [launchJupyter]; [progress] tells whether [options.showProgress] is
    given, the other arguments are those of [getLaunchArgs]. *)
Definition launchJupyter (progress : bool) (o : Options) (env : Env)
    (script : list Change) (outcome : Outcome) (probe : string + N)
    (cancelled : bool) (now : N) (h : Platform) (tr : Trace)
  : Trace * completion JupyterServer :=
  let tr := showProgress progress tr in
  match getLaunchArgs sha1Hex randomBytes assign o env script outcome probe
          cancelled now with
  | Thrown err => (tr, Thrown err)
  | ReturnedUndefined => (tr, ReturnedUndefined)
  | Returned launchInfo => startServer progress (Launcher.type o) launchInfo h tr
  end.

End Launch.

(** *** Vocabulary of the properties *)

(** The conditions under which the callback goes on to create a
    terminal: the Python extension is there, no cancellation was
    requested, the environment is resolved with an executable, and its
    type, when it has one, is [VirtualEnvironment]. *)
Definition admitted (h : Platform) : bool :=
  pythonExt h && negb (isCancellationRequested h)
  && match resolvedEnv h with
     | Some r =>
         match Resolved.uri r with
         | Some _ =>
             match Resolved.environment r with
             | Some e =>
                 negb (truthy_opt (Environment.type e))
                 || String.eqb (nullish (Environment.type e) "") "VirtualEnvironment"
             | None => true
             end
         | None => false
         end
     | None => false
     end.

(** The terminal yields a process id that is not [0]. *)
Definition hasPid (h : Platform) : bool :=
  match terminalPid h with
  | Some pid => truthyNum pid
  | None => false
  end.

End Launch.

(** ** [src/jupyterIntegration.ts], the revision that registers an
       [IJupyterUriProvider] (handles are process ids, the registry is
       keyed by number) *)

Module Provider.
Import JS Host.

(** [IJupyterServerUri & Disposable]. *)
Record IJupyterServerUri : Type := {
  baseUrl : string;
  token : string;
  displayName : string;
  mappedRemoteNotebookDir : option string;
  authorizationHeader : option (list (string * string));
  dispose : option nat }.

(** A value of the [servers] map. *)
Record Entry : Type := {
  serverUri : IJupyterServerUri;
  serverInfo : JupyterServer }.

(** An element of the list the memento holds. It is read back from
    storage, so the element ([None] for [null] or [undefined]), its
    [serverUri] and its [serverInfo] may be missing; a [serverInfo]
    without a [pid] goes the way of one whose [pid] is [0]. *)
Record Stored : Type := {
  s_serverUri : option IJupyterServerUri;
  s_serverInfo : option JupyterServer }.

(** The module state: the [servers] map, the number of times
    [onDidChangeHandles.fire()] has run, the terminals disposed so far,
    the lines of the output channel ([None] while there is no channel),
    and the list the memento holds under ["jupyterServers"]. *)
Record State : Type := {
  servers : gmap Z Entry;
  fired : nat;
  disposed : list nat;
  channel : option (list string);
  memento : list (option Stored) }.

(** [d.dispose()] for the closure of a server object. *)
Definition runDispose (d : option nat) (disposed : list nat) : list nat :=
  match d with
  | Some t => disposed ++ [t]
  | None => disposed
  end.

(** [servers.get(k)] for a key that may be [NaN]; no key is [NaN]. *)
Definition getNum (m : gmap Z Entry) (k : option Z) : option Entry :=
  match k with
  | Some k => m !! k
  | None => None
  end.

(** [servers.delete(k)] for a key that may be [NaN]. *)
Definition deleteNum (m : gmap Z Entry) (k : option Z) : gmap Z Entry :=
  match k with
  | Some k => delete k m
  | None => m
  end.

Definition shutdownJupyterServer (st : State) (terminal : Terminal) : State :=
  match processId terminal with
  | None => st
  | Some pid =>
      if negb (truthyNum pid) then st
      else
        match servers st !! pid with
        | None => st
        | Some server =>
            {| servers := delete pid (servers st);
               fired := S (fired st);
               disposed := runDispose (Host.dispose (serverInfo server)) (disposed st);
               channel := channel st;
               memento := memento st |}
        end
  end.

(** A value of the [servers] map as an element of the stored list. *)
Definition asStored (server : Entry) : option Stored :=
  Some {| s_serverUri := Some (serverUri server);
          s_serverInfo := Some (serverInfo server) |}.

(** [storeJupyterServers]: the list is read, extended and written back. *)
Definition storeJupyterServers (stored : list (option Stored)) (server : Entry)
  : list (option Stored) :=
  stored ++ [asStored server].

Definition addJupyterServer (st : State) (server : JupyterServer) : State :=
  match servers st !! Host.pid server with
  | Some _ =>
      {| servers := servers st;
         fired := fired st;
         disposed := disposed st;
         channel :=
           appendLine
             ("[Warning]: Jupyter server already started for this workspace with information "
                +:+ pretty (Host.pid server) +:+ ".")
             (channel st);
         memento := memento st |}
  | None =>
      let details :=
        {| serverInfo := server;
           serverUri :=
             {| baseUrl := Host.baseUrl server;
                token := Host.token server;
                displayName :=
                  typeName (Host.type server) +:+ " " +:+ Host.baseUrl server;
                mappedRemoteNotebookDir :=
                  Host.jupyterExtensionWorkingDirectory server;
                authorizationHeader := None;
                dispose := Host.dispose server |} |} in
      {| servers := <[Host.pid server := details]> (servers st);
         fired := S (fired st);
         disposed := disposed st;
         channel := channel st;
         memento := storeJupyterServers (memento st) details |}
  end.

(** [uriProvider.getServerUri]. *)
Definition getServerUri (st : State) (handle : string)
  : completion IJupyterServerUri :=
  match getNum (servers st) (parseInt handle) with
  | None => Thrown (NewError "Invalid handle")
  | Some server => Returned (serverUri server)
  end.

(** [uriProvider.removeHandle]. *)
Definition removeHandle (st : State) (handle : string) : State :=
  let k := parseInt handle in
  {| servers := deleteNum (servers st) k;
     fired := S (fired st);
     disposed :=
       match getNum (servers st) k with
       | Some server => runDispose (Host.dispose (serverInfo server)) (disposed st)
       | None => disposed st
       end;
     channel := channel st;
     memento := memento st |}.

(** [server.serverInfo.dispose = ...]. *)
Definition set_dispose (d : option nat) (s : JupyterServer) : JupyterServer :=
  {| Host.shellArgs := Host.shellArgs s; Host.token := Host.token s;
     Host.port := Host.port s; Host.password := Host.password s;
     Host.registerWithJupyterExtension := Host.registerWithJupyterExtension s;
     Host.dispose := d; Host.pid := Host.pid s; Host.type := Host.type s;
     Host.baseUrl := Host.baseUrl s; Host.cwd := Host.cwd s;
     Host.jupyterExtensionWorkingDirectory :=
       Host.jupyterExtensionWorkingDirectory s |}.

(** One callback of the [forEach] of [restoreJupyterServers]: the new
    state and the stored object as the callback leaves it. The three
    tests of the guard are taken in the order of the source:
    [!server?.serverInfo?.pid], [!server?.serverUri], and the process id
    being neither in the inventory nor registered. The closure written
    to [dispose] disposes the terminal the inventory holds for the
    process id, if it holds one; the object put into [servers] is the
    stored one. *)
Definition restoreOne (byPid : gmap Z Terminal) (st : State)
    (server : option Stored) : State * option Stored :=
  match server ≫= s_serverInfo with
  | None => (st, server)
  | Some info =>
      let pid := Host.pid info in
      if negb (truthyNum pid) then (st, server)
      else
        match server ≫= s_serverUri with
        | None => (st, server)
        | Some uri =>
            if negb (bool_decide (is_Some (byPid !! pid)))
               && negb (bool_decide (is_Some (servers st !! pid)))
            then (st, server)
            else
              let server' :=
                {| serverUri := uri;
                   serverInfo := set_dispose (tid <$> byPid !! pid) info |} in
              ({| servers := <[pid := server']> (servers st);
                  fired := fired st;
                  disposed := disposed st;
                  channel := channel st;
                  memento := memento st |}, asStored server')
        end
  end.

(** The [forEach] over the stored list. *)
Fixpoint restoreEach (byPid : gmap Z Terminal) (st : State)
    (todo : list (option Stored)) : State * list (option Stored) :=
  match todo with
  | [] => (st, [])
  | server :: rest =>
      let '(st1, server') := restoreOne byPid st server in
      let '(st2, rest') := restoreEach byPid st1 rest in
      (st2, server' :: rest')
  end.

(** [restoreJupyterServers]. Nothing assigns [updated] after its
    declaration. *)
Definition restoreJupyterServers (terminals : list Terminal) (st : State) : State :=
  let updated := false in
  let '(st', stored) := restoreEach (terminalsByPid terminals) st (memento st) in
  {| servers := servers st';
     fired := if updated then S (fired st') else fired st';
     disposed := disposed st';
     channel := channel st';
     memento := stored |}.

(** The [QuickPickItem] given to [handleQuickPick]; a missing [default]
    is [false]. *)
Module QuickPickItem.
Record t : Type := {
  label : string;
  default : bool }.
End QuickPickItem.

(** The options [handleQuickPick] launches with, by the branch the item
    selects; [None] when no branch takes the item. *)
Definition handleOptions (item : QuickPickItem.t) (backEnabled : bool)
  : option Launcher.Options :=
  if String.eqb (QuickPickItem.label item) "Start New Jupyter Notebook Server"
     && QuickPickItem.default item
  then Some {| Launcher.type := Launcher.JupyterNotebook;
               Launcher.customize := false;
               Launcher.canGoBack := false;
               Launcher.displayOptionToIntegrateWithJupyter := false |}
  else if String.eqb (QuickPickItem.label item) "Start New Jupyter Notebook Server"
  then Some {| Launcher.type := Launcher.JupyterNotebook;
               Launcher.customize := true;
               Launcher.canGoBack := backEnabled;
               Launcher.displayOptionToIntegrateWithJupyter := false |}
  else if String.eqb (QuickPickItem.label item) "Start New Jupyter Lab Server"
  then Some {| Launcher.type := Launcher.JupyterLab;
               Launcher.customize := true;
               Launcher.canGoBack := backEnabled;
               Launcher.displayOptionToIntegrateWithJupyter := false |}
  else None.

Section HandleQuickPick.

(** [crypto], the host's reading of an assigned selection, and [path],
    as in [launchJupyter]. *)
Variable sha1Hex : string -> string.
Variable randomBytes : nat -> nat -> list N.
Variable assign : list Launcher.Item -> list Launcher.Item.
Variable dirname : string -> string.
Variable delimiter : string.

(** [uriProvider.handleQuickPick]; [item] is [None] for a missing item.
    [showProgress] is called once before the launch, and it is the
    function given to [launchJupyter]. The [logAndDisplayError] of the
    [catch] is the one this file declares: it throws. The lines the
    launch writes to the output channel are kept in the trace, the line
    of [addJupyterServer] in the registry state. *)
Definition handleQuickPick (item : option QuickPickItem.t) (backEnabled : bool)
    (env : Launcher.Env) (script : list Launcher.Change)
    (outcome : Launcher.Outcome) (probe : string + N) (cancelled : bool)
    (now : N) (h : Launch.Platform) (tr : Launch.Trace) (st : State)
  : Launch.Trace * State * completion string :=
  match item with
  | None => (tr, st, ReturnedUndefined)
  | Some item =>
      let tr := Launch.showProgress true tr in
      match handleOptions item backEnabled with
      | None => (tr, st, ReturnedUndefined)
      | Some o =>
          let '(tr', launched) :=
            Launch.launchJupyter sha1Hex randomBytes assign dirname delimiter
              true o env script outcome probe cancelled now h tr in
          match launched with
          | Returned server =>
              (tr', addJupyterServer st server, Returned (pretty (Host.pid server)))
          | ReturnedUndefined => (tr', st, ReturnedUndefined)
          | Thrown _ => (tr', st, Thrown (NewError "Function not implemented."))
          end
      end
  end.

End HandleQuickPick.

(** *** Vocabulary of the properties *)

(** A stored element the guard of [restoreJupyterServers] stops on its
    own account, whatever the inventory holds: it is [null], or it lacks
    its [serverInfo], a process id that is not [0], or its [serverUri]. *)
Definition incomplete (server : option Stored) : Prop :=
  match server ≫= s_serverInfo, server ≫= s_serverUri with
  | Some info, Some _ => truthyNum (Host.pid info) = false
  | _, _ => True
  end.

End Provider.

(** ** [src/jupyterIntegration.ts], the revision that creates servers in a
       [JupyterServerCollection] (the registry is keyed by the process id
       printed as a string) *)

Module Collection.
Import JS Host.

(** Things with a [dispose] method that end up in [disposables]: a
    terminal, a launched server, or the [n]-th object returned by
    [collection.createServer]. *)
Inductive Disposable : Type :=
| DTerminal (t : Terminal)
| DServer (s : JupyterServer)
| DCreated (n : nat).

Section WithUri.

(** [vscode.Uri] and [Uri.parse] on a string. *)
Context {Uri : Type}.
Variable uriParse : string -> Uri.

(** [IJupyterServerUri]: the connection information with [label] and
    [pid]. *)
Record IJupyterServerUri : Type := {
  pid : Z;
  baseUrl : Uri;
  token : string;
  label : string;
  mappedRemoteNotebookDir : option string;
  authorizationHeader : option (list (string * string)) }.

(** A value of the [servers] map. *)
Record Entry : Type := {
  serverUri : IJupyterServerUri;
  disposables : list Disposable }.

(** An element of the list the memento holds. It is read back from
    storage, so the element ([None] for [null]) and its [serverUri]
    may be missing. *)
Record Stored : Type := {
  s_serverUri : option IJupyterServerUri;
  s_disposables : list Disposable }.

(** The module state: the [servers] map, the [(id, label)] pairs given
    to [collection.createServer] so far, the lines of the output
    channel, and the list the memento holds under ["jupyterServers"]. *)
Record State : Type := {
  servers : gmap string Entry;
  created : list (string * string);
  channel : option (list string);
  memento : list (option Stored) }.

(** One callback of the [forEach] of [restoreJupyterServers]. The
    object adopted into [servers] is the stored one with its
    [disposables] replaced. The list the memento hands out holds that
    same object, but nothing reads its [disposables] from there
    ([restoreJupyterServers] reads [serverUri] only, [storeJupyterServers]
    writes every element back with [disposables: []]), so the list is
    kept as it is. *)
Definition restoreOne (byPid : gmap Z Terminal) (st : State)
    (server : option Stored) : State :=
  match server ≫= s_serverUri with
  | None => st
  | Some u =>
      if negb (truthyNum (pid u)) then st
      else if bool_decide (is_Some (servers st !! pretty (pid u))) then st
      else
        match byPid !! pid u with
        | None => st
        | Some terminal =>
            let vscServer := length (created st) in
            {| servers :=
                 <[pretty (pid u) :=
                     {| serverUri := u;
                        disposables := [DTerminal terminal; DCreated vscServer] |}]>
                   (servers st);
               created := created st ++ [(pretty (pid u), label u)];
               channel := channel st;
               memento := memento st |}
        end
  end.

Definition restoreJupyterServers (terminals : list Terminal) (st : State) : State :=
  fold_left (restoreOne (terminalsByPid terminals)) (memento st) st.

(** [{ ...s, disposables: [] }]. *)
Definition withoutDisposables (s : option Stored) : option Stored :=
  Some {| s_serverUri := s ≫= s_serverUri; s_disposables := [] |}.

(** [storeJupyterServers]. *)
Definition storeJupyterServers (stored : list (option Stored)) (server : Entry)
  : list (option Stored) :=
  withoutDisposables
    <$> (stored ++ [Some {| s_serverUri := Some (serverUri server);
                            s_disposables := disposables server |}]).

(** [addJupyterServer]: the new state and the value returned (the index
    of the object created in the collection, or [None] for
    [undefined]). *)
Definition addJupyterServer (st : State) (server : JupyterServer)
  : State * option nat :=
  if bool_decide (is_Some (servers st !! pretty (Host.pid server))) then
    ({| servers := servers st;
        created := created st;
        channel :=
          appendLine
            ("[Warning]: Jupyter server already started for this workspace with pid "
               +:+ pretty (Host.pid server) +:+ ".")
            (channel st);
        memento := memento st |}, None)
  else
    let jupyterServer :=
      {| pid := Host.pid server;
         baseUrl := uriParse (Host.baseUrl server);
         token := Host.token server;
         label := typeName (Host.type server) +:+ " " +:+ Host.baseUrl server;
         mappedRemoteNotebookDir := Host.jupyterExtensionWorkingDirectory server;
         authorizationHeader := None |} in
    let vsCodeServer := length (created st) in
    let details :=
      {| serverUri := jupyterServer;
         disposables := [DServer server; DCreated vsCodeServer] |} in
    ({| servers := <[pretty (Host.pid server) := details]> (servers st);
        created :=
          created st
          ++ [(pretty (Host.pid server),
               "Jupyter Notebook at " +:+ Host.baseUrl server)];
        channel := channel st;
        memento := storeJupyterServers (memento st) details |},
     Some vsCodeServer).

(** [shutdownJupyterServer]: the new state and the objects whose
    [dispose] was called, in order (what a call throws is dropped). *)
Definition shutdownJupyterServer (st : State) (terminal : Terminal)
  : State * list Disposable :=
  match processId terminal with
  | None => (st, [])
  | Some p =>
      if negb (truthyNum p) then (st, [])
      else
        match servers st !! pretty p with
        | None => (st, [])
        | Some server =>
            ({| servers := delete (pretty p) (servers st);
                created := created st;
                channel := channel st;
                memento := memento st |}, disposables server)
        end
  end.

Section Start.

(** [crypto], the host's reading of an assigned selection, and [path],
    as in [launchJupyter]; [describe] is the text of what is caught, as
    the template literal of the log line makes it. *)
Variable sha1Hex : string -> string.
Variable randomBytes : nat -> nat -> list N.
Variable assign : list Launcher.Item -> list Launcher.Item.
Variable dirname : string -> string.
Variable delimiter : string.
Variable describe : Caught -> string.

(** [startJupyterServer]: the trace of the launch, the registry and the
    value returned. [showProgress] is called once before the launch, and
    it is the function given to [launchJupyter]. The lines the launch and
    the [catch] write to the output channel are kept in the trace, the
    line of [addJupyterServer] in the registry state. *)
Definition startJupyterServer (ty : Launcher.JupyterType) (env : Launcher.Env)
    (script : list Launcher.Change) (outcome : Launcher.Outcome)
    (probe : string + N) (cancelled : bool) (now : N) (h : Launch.Platform)
    (tr : Launch.Trace) (st : State) : Launch.Trace * State * option nat :=
  let tr := Launch.showProgress true tr in
  let '(tr', launched) :=
    Launch.launchJupyter sha1Hex randomBytes assign dirname delimiter true
      (pickerOptions ty) env script outcome probe cancelled now h tr in
  let failed (ex : Caught) :=
    (Launch.appendLine
       ("[Error]: Failed to start " +:+ typeName ty +:+ ", " +:+ describe ex) tr',
     st, None) in
  match launched with
  | Returned server =>
      let '(st', created) := addJupyterServer st server in (tr', st', created)
  | ReturnedUndefined => failed CaughtCancellation
  | Thrown err => failed (CaughtThrown err)
  end.

End Start.

(** *** Vocabulary of the properties *)

(** The callback passes over the record: its process id is falsy, or
    registered already, or without a terminal. *)
Definition settled (byPid : gmap Z Terminal) (st : State)
    (stored : option Stored) : Prop :=
  forall u, stored ≫= s_serverUri = Some u ->
    truthyNum (pid u) = false
    \/ is_Some (servers st !! pretty (pid u))
    \/ byPid !! pid u = None.

End WithUri.

Arguments IJupyterServerUri : clear implicits.
Arguments Entry : clear implicits.
Arguments Stored : clear implicits.
Arguments State : clear implicits.

End Collection.

(** ** [jupyterIntegration.ts], the revision that installs a
       [serverProvider] on the collection and fires [onDidChangeServers] *)

Module ServerProvider.
Import JS Host.

(** Things with a [dispose] method that end up in [disposables]. *)
Inductive Disposable : Type :=
| DTerminal (t : Terminal)
| DServer (s : JupyterServer).

(** The [serverUri] objects are shared between the list the memento
    hands out and the registry, and [restoreJupyterServers] writes into
    them; they live in a store and are named by their location. *)
Definition loc : Type := positive.

Section WithUri.

(** [Uri]: the values a [baseUrl] property holds. [uriParse] is
    [Uri.parse] on a string, [uriReparse] is [Uri.parse] given the
    value of a [baseUrl] property, [uriFile] is [Uri.file],
    [uriToString] is [toString()], and [urlPort s] is
    [new URL(s).port], [None] when the constructor throws. *)
Context {Uri : Type}.
Variable uriParse : string -> Uri.
Variable uriReparse : Uri -> Uri.
Variable uriFile : string -> Uri.
Variable uriToString : Uri -> string.
Variable urlPort : string -> option string.

(** [IJupyterServerUri]. A stored object may lack its [baseUrl]. *)
Record IJupyterServerUri : Type := {
  pid : Z;
  baseUrl : option Uri;
  token : string;
  label : string;
  mappedRemoteNotebookDir : option Uri;
  authorizationHeader : option (list (string * string)) }.

Definition set_baseUrl (b : option Uri) (u : IJupyterServerUri)
  : IJupyterServerUri :=
  {| pid := pid u; baseUrl := b; token := token u; label := label u;
     mappedRemoteNotebookDir := mappedRemoteNotebookDir u;
     authorizationHeader := authorizationHeader u |}.

(** A value of the [servers] map. *)
Record Entry : Type := {
  serverUri : loc;
  server : JupyterServer;
  disposables : list Disposable }.

(** An element of the list the memento holds ([None] for [null]). *)
Record Stored : Type := {
  s_serverUri : option loc;
  s_server : option JupyterServer;
  s_disposables : list Disposable }.

(** The module state: the [servers] map, the store of [serverUri]
    objects, the number of times [onDidChangeServers.fire()] has run,
    the lines of the output channel, and the list the memento holds
    under ["jupyterServers"]. *)
Record State : Type := {
  servers : gmap string Entry;
  uris : gmap loc IJupyterServerUri;
  fired : nat;
  channel : option (list string);
  memento : list (option Stored) }.

Definition set_uris (h : gmap loc IJupyterServerUri) (st : State) : State :=
  {| servers := servers st; uris := h; fired := fired st;
     channel := channel st; memento := memento st |}.

Definition set_servers (m : gmap string Entry) (st : State) : State :=
  {| servers := m; uris := uris st; fired := fired st;
     channel := channel st; memento := memento st |}.

(** The statement [if (server.serverUri.baseUrl) { ... = Uri.parse(...) }]:
    the object as it leaves it. *)
Definition reparsedObject (u : IJupyterServerUri) : IJupyterServerUri :=
  match baseUrl u with
  | Some b => set_baseUrl (Some (uriReparse b)) u
  | None => u
  end.

(** The [server] object built for an adopted record, given the text of
    the port of its URL. *)
Definition restoredServer (u : IJupyterServerUri) (b : Uri) (portText : string)
  : JupyterServer :=
  {| Host.cwd := "";
     Host.dispose := None;
     Host.password := "";
     Host.pid := pid u;
     Host.port := parseInt portText;
     Host.registerWithJupyterExtension := true;
     Host.shellArgs := [];
     Host.type :=
       if startsWith (label u) "Jupyter Notebook"
       then Launcher.JupyterNotebook else Launcher.JupyterLab;
     Host.baseUrl := uriToString b;
     Host.token := token u;
     Host.jupyterExtensionWorkingDirectory :=
       uriToString <$> mappedRemoteNotebookDir u |}.

(** One callback of the [forEach] of [restoreJupyterServers]: the new
    state, the stored object as the callback leaves it, and the
    value thrown, if any. *)
Definition restoreOne (byPid : gmap Z Terminal) (st : State)
    (stored : option Stored) : State * option Stored * option thrown :=
  match stored ≫= s_serverUri with
  | None => (st, stored, None)
  | Some l =>
      match uris st !! l with
      | None => (st, stored, None)
      | Some u =>
          if negb (truthyNum (pid u)) then (st, stored, None)
          else
            let u1 := reparsedObject u in
            let st1 := set_uris (<[l := u1]> (uris st)) st in
            if bool_decide (is_Some (servers st !! pretty (pid u)))
            then (st1, stored, None)
            else
              match byPid !! pid u with
              | None => (st1, stored, None)
              | Some terminal =>
                  match baseUrl u1 with
                  | None =>
                      (st1, stored,
                       Some (TypeError "Cannot read properties of undefined"))
                  | Some b =>
                      match urlPort (uriToString b) with
                      | None => (st1, stored, Some (TypeError "Invalid URL"))
                      | Some portText =>
                          let srv := restoredServer u1 b portText in
                          (set_servers
                             (<[pretty (pid u) :=
                                 {| serverUri := l; server := srv;
                                    disposables := [DTerminal terminal] |}]>
                                (servers st)) st1,
                           Some {| s_serverUri := Some l;
                                   s_server := Some srv;
                                   s_disposables := [DTerminal terminal] |},
                           None)
                      end
                  end
              end
      end
  end.

(** The [forEach]: it stops at the first callback that throws. *)
Fixpoint restoreEach (byPid : gmap Z Terminal) (st : State)
    (todo : list (option Stored))
  : State * list (option Stored) * option thrown :=
  match todo with
  | [] => (st, [], None)
  | stored :: rest =>
      match restoreOne byPid st stored with
      | (st', stored', Some err) => (st', stored' :: rest, Some err)
      | (st', stored', None) =>
          match restoreEach byPid st' rest with
          | (st'', rest', r) => (st'', stored' :: rest', r)
          end
      end
  end.

(** [restoreJupyterServers]: the state it leaves and the value it is
    rejected with, if any. The event fires when the
    loop has run to its end. *)
Definition restoreJupyterServers (terminals : list Terminal) (st : State)
  : State * option thrown :=
  match restoreEach (terminalsByPid terminals) st (memento st) with
  | (st', stored', r) =>
      ({| servers := servers st';
          uris := uris st';
          fired := match r with None => S (fired st') | Some _ => fired st' end;
          channel := channel st';
          memento := stored' |}, r)
  end.

(** [{ ...s, disposables: [] }]. *)
Definition withoutDisposables (s : option Stored) : option Stored :=
  Some {| s_serverUri := s ≫= s_serverUri;
          s_server := s ≫= s_server;
          s_disposables := [] |}.

(** [storeJupyterServers]. *)
Definition storeJupyterServers (stored : list (option Stored)) (details : Entry)
  : list (option Stored) :=
  withoutDisposables
    <$> (stored ++ [Some {| s_serverUri := Some (serverUri details);
                            s_server := Some (server details);
                            s_disposables := disposables details |}]).

Definition addJupyterServer (st : State) (srv : JupyterServer) : State :=
  if bool_decide (is_Some (servers st !! pretty (Host.pid srv))) then
    {| servers := servers st;
       uris := uris st;
       fired := fired st;
       channel :=
         appendLine
           ("[Warning]: Jupyter server already started for this workspace with pid "
              +:+ pretty (Host.pid srv) +:+ ".")
           (channel st);
       memento := memento st |}
  else
    let jupyterServer :=
      {| pid := Host.pid srv;
         baseUrl := Some (uriParse (Host.baseUrl srv));
         token := Host.token srv;
         label := typeName (Host.type srv) +:+ " " +:+ Host.baseUrl srv;
         mappedRemoteNotebookDir :=
           match Host.jupyterExtensionWorkingDirectory srv with
           | Some d => if truthy d then Some (uriFile d) else None
           | None => None
           end;
         authorizationHeader := None |} in
    let l := fresh (dom (uris st)) in
    let details :=
      {| serverUri := l; server := srv; disposables := [DServer srv] |} in
    {| servers := <[pretty (Host.pid srv) := details]> (servers st);
       uris := <[l := jupyterServer]> (uris st);
       fired := S (fired st);
       channel := channel st;
       memento := storeJupyterServers (memento st) details |}.

(** [shutdownJupyterServer]: the new state and the objects whose
    [dispose] was called, in order (what a call throws is dropped). *)
Definition shutdownJupyterServer (st : State) (terminal : Terminal)
  : State * list Disposable :=
  match processId terminal with
  | None => (st, [])
  | Some p =>
      if negb (truthyNum p) then (st, [])
      else
        match servers st !! pretty p with
        | None => (st, [])
        | Some entry =>
            (set_servers (delete (pretty p) (servers st)) st, disposables entry)
        end
  end.

Section Start.

(** [crypto], the host's reading of an assigned selection, and [path],
    as in [launchJupyter]; [describe] is the text of what is caught, as
    the template literal of the log line makes it. *)
Variable sha1Hex : string -> string.
Variable randomBytes : nat -> nat -> list N.
Variable assign : list Launcher.Item -> list Launcher.Item.
Variable dirname : string -> string.
Variable delimiter : string.
Variable describe : Caught -> string.

(** [startJupyterServer]: the trace of the launch, the registry and the
    server returned. [showProgress] is called once before the launch,
    and it is the function given to [launchJupyter]. The lines the launch
    and the [catch] write to the output channel are kept in the trace,
    the line of [addJupyterServer] in the registry state. *)
Definition startJupyterServer (ty : Launcher.JupyterType) (env : Launcher.Env)
    (script : list Launcher.Change) (outcome : Launcher.Outcome)
    (probe : string + N) (cancelled : bool) (now : N) (h : Launch.Platform)
    (tr : Launch.Trace) (st : State)
  : Launch.Trace * State * option JupyterServer :=
  let tr := Launch.showProgress true tr in
  let '(tr', launched) :=
    Launch.launchJupyter sha1Hex randomBytes assign dirname delimiter true
      (pickerOptions ty) env script outcome probe cancelled now h tr in
  let failed (ex : Caught) :=
    (Launch.appendLine
       ("[Error]: Failed to start " +:+ typeName ty +:+ ", " +:+ describe ex) tr',
     st, None) in
  match launched with
  | Returned srv => (tr', addJupyterServer st srv, Some srv)
  | ReturnedUndefined => failed CaughtCancellation
  | Thrown err => failed (CaughtThrown err)
  end.

End Start.

(** *** Vocabulary of the properties *)

(** The process id a stored record names, read through the store. *)
Definition pidOf (st : State) (stored : option Stored) : option Z :=
  l ← stored ≫= s_serverUri; u ← uris st !! l; Some (pid u).

(** The [baseUrl] of the object at [l], when the callback would parse
    it, is a value that [Uri.parse] gives back as it is. *)
Definition parsedAt (st : State) (l : loc) : Prop :=
  forall u b, uris st !! l = Some u -> truthyNum (pid u) = true ->
    baseUrl u = Some b -> uriReparse b = b.

(** The callback passes over the record: its process id is falsy, or
    registered already, or without a terminal. *)
Definition settled (byPid : gmap Z Terminal) (st : State)
    (stored : option Stored) : Prop :=
  forall p, pidOf st stored = Some p ->
    truthyNum p = false
    \/ is_Some (servers st !! pretty p)
    \/ byPid !! p = None.

End WithUri.

Arguments IJupyterServerUri : clear implicits.
Arguments Entry : clear implicits.
Arguments Stored : clear implicits.
Arguments State : clear implicits.

End ServerProvider.

(** ** [src/extension.ts] *)

Module Extension.
Import JS Launcher Host.

(** The options [startJupyterServer] gives to [launchJupyter]. *)
Definition commandOptions (ty : JupyterType) : Options :=
  {| Launcher.type := ty; Launcher.customize := true;
     Launcher.canGoBack := false;
     Launcher.displayOptionToIntegrateWithJupyter := true |}.

Section Command.

(** The registry of the revision at hand and its [addJupyterServer]
    (with the collection and the memento bound). *)
Context {State : Type}.
Variable addJupyterServer : State -> JupyterServer -> State.

(** What follows [launchJupyter] in [startJupyterServer]: the registry,
    [context.subscriptions] and the value the command is rejected with,
    if any. The [logAndDisplayError] given to [catch] is the one this
    file declares: it throws. *)
Definition register (launched : completion JupyterServer) (st : State)
    (subscriptions : list JupyterServer)
  : State * list JupyterServer * option thrown :=
  match launched with
  | Thrown _ => (st, subscriptions, Some (NewError "Function not implemented."))
  | ReturnedUndefined => (st, subscriptions, None)
  | Returned serverInfo =>
      if Host.registerWithJupyterExtension serverInfo
      then (addJupyterServer st serverInfo, subscriptions ++ [serverInfo], None)
      else (st, subscriptions, None)
  end.

(** [crypto], the host's reading of an assigned selection, and [path],
    as in [launchJupyter]. *)
Variable sha1Hex : string -> string.
Variable randomBytes : nat -> nat -> list N.
Variable assign : list Item -> list Item.
Variable dirname : string -> string.
Variable delimiter : string.

(** [startJupyterServer(type)] of [activate]. *)
Definition startJupyterServer (ty : JupyterType) (env : Env)
    (script : list Change) (outcome : Outcome) (probe : string + N)
    (cancelled : bool) (now : N) (h : Launch.Platform) (tr : Launch.Trace)
    (st : State) (subscriptions : list JupyterServer)
  : Launch.Trace * (State * list JupyterServer * option thrown) :=
  let '(tr', launched) :=
    Launch.launchJupyter sha1Hex randomBytes assign dirname delimiter false
      (commandOptions ty) env script outcome probe cancelled now h tr in
  (tr', register launched st subscriptions).

End Command.

End Extension.

(** ** Sample inputs *)

Module Samples.
Import JS Host.

(** *** The launcher *)

Definition sampleSha (s : string) : string := "da39a3ee".

Definition sampleBytes (k size : nat) : list N := repeat (N.of_nat (171 + k)) size.

Definition defaultOptions : Launcher.Options :=
  {| Launcher.type := Launcher.JupyterNotebook; Launcher.customize := false;
     Launcher.canGoBack := false;
     Launcher.displayOptionToIntegrateWithJupyter := false |}.

Definition wizardOptions : Launcher.Options :=
  {| Launcher.type := Launcher.JupyterLab; Launcher.customize := true;
     Launcher.canGoBack := true;
     Launcher.displayOptionToIntegrateWithJupyter := false |}.

(** No workspace folder: the default directory is the temporary one. *)
Definition tmpEnv : Launcher.Env :=
  {| Launcher.workspaceFolder := None; Launcher.tmpDir := "/tmp" |}.

(** A workspace folder whose [fsPath] is the empty string. *)
Definition namelessEnv : Launcher.Env :=
  {| Launcher.workspaceFolder := Some ""; Launcher.tmpDir := "/tmp" |}.

(** The user ticks [Empty Token]; the quick pick then reports the
    selection the handler assigned. *)
Definition tickEmpty : list Launcher.Change :=
  [ {| Launcher.e := [Launcher.corsEnabled; Launcher.emptyToken];
       Launcher.answer := None |};
    {| Launcher.e := [Launcher.corsEnabled; Launcher.emptyToken];
       Launcher.answer := None |} ].

(** The user ticks [Specific Token] and dismisses the input box. *)
Definition tickSpecificDismissed : Launcher.Change :=
  {| Launcher.e :=
       [Launcher.corsEnabled; Launcher.emptyToken; Launcher.specificToken];
     Launcher.answer := None |}.

(** The user unticks [Empty Token]. *)
Definition untickEmpty : Launcher.Change :=
  {| Launcher.e := [Launcher.corsEnabled]; Launcher.answer := None |}.

(** The user ticks [Open in browser]. *)
Definition tickOpenInBrowser : list Launcher.Change :=
  [ {| Launcher.e := [Launcher.corsEnabled; Launcher.openInBrowser];
       Launcher.answer := None |} ].

(** The wizard after [Empty Token] was ticked, at a host [assign]. *)
Definition emptyTicked (assign : list Launcher.Item -> list Launcher.Item)
  : Launcher.Wizard :=
  Launcher.runWizard assign (Launcher.openQuickPick assign wizardOptions tmpEnv)
    tickEmpty.

(** At the host [assign]: [Empty Token] is in force, the user ticks
    [Specific Token] and dismisses the input box, and the token group
    ends at [Random], not where it was. *)
Definition dismissalDropsEmpty (assign : list Launcher.Item -> list Launcher.Item)
  : Prop :=
  Launcher.ignoreNext (emptyTicked assign) = false
  /\ Launcher.tokenMode (Launcher.token (Launcher.locals (emptyTicked assign)))
     = Launcher.Empty
  /\ Launcher.includes (Launcher.previousSelections (emptyTicked assign))
       Launcher.emptyToken = true
  /\ Launcher.opensTokenPrompt (emptyTicked assign) tickSpecificDismissed = true
  /\ Launcher.captureToken (Launcher.answer tickSpecificDismissed) = ""
  /\ Launcher.tokenMode
       (Launcher.token
          (Launcher.locals
             (Launcher.onDidChangeSelection assign (emptyTicked assign)
                tickSpecificDismissed)))
     = Launcher.Random
  /\ ~ Launcher.revertsToPrior assign (emptyTicked assign) tickSpecificDismissed.

(** The user ticks [Empty Token] and unticks it, the quick pick
    reporting in between the selection the handler assigned. *)
Definition tickUntickEmpty : list Launcher.Change := tickEmpty ++ [untickEmpty].

(** The same without a report in between: the untick is the event the
    handler takes for the report. *)
Definition tickUntickEmptyUnreported : list Launcher.Change :=
  [ {| Launcher.e := [Launcher.corsEnabled; Launcher.emptyToken];
       Launcher.answer := None |};
    untickEmpty ].

(** The user ticks [Specific Token] and enters a token, the quick pick
    reports the assigned selection, and the user unticks the CORS item. *)
Definition tickSpecificUntickCors : list Launcher.Change :=
  [ {| Launcher.e := [Launcher.corsEnabled; Launcher.specificToken];
       Launcher.answer := Some "abc" |};
    {| Launcher.e := [Launcher.corsEnabled; Launcher.specificToken];
       Launcher.answer := None |};
    {| Launcher.e := [Launcher.specificToken]; Launcher.answer := None |} ].

(** At the host [assign], with the events [script]: the user has ticked
    [Empty Token], unticked it and accepts. No [Empty Token] is selected
    any more, yet the token object still says [Empty] and the server is
    launched with the empty token. *)
Definition untickedEmptyIsLaunched (assign : list Launcher.Item -> list Launcher.Item)
    (script : list Launcher.Change) : Prop :=
  let w :=
    Launcher.runWizard assign (Launcher.openQuickPick assign wizardOptions tmpEnv)
      script in
  Launcher.includes (Launcher.selectedItems w) Launcher.emptyToken = false
  /\ Launcher.includes (Launcher.previousSelections w) Launcher.emptyToken = false
  /\ Launcher.tokenMode (Launcher.token (Launcher.locals w)) = Launcher.Empty
  /\ exists info,
       Launcher.getLaunchArgs sampleSha sampleBytes assign wizardOptions tmpEnv
         script Launcher.Accept (inr 8888%N) false 1700000000000%N
       = Returned info
       /\ Launcher.Info.token info = ""
       /\ Launcher.Info.shellArgs info
          = ["-m"; "jupyter"; "lab"; "--no-browser";
             "--NotebookApp.allow_origin"; "*"; "--ServerApp.allow_origin"; "*";
             "--NotebookApp.token"; ""; "--ServerApp.token"; "";
             "--NotebookApp.password"; ""; "--ServerApp.password"; "";
             "--notebook-dir"; "/tmp"; "--port"; "8888"].

(** *** The registry *)

(** A terminal this extension opened, and a shell. *)
Definition jupyterTerminal : Terminal :=
  {| tid := 1; name := "Jupyter Lab at 8888"; processId := Some 4242%Z |}.

Definition shellTerminal : Terminal :=
  {| tid := 2; name := "bash"; processId := Some 17%Z |}.

Definition openTerminals : list Terminal := [jupyterTerminal; shellTerminal].

Definition sampleServer (p : Z) (t : option nat) : JupyterServer :=
  {| Host.shellArgs := []; Host.token := "t0"; Host.port := Some 8888%Z;
     Host.password := ""; Host.registerWithJupyterExtension := true;
     Host.dispose := t; Host.pid := p; Host.type := Launcher.JupyterLab;
     Host.baseUrl := "http://localhost:8888/"; Host.cwd := "/tmp";
     Host.jupyterExtensionWorkingDirectory := None |}.

Definition emptyProvider : Provider.State :=
  {| Provider.servers := ∅; Provider.fired := 0; Provider.disposed := [];
     Provider.channel := Some []; Provider.memento := [] |}.

Definition oneHandle : Provider.State :=
  Provider.addJupyterServer emptyProvider (sampleServer 4242 (Some 1%nat)).

(** In the samples a [Uri] is its text. *)
Definition storedUri (p : Z) : Collection.IJupyterServerUri string :=
  {| Collection.pid := p; Collection.baseUrl := "http://localhost:8888/";
     Collection.token := "t0";
     Collection.label := "Jupyter Lab http://localhost:8888/";
     Collection.mappedRemoteNotebookDir := None;
     Collection.authorizationHeader := None |}.

Definition storedRecord (p : Z) : option (Collection.Stored string) :=
  Some {| Collection.s_serverUri := Some (storedUri p);
          Collection.s_disposables := [] |}.

(** A fresh window: nothing registered, two records in the store, one
    for the Jupyter terminal and one for the process of the shell. *)
Definition freshCollection : Collection.State string :=
  {| Collection.servers := ∅; Collection.created := [];
     Collection.channel := Some [];
     Collection.memento := [storedRecord 4242; storedRecord 17] |}.

Definition sharedUri (p : Z) : ServerProvider.IJupyterServerUri string :=
  {| ServerProvider.pid := p;
     ServerProvider.baseUrl := Some "http://localhost:8888/";
     ServerProvider.token := "t0";
     ServerProvider.label := "Jupyter Lab http://localhost:8888/";
     ServerProvider.mappedRemoteNotebookDir := None;
     ServerProvider.authorizationHeader := None |}.

Definition sharedRecord (l : ServerProvider.loc) : option ServerProvider.Stored :=
  Some {| ServerProvider.s_serverUri := Some l;
          ServerProvider.s_server := None;
          ServerProvider.s_disposables := [] |}.

Definition freshServerProvider : ServerProvider.State string :=
  {| ServerProvider.servers := ∅;
     ServerProvider.uris := {[ 1%positive := sharedUri 4242;
                               2%positive := sharedUri 17 ]};
     ServerProvider.fired := 0;
     ServerProvider.channel := Some [];
     ServerProvider.memento := [sharedRecord 1%positive; sharedRecord 2%positive] |}.

Definition textOf (u : string) : string := u.

Definition portOf (url : string) : option string := Some "8888".

(** The two windows after one reconciliation with the open terminals. *)
Definition restoredCollection : Collection.State string :=
  Collection.restoreJupyterServers openTerminals freshCollection.

Definition restoredServerProvider : ServerProvider.State string :=
  (ServerProvider.restoreJupyterServers textOf textOf portOf openTerminals
     freshServerProvider).1.

(** The two windows after a first [addJupyterServer] on an empty
    registry. *)
Definition addedCollection : Collection.State string :=
  (Collection.addJupyterServer textOf
     {| Collection.servers := ∅; Collection.created := [];
        Collection.channel := Some []; Collection.memento := [] |}
     (sampleServer 4242 (Some 1%nat))).1.

Definition addedServerProvider : ServerProvider.State string :=
  ServerProvider.addJupyterServer textOf textOf
    {| ServerProvider.servers := ∅; ServerProvider.uris := ∅;
       ServerProvider.fired := 0; ServerProvider.channel := Some [];
       ServerProvider.memento := [] |}
    (sampleServer 4242 (Some 1%nat)).

(** *** More of the launcher *)

(** The user ticks [Custom Working Directory] and picks [/data], the
    quick pick reports the assigned selection, and the user unticks the
    item again. *)
Definition pickFolderThenUntick : list Launcher.Change :=
  [ {| Launcher.e := [Launcher.corsEnabled; Launcher.cwdPrompt];
       Launcher.answer := Some "/data" |};
    {| Launcher.e := [Launcher.corsEnabled; Launcher.cwdPrompt];
       Launcher.answer := None |};
    {| Launcher.e := [Launcher.corsEnabled]; Launcher.answer := None |};
    {| Launcher.e := [Launcher.corsEnabled]; Launcher.answer := None |} ].

(** The user ticks [Specific Token] and enters [abc] with white space
    around it. *)
Definition tickSpecificAnswered : Launcher.Change :=
  {| Launcher.e := [Launcher.corsEnabled; Launcher.specificToken];
     Launcher.answer := Some "  abc " |}.

(** The user ticks [Specific Token] and enters two spaces in the input
    box (its validation refuses the empty string only). *)
Definition tickSpecificBlank : Launcher.Change :=
  {| Launcher.e := [Launcher.corsEnabled; Launcher.specificToken];
     Launcher.answer := Some "  " |}.

(** At the host [assign]: the wizard opens, the user ticks
    [Specific Token], enters two spaces and accepts. The token prompt
    was opened for [Specific Token] and what it captured is blank after
    trimming, yet the launch parameters are built, with a generated
    token. *)
Definition blankCaptureLaunches (assign : list Launcher.Item -> list Launcher.Item)
  : Prop :=
  Launcher.includes (Launcher.e tickSpecificBlank) Launcher.specificToken = true
  /\ Launcher.opensTokenPrompt (Launcher.openQuickPick assign wizardOptions tmpEnv)
       tickSpecificBlank = true
  /\ Launcher.answer tickSpecificBlank = Some "  "
  /\ JS.trim "  " = ""
  /\ exists info,
       Launcher.getLaunchArgs sampleSha sampleBytes assign wizardOptions tmpEnv
         [tickSpecificBlank] Launcher.Accept (inr 8888%N) false 1700000000000%N
       = Returned info
       /\ Launcher.Info.token info = "1700000000000"
       /\ Launcher.Info.port info = 8888%N
       /\ Launcher.Info.shellArgs info
          = ["-m"; "jupyter"; "lab"; "--no-browser";
             "--NotebookApp.allow_origin"; "*"; "--ServerApp.allow_origin"; "*";
             "--NotebookApp.token"; "1700000000000";
             "--ServerApp.token"; "1700000000000";
             "--NotebookApp.password"; ""; "--ServerApp.password"; "";
             "--notebook-dir"; "/tmp"; "--port"; "8888"].

(** A virtual environment, a host that is ready to launch in it, the
    same host with a terminal that yields no process id, and a trace
    with nothing in it. *)
Definition venv : Launch.Resolved.t :=
  {| Launch.Resolved.uri := Some "/venv/bin/python";
     Launch.Resolved.sysPrefix := "/venv";
     Launch.Resolved.environment :=
       Some {| Launch.Environment.type := Some "VirtualEnvironment";
               Launch.Environment.name := Some "venv" |} |}.

Definition readyPlatform : Launch.Platform :=
  {| Launch.pythonExt := true; Launch.resolvedEnv := Some venv;
     Launch.isCancellationRequested := false;
     Launch.envPATH := Some "/usr/bin"; Launch.envPath := None;
     Launch.terminalId := 7; Launch.terminalPid := Some 4242%Z |}.

Definition pidlessPlatform : Launch.Platform :=
  {| Launch.pythonExt := true; Launch.resolvedEnv := Some venv;
     Launch.isCancellationRequested := false;
     Launch.envPATH := Some "/usr/bin"; Launch.envPath := None;
     Launch.terminalId := 7; Launch.terminalPid := None |}.

Definition quietTrace : Launch.Trace :=
  {| Launch.shown := 0; Launch.reports := [];
     Launch.ui := {| Helpers.errorMessages := []; Helpers.channel := Some [] |};
     Launch.terminals := []; Launch.disposed := [] |}.

Definition sampleDirname (p : string) : string := "/venv/bin".

(** The provider revision in a window that was reloaded: nothing is
    registered, the stored list holds the record of process 4242. *)
Definition reloadedProvider : Provider.State :=
  {| Provider.servers := ∅; Provider.fired := 0; Provider.disposed := [];
     Provider.channel := Some []; Provider.memento := Provider.memento oneHandle |}.

(** The same window with a stored list that was damaged: a [null], a
    record of process 4242 without its [serverUri], a record without its
    [serverInfo], and a record whose process id is [0]. *)
Definition handleUri : Provider.IJupyterServerUri :=
  {| Provider.baseUrl := "http://localhost:8888/"; Provider.token := "t0";
     Provider.displayName := "Jupyter Lab http://localhost:8888/";
     Provider.mappedRemoteNotebookDir := None;
     Provider.authorizationHeader := None;
     Provider.dispose := None |}.

Definition damagedProvider : Provider.State :=
  {| Provider.servers := ∅; Provider.fired := 0; Provider.disposed := [];
     Provider.channel := Some [];
     Provider.memento :=
       [ None;
         Some {| Provider.s_serverUri := None;
                 Provider.s_serverInfo := Some (sampleServer 4242 None) |};
         Some {| Provider.s_serverUri := Some handleUri;
                 Provider.s_serverInfo := None |};
         Some {| Provider.s_serverUri := Some handleUri;
                 Provider.s_serverInfo := Some (sampleServer 0 None) |} ] |}.

(** A [path.basename] for the samples: the text after the last slash. *)
Fixpoint lastSegment (acc s : string) : string :=
  match s with
  | EmptyString => acc
  | String "/" s' => lastSegment EmptyString s'
  | String a s' => lastSegment (acc +:+ String a EmptyString) s'
  end.

Definition sampleBasename (s : string) : string := lastSegment EmptyString s.

(** The default entry of the quick pick of the provider revision. *)
Definition defaultNotebookItem : Provider.QuickPickItem.t :=
  {| Provider.QuickPickItem.label := "Start New Jupyter Notebook Server";
     Provider.QuickPickItem.default := true |}.

(** The user ticks [Password] and enters [secret]; the quick pick
    reports the assigned selection. *)
Definition tickPassword : list Launcher.Change :=
  [ {| Launcher.e := [Launcher.corsEnabled; Launcher.passwordEnabled];
       Launcher.answer := Some "secret" |};
    {| Launcher.e := [Launcher.corsEnabled; Launcher.passwordEnabled];
       Launcher.answer := None |} ].

(** The wizard of the launch command accepted as it opens, and accepted
    after [Register with Jupyter Extension] is unticked. *)
Definition untickRegister : list Launcher.Change :=
  [ {| Launcher.e := [Launcher.corsEnabled; Launcher.openInBrowser];
       Launcher.answer := None |} ].

End Samples.


(** * Properties *)

(** ** The launcher *)

Module LauncherFacts.
Import JS Launcher Samples.

Lemma includes_true (l : list Item) (i : Item) : includes l i = true <-> i ∈ l.
Proof. unfold includes. apply bool_decide_eq_true. Qed.

Lemma includes_false (l : list Item) (i : Item) : includes l i = false <-> i ∉ l.
Proof. unfold includes. apply bool_decide_eq_false. Qed.

(** Labels tell the items apart, so a test on the label is a test on the
    item. *)
Lemma label_inj (i j : Item) : label i = label j -> i = j.
Proof. destruct i, j; simpl; intros H; try reflexivity; discriminate H. Qed.

Lemma someLabel_includes (i : Item) (l : list Item) :
  someLabel (label i) l = includes l i.
Proof.
  induction l as [|j l IH]; simpl.
  - symmetry. apply includes_false. apply not_elem_of_nil.
  - destruct (String.eqb_spec (label j) (label i)) as [Heq|Hne]; simpl.
    + apply label_inj in Heq. subst j. symmetry. apply includes_true. left.
    + rewrite IH. unfold includes.
      apply bool_decide_ext. rewrite elem_of_cons.
      split; [tauto|]. intros [->|H]; [congruence|exact H].
Qed.

(** The pushes onto [shellArgs] produce the fixed order, whatever the
    configuration. *)
Lemma buildShellArgs_ordered sha rnd ty l tokenValue port :
  exists pw1 pw2,
    buildShellArgs sha rnd ty l tokenValue port
    = orderedArgs ty (shouldOpenBrowser l) (cors l) (trim tokenValue) pw1 pw2
        (workingDirectory l) port
    /\ (trim (password l) = "" -> pw1 = "" /\ pw2 = "").
Proof.
  unfold buildShellArgs, orderedArgs, workingDirectory, kindWord.
  destruct (0 <? String.length (trim (password l)))%nat eqn:Hpw.
  - eexists _, _. split.
    + destruct ty, (shouldOpenBrowser l), (cors l), (customCwd l) as [[|a c]|],
        (useCustomWorkingDirectory l), (cwd l); reflexivity.
    + intros Hblank. rewrite Hblank in Hpw. discriminate Hpw.
  - exists "", "". split; [|auto].
    destruct ty, (shouldOpenBrowser l), (cors l), (customCwd l) as [[|a c]|],
      (useCustomWorkingDirectory l), (cwd l); reflexivity.
Qed.

(** After acceptance the two network switches are what the selection
    holds. *)
Lemma readSelections_flags o outcome w l :
  readSelections o outcome w = Some l ->
  shouldOpenBrowser l = includes (selectedItems w) openInBrowser
  /\ cors l = includes (selectedItems w) corsEnabled.
Proof.
  unfold readSelections. destruct outcome; [|discriminate].
  destruct (_ =? 0)%nat; [discriminate|].
  destruct (forallb _ _); [discriminate|].
  intros [= <-]. cbn [shouldOpenBrowser cors]. split.
  - exact (someLabel_includes openInBrowser _).
  - exact (someLabel_includes corsEnabled _).
Qed.

(** C1, as amended. Whenever [getLaunchArgs] returns launch parameters,
    they come from an accepted configuration [l], and the argument vector
    is, in this order: [-m jupyter] and the server kind ([lab] or
    [notebook]); [--no-browser] exactly when open-in-browser was not
    chosen; the two CORS flags, each with [*], exactly when CORS is
    enabled; the two token flags with the trimmed token; the two password
    flags (the empty string when the password is blank); the
    working-directory flag when the configuration resolves to a
    directory (a picked folder in force, else a default directory with a
    non-empty name) and nothing otherwise; and [--port] with the probed
    port as the last two elements. *)
Theorem shellArgs_fixed_order sha rnd assign o env script outcome probe
    cancelled now info :
  getLaunchArgs sha rnd assign o env script outcome probe cancelled now
    = Returned info ->
  exists l pw1 pw2,
    accepted assign o env script outcome = Some l
    /\ probe = inr (Info.port info)
    /\ Info.shellArgs info
       = orderedArgs (type o) (shouldOpenBrowser l) (cors l)
           (trim (Info.token info)) pw1 pw2 (workingDirectory l)
           (Info.port info)
    /\ (trim (password l) = "" -> pw1 = "" /\ pw2 = "")
    /\ (if customize o
        then
          let sel :=
            selectedItems (runWizard assign (openQuickPick assign o env) script) in
          shouldOpenBrowser l = includes sel openInBrowser
          /\ cors l = includes sel corsEnabled
        else shouldOpenBrowser l = false /\ cors l = true).
Proof.
  unfold getLaunchArgs, accepted. intros H.
  assert (Hfin : forall l,
    finishLaunch sha rnd (type o) probe cancelled now l = Returned info ->
    exists pw1 pw2,
      probe = inr (Info.port info)
      /\ Info.shellArgs info
         = orderedArgs (type o) (shouldOpenBrowser l) (cors l)
             (trim (Info.token info)) pw1 pw2 (workingDirectory l)
             (Info.port info)
      /\ (trim (password l) = "" -> pw1 = "" /\ pw2 = "")).
  { intros l. unfold finishLaunch.
    destruct probe as [reason|port]; [discriminate|].
    destruct cancelled; [discriminate|].
    destruct (resolveToken now (token l)) as [err|t]; [discriminate|].
    intros [= <-]. simpl.
    destruct (buildShellArgs_ordered sha rnd (type o) l (value t) port)
      as (pw1 & pw2 & Hargs & Hpw).
    exists pw1, pw2. auto. }
  destruct (customize o).
  - destruct (readSelections o outcome _) as [l|] eqn:Hsel; [|discriminate].
    destruct (Hfin l H) as (pw1 & pw2 & Hp & Hargs & Hpw).
    exists l, pw1, pw2.
    split; [reflexivity|]. split; [exact Hp|]. split; [exact Hargs|].
    split; [exact Hpw|]. exact (readSelections_flags _ _ _ _ Hsel).
  - destruct (Hfin _ H) as (pw1 & pw2 & Hp & Hargs & Hpw).
    exists (initialLocals env), pw1, pw2.
    split; [reflexivity|]. split; [exact Hp|]. split; [exact Hargs|].
    split; [exact Hpw|]. split; reflexivity.
Qed.

(** The wizard with [Open in browser] ticked, accepted, port 8889. *)
Lemma shellArgs_fixed_order_witness :
  exists info,
    getLaunchArgs sampleSha sampleBytes (assignListed wizardOptions)
      wizardOptions tmpEnv tickOpenInBrowser Accept (inr 8889%N) false
      1700000000000%N = Returned info
    /\ Info.shellArgs info
       = ["-m"; "jupyter"; "lab";
          "--NotebookApp.allow_origin"; "*"; "--ServerApp.allow_origin"; "*";
          "--NotebookApp.token"; "1700000000000";
          "--ServerApp.token"; "1700000000000";
          "--NotebookApp.password"; ""; "--ServerApp.password"; "";
          "--notebook-dir"; "/tmp"; "--port"; "8889"]
    /\ exists l pw1 pw2,
        accepted (assignListed wizardOptions) wizardOptions tmpEnv
          tickOpenInBrowser Accept = Some l
        /\ @inr string N 8889%N = inr (Info.port info)
        /\ Info.shellArgs info
           = orderedArgs (type wizardOptions) (shouldOpenBrowser l) (cors l)
               (trim (Info.token info)) pw1 pw2 (workingDirectory l)
               (Info.port info)
        /\ (trim (password l) = "" -> pw1 = "" /\ pw2 = "")
        /\ (shouldOpenBrowser l
            = includes
                (selectedItems
                   (runWizard (assignListed wizardOptions)
                      (openQuickPick (assignListed wizardOptions)
                         wizardOptions tmpEnv) tickOpenInBrowser))
                openInBrowser
            /\ cors l
               = includes
                   (selectedItems
                      (runWizard (assignListed wizardOptions)
                         (openQuickPick (assignListed wizardOptions)
                            wizardOptions tmpEnv) tickOpenInBrowser))
                   corsEnabled).
Proof.
  eexists. split; [vm_compute; reflexivity|]. split; [vm_compute; reflexivity|].
  apply (shellArgs_fixed_order sampleSha sampleBytes (assignListed wizardOptions)
           wizardOptions tmpEnv tickOpenInBrowser Accept (inr 8889%N) false
           1700000000000%N).
  vm_compute. reflexivity.
Defined.

(** C1, as stated, fails: with a default directory whose name is empty
    and no folder picked, the launch succeeds and the argument vector has
    no working-directory flag, so it is not in the specified order for
    any choice of the flag values. *)
Lemma shellArgs_without_directory :
  exists info,
    getLaunchArgs sampleSha sampleBytes assignVerbatim defaultOptions namelessEnv
      [] Accept (inr 8888%N) false 1700000000000%N = Returned info
    /\ Info.shellArgs info
       = ["-m"; "jupyter"; "notebook"; "--no-browser";
          "--NotebookApp.allow_origin"; "*"; "--ServerApp.allow_origin"; "*";
          "--NotebookApp.token"; "1700000000000";
          "--ServerApp.token"; "1700000000000";
          "--NotebookApp.password"; ""; "--ServerApp.password"; "";
          "--port"; "8888"]
    /\ forall openBrowser corsOn tok pw1 pw2 dir port,
        Info.shellArgs info
        <> specifiedArgs JupyterNotebook openBrowser corsOn tok pw1 pw2 dir port.
Proof.
  eexists. split; [vm_compute; reflexivity|]. split; [vm_compute; reflexivity|].
  intros openBrowser corsOn tok pw1 pw2 dir port H.
  apply (f_equal (@length string)) in H.
  destruct openBrowser, corsOn; vm_compute in H; discriminate H.
Qed.

Lemma dedupeFrom_elem (seen l : list Item) (i : Item) :
  i ∈ dedupeFrom seen l <-> i ∈ l /\ i ∉ seen.
Proof.
  revert seen. induction l as [|x l IH]; intros seen; simpl.
  - rewrite elem_of_nil. tauto.
  - case_bool_decide as Hx.
    + rewrite IH, elem_of_cons. split.
      * tauto.
      * intros [[->|H] Hs]; [contradiction|tauto].
    + rewrite elem_of_cons, IH, !elem_of_cons. split.
      * intros [->|[H Hs]]; [tauto|]. split; [tauto|]. tauto.
      * intros [[->|H] Hs]; [tauto|].
        destruct (decide (i = x)) as [->|Hne]; [tauto|]. right. split; [exact H|].
        intros [?|?]; [contradiction|contradiction].
Qed.

Lemma dedupe_elem (l : list Item) (i : Item) : i ∈ dedupe l <-> i ∈ l.
Proof.
  unfold dedupe. rewrite dedupeFrom_elem. rewrite elem_of_nil. tauto.
Qed.

Lemma without2_elem (a b i : Item) (l : list Item) :
  i ∈ without2 a b l <-> i ∈ l /\ i <> a /\ i <> b.
Proof.
  unfold without2. rewrite list_elem_of_In, List.filter_In, <- list_elem_of_In.
  rewrite andb_true_iff, !negb_true_iff, !bool_decide_eq_false. tauto.
Qed.

(** C2, as amended. When the selection of [Specific Token] opens the
    token sub-prompt and the prompt is dismissed (or yields only white
    space), the token group ends at [Random], whatever it was before: the
    token object says [Random], and of the three token items the
    selections the handler keeps hold [Random Token] and neither
    [Empty Token] nor [Specific Token]. *)
Theorem dismissed_token_prompt_selects_random assign w c :
  opensTokenPrompt w c = true ->
  captureToken (answer c) = "" ->
  let w' := onDidChangeSelection assign w c in
  tokenMode (token (locals w')) = Random
  /\ includes (previousSelections w') randomToken = true
  /\ includes (previousSelections w') emptyToken = false
  /\ includes (previousSelections w') specificToken = false.
Proof.
  unfold opensTokenPrompt. rewrite !andb_true_iff, !negb_true_iff.
  intros ((((Hig & Hpw) & Hem) & Hin) & Hprev) Hcap.
  unfold onDidChangeSelection. rewrite Hig, Hpw, Hem, Hin, Hprev, Hcap. simpl.
  split; [reflexivity|].
  rewrite includes_true, !includes_false, !dedupe_elem, !elem_of_app,
    !without2_elem, !list_elem_of_singleton.
  split; [tauto|]. split; intros [(_ & H1 & H2)|H]; congruence.
Qed.

Lemma dismissed_token_prompt_selects_random_witness :
  tokenMode
    (token (locals (onDidChangeSelection assignVerbatim
                      (emptyTicked assignVerbatim) tickSpecificDismissed)))
  = Random
  /\ includes
       (previousSelections
          (onDidChangeSelection assignVerbatim (emptyTicked assignVerbatim)
             tickSpecificDismissed)) randomToken = true
  /\ includes
       (previousSelections
          (onDidChangeSelection assignVerbatim (emptyTicked assignVerbatim)
             tickSpecificDismissed)) emptyToken = false
  /\ includes
       (previousSelections
          (onDidChangeSelection assignVerbatim (emptyTicked assignVerbatim)
             tickSpecificDismissed)) specificToken = false.
Proof.
  apply (dismissed_token_prompt_selects_random assignVerbatim
           (emptyTicked assignVerbatim) tickSpecificDismissed); reflexivity.
Defined.

(** C2, as stated, fails: with [Empty Token] in force, ticking
    [Specific Token] and dismissing the input box leaves the token group
    at [Random], not at [Empty]; so at both readings of the host. *)
Lemma dismissed_token_prompt_drops_empty :
  dismissalDropsEmpty assignVerbatim
  /\ dismissalDropsEmpty (assignListed wizardOptions).
Proof.
  split; repeat split; try reflexivity;
    intros [H _]; vm_compute in H; discriminate H.
Qed.

Lemma displayQuickPick_locals assign w :
  locals (displayQuickPick assign w) = locals w.
Proof. reflexivity. Qed.

(** No handler sets both flags of the token object. *)
Lemma onDidChangeSelection_exclusive assign w c :
  exclusiveFlags (token (locals w)) ->
  exclusiveFlags (token (locals (onDidChangeSelection assign w c))).
Proof.
  unfold exclusiveFlags, onDidChangeSelection. intros H.
  repeat (match goal with
          | |- context [if ?b then _ else _] => destruct b
          end; rewrite ?displayQuickPick_locals; simpl; try exact H;
          try reflexivity).
Qed.

(** At every state the wizard reaches the token object stands for one
    mode: its two flags are never both set. *)
Lemma runWizard_exclusive assign o env script :
  exclusiveFlags
    (token (locals (runWizard assign (openQuickPick assign o env) script))).
Proof.
  unfold runWizard.
  assert (H : exclusiveFlags (token (locals (openQuickPick assign o env))))
    by reflexivity.
  revert H. generalize (openQuickPick assign o env).
  induction script as [|c script IH]; intros w H.
  - exact H.
  - simpl. apply IH. apply onDidChangeSelection_exclusive. exact H.
Qed.

(** The branch that puts [Random Token] back into the selection leaves
    the token object as it was. *)
Lemma readding_random_keeps_token assign w c :
  ignoreNext w = false ->
  (forall i, i ∈ e c -> i = corsEnabled \/ i = openInBrowser
                        \/ i = registerWithJupyterExtensionPrompt) ->
  (forall i, i ∈ previousSelections w -> i <> cwdPrompt) ->
  token (locals (onDidChangeSelection assign w c)) = token (locals w)
  /\ selectedItems (onDidChangeSelection assign w c)
     = assign (without2 emptyToken randomToken (e c) ++ [randomToken]).
Proof.
  intros Hig He Hprev. unfold onDidChangeSelection. rewrite Hig.
  assert (Hnot : forall i, i <> corsEnabled -> i <> openInBrowser ->
                   i <> registerWithJupyterExtensionPrompt ->
                   includes (e c) i = false).
  { intros i H1 H2 H3. apply includes_false. intros Hin.
    destruct (He i Hin) as [?|[?|?]]; contradiction. }
  rewrite !Hnot by discriminate. simpl.
  assert (Hcwd : includes (previousSelections w) cwdPrompt = false).
  { apply includes_false. intros Hin. exact (Hprev _ Hin eq_refl). }
  rewrite Hcwd. simpl. split; reflexivity.
Qed.

(** The branch that puts [Random Token] back does not look at
    [Specific Token]: where the host keeps the assigned items, a wizard
    with [Specific Token] ticked ends with both [Specific Token] and
    [Random Token] selected once another item is unticked. *)
Lemma specific_and_random_both_selected :
  let w :=
    runWizard assignVerbatim (openQuickPick assignVerbatim wizardOptions tmpEnv)
      tickSpecificUntickCors in
  selectedItems w = [specificToken; randomToken]
  /\ tokenMode (token (locals w)) = Specific.
Proof. split; reflexivity. Qed.

(** C5, at the failing input. The user ticks [Empty Token], unticks it
    and accepts. After the untick no [Empty Token] is selected, yet the
    token object still stands for [Empty], and the accepted launch gives
    both token flags the empty string; so at both readings of the host,
    and whether or not the quick pick reports the assigned selection in
    between. *)
Theorem unticked_empty_token_is_still_launched :
  untickedEmptyIsLaunched assignVerbatim tickUntickEmpty
  /\ untickedEmptyIsLaunched (assignListed wizardOptions) tickUntickEmpty
  /\ untickedEmptyIsLaunched assignVerbatim tickUntickEmptyUnreported
  /\ untickedEmptyIsLaunched (assignListed wizardOptions) tickUntickEmptyUnreported.
Proof.
  repeat split; eexists;
    (split; [vm_compute; reflexivity|]); split; reflexivity.
Qed.

End LauncherFacts.

(** ** The terminals that count *)

Module HostFacts.
Import JS Host.

Lemma recordTerminal_lookup m t p t' :
  recordTerminal m t !! p = Some t' ->
  m !! p = Some t'
  \/ (t' = t /\ isJupyterTerminal t = true /\ processId t = Some p /\ p <> 0%Z).
Proof.
  unfold recordTerminal, truthyNum.
  destruct (isJupyterTerminal t) eqn:Hj; simpl; [|auto].
  destruct (processId t) as [q|] eqn:Hq; [|auto].
  destruct (Z.eqb_spec q 0) as [->|Hnz]; simpl; [auto|].
  case_bool_decide as Hsame; [auto|].
  destruct (decide (q = p)) as [->|Hne].
  - rewrite lookup_insert_eq. intros [= <-]. right. auto.
  - rewrite lookup_insert_ne by exact Hne. auto.
Qed.

Lemma fold_recordTerminal_lookup ts m p t' :
  fold_left recordTerminal ts m !! p = Some t' ->
  m !! p = Some t'
  \/ (t' ∈ ts /\ isJupyterTerminal t' = true /\ processId t' = Some p /\ p <> 0%Z).
Proof.
  revert m. induction ts as [|t ts IH]; intros m; simpl.
  - auto.
  - intros H. destruct (IH _ H) as [Hm|(Hin & Hrest)].
    + destruct (recordTerminal_lookup _ _ _ _ Hm) as [?|(-> & Hrest)]; [auto|].
      right. split; [left|exact Hrest].
    + right. split; [right; exact Hin|exact Hrest].
Qed.

Lemma terminalsByPid_Some ts p t :
  terminalsByPid ts !! p = Some t ->
  t ∈ ts /\ isJupyterTerminal t = true /\ processId t = Some p /\ p <> 0%Z.
Proof.
  unfold terminalsByPid. intros H.
  destruct (fold_recordTerminal_lookup _ _ _ _ H) as [Hm|?]; [|assumption].
  rewrite lookup_empty in Hm. discriminate.
Qed.

Lemma recordTerminal_keeps m t p :
  is_Some (m !! p) -> is_Some (recordTerminal m t !! p).
Proof.
  unfold recordTerminal. intros H.
  destruct (negb (isJupyterTerminal t)); [exact H|].
  destruct (processId t) as [q|]; [|exact H].
  destruct (negb (truthyNum q)); [exact H|].
  case_bool_decide; [exact H|].
  destruct (decide (q = p)) as [->|Hne].
  - rewrite lookup_insert_eq. eauto.
  - rewrite lookup_insert_ne by exact Hne. exact H.
Qed.

Lemma fold_recordTerminal_keeps ts m p :
  is_Some (m !! p) -> is_Some (fold_left recordTerminal ts m !! p).
Proof.
  revert m. induction ts as [|t ts IH]; intros m H; simpl; [exact H|].
  apply IH. apply recordTerminal_keeps. exact H.
Qed.

Lemma recordTerminal_records m t p :
  isJupyterTerminal t = true -> processId t = Some p -> p <> 0%Z ->
  is_Some (recordTerminal m t !! p).
Proof.
  intros Hj Hp Hnz. unfold recordTerminal, truthyNum. rewrite Hj, Hp. simpl.
  destruct (Z.eqb_spec p 0) as [->|_]; [contradiction|]. simpl.
  case_bool_decide as Hsame.
  - rewrite Hsame. eauto.
  - rewrite lookup_insert_eq. eauto.
Qed.

Lemma terminalsByPid_is_Some ts p :
  is_Some (terminalsByPid ts !! p)
  <-> exists t, t ∈ ts /\ isJupyterTerminal t = true
                /\ processId t = Some p /\ p <> 0%Z.
Proof.
  split.
  - intros [t Ht]. exists t. apply terminalsByPid_Some. exact Ht.
  - unfold terminalsByPid. generalize (∅ : gmap Z Terminal).
    induction ts as [|t0 ts IH]; intros m (t & Hin & Hj & Hp & Hnz).
    + apply elem_of_nil in Hin. contradiction.
    + simpl. apply elem_of_cons in Hin. destruct Hin as [->|Hin].
      * apply fold_recordTerminal_keeps. apply recordTerminal_records; assumption.
      * apply IH. exists t. auto.
Qed.

Lemma terminalsByPid_None ts p :
  (forall t, t ∈ ts -> processId t = Some p -> isJupyterTerminal t = false) ->
  terminalsByPid ts !! p = None.
Proof.
  intros H. destruct (terminalsByPid ts !! p) as [t|] eqn:Ht; [|reflexivity].
  apply terminalsByPid_Some in Ht. destruct Ht as (Hin & Hj & Hp & _).
  rewrite (H t Hin Hp) in Hj. discriminate.
Qed.

End HostFacts.


(** ** The registry behind a URI provider *)

Module ProviderFacts.
Import JS Host Provider Samples.

Lemma removeHandle_fired st handle :
  fired (removeHandle st handle) = S (fired st).
Proof. reflexivity. Qed.

Lemma removeHandle_absent st handle :
  getNum (servers st) (parseInt handle) = None ->
  servers (removeHandle st handle) = servers st.
Proof.
  unfold removeHandle, getNum, deleteNum. simpl.
  destruct (parseInt handle) as [k|]; [|reflexivity].
  intros H. apply delete_id. exact H.
Qed.

(** The sibling path: closing the terminal of a registered server
    removes it and fires once. *)
Lemma shutdownJupyterServer_present st t p server :
  processId t = Some p -> p <> 0%Z -> servers st !! p = Some server ->
  fired (shutdownJupyterServer st t) = S (fired st)
  /\ servers (shutdownJupyterServer st t) = delete p (servers st).
Proof.
  intros Hp Hnz Hs. unfold shutdownJupyterServer, truthyNum. rewrite Hp.
  destruct (Z.eqb_spec p 0) as [->|_]; [contradiction|]. simpl.
  rewrite Hs. auto.
Qed.

(** The sibling path: closing a terminal that is not registered fires
    nothing and changes nothing. *)
Lemma shutdownJupyterServer_absent st t :
  (forall p, processId t = Some p -> servers st !! p = None) ->
  shutdownJupyterServer st t = st.
Proof.
  intros H. unfold shutdownJupyterServer.
  destruct (processId t) as [p|]; [|reflexivity].
  rewrite (H p eq_refl). destruct (negb (truthyNum p)); reflexivity.
Qed.

(** C8, at the failing inputs. [removeHandle] fires the change event
    although nothing goes from present to absent: on an empty registry,
    and on a registry that holds another process id. *)
Theorem removeHandle_fires_without_removal :
  getNum (servers emptyProvider) (parseInt "4242") = None
  /\ servers (removeHandle emptyProvider "4242") = servers emptyProvider
  /\ fired (removeHandle emptyProvider "4242") = S (fired emptyProvider)
  /\ getNum (servers oneHandle) (parseInt "17") = None
  /\ servers (removeHandle oneHandle "17") = servers oneHandle
  /\ fired (removeHandle oneHandle "17") = S (fired oneHandle).
Proof.
  split; [reflexivity|]. split; [apply removeHandle_absent; reflexivity|].
  split; [apply removeHandle_fired|]. split; [reflexivity|].
  split; [apply removeHandle_absent; reflexivity|]. apply removeHandle_fired.
Qed.

(** C9. [getServerUri] throws the error "Invalid handle" exactly when
    the handle, parsed as an integer, is not a key of the registry; for a
    handle that is a key it returns the [serverUri] stored under it. *)
Theorem getServerUri_invalid_handle st handle :
  (getServerUri st handle = Thrown (NewError "Invalid handle")
   <-> ~ exists k, parseInt handle = Some k /\ is_Some (servers st !! k))
  /\ (forall k server,
        parseInt handle = Some k -> servers st !! k = Some server ->
        getServerUri st handle = Returned (serverUri server)).
Proof.
  unfold getServerUri, getNum. split.
  - destruct (parseInt handle) as [k|].
    + destruct (servers st !! k) as [server|] eqn:Hk.
      * split; [discriminate|]. intros H. exfalso. apply H. exists k. eauto.
      * split; [|reflexivity]. intros _ (k' & [= <-] & Hs).
        rewrite Hk in Hs. destruct Hs as [x Hx]. discriminate.
    + split; [|reflexivity]. intros _ (k & Hk & _). discriminate.
  - intros k server -> ->. reflexivity.
Qed.

Lemma getServerUri_invalid_handle_witness :
  getServerUri oneHandle "4242"
  = Returned
      {| baseUrl := "http://localhost:8888/"; token := "t0";
         displayName := "Jupyter Lab http://localhost:8888/";
         mappedRemoteNotebookDir := None;
         authorizationHeader := None;
         dispose := Some 1%nat |}
  /\ getServerUri oneHandle "17" = Thrown (NewError "Invalid handle")
  /\ getServerUri oneHandle "lab" = Thrown (NewError "Invalid handle").
Proof.
  split.
  - apply (proj2 (getServerUri_invalid_handle oneHandle "4242") 4242%Z
             {| serverInfo := sampleServer 4242 (Some 1%nat);
                serverUri :=
                  {| baseUrl := "http://localhost:8888/"; token := "t0";
                     displayName := "Jupyter Lab http://localhost:8888/";
                     mappedRemoteNotebookDir := None;
                     authorizationHeader := None;
                     dispose := Some 1%nat |} |}); reflexivity.
  - split.
    + apply (proj1 (getServerUri_invalid_handle oneHandle "17")).
      intros (k & Hk & Hs). injection Hk as <-.
      destruct Hs as [x Hx]. vm_compute in Hx. discriminate Hx.
    + apply (proj1 (getServerUri_invalid_handle oneHandle "lab")).
      intros (k & Hk & _). vm_compute in Hk. discriminate Hk.
Defined.

End ProviderFacts.
(** ** The registry, with servers created in a collection *)

Module CollectionFacts.
Import JS Host Collection.

Section WithUri.
Context {Uri : Type}.
Implicit Types (st : State Uri) (stored : option (Stored Uri))
  (byPid : gmap Z Terminal).

Lemma coll_restoreOne_servers byPid st stored k :
  servers (restoreOne byPid st stored) !! k = servers st !! k
  \/ exists u terminal,
       stored ≫= s_serverUri = Some u
       /\ k = pretty (pid u)
       /\ servers st !! k = None
       /\ byPid !! pid u = Some terminal
       /\ is_Some (servers (restoreOne byPid st stored) !! k).
Proof.
  unfold restoreOne.
  destruct (stored ≫= s_serverUri) as [u|]; [|auto].
  destruct (negb (truthyNum (pid u))); [auto|].
  case_bool_decide as Hhas; [auto|].
  destruct (byPid !! pid u) as [terminal|] eqn:Hterm; [|auto].
  simpl. destruct (decide (pretty (pid u) = k)) as [<-|Hne].
  - right. exists u, terminal. rewrite lookup_insert_eq.
    split; [reflexivity|]. split; [reflexivity|].
    split; [|eauto]. apply eq_None_not_Some. exact Hhas.
  - left. apply lookup_insert_ne. exact Hne.
Qed.

Lemma coll_restoreOne_dead byPid st stored u :
  stored ≫= s_serverUri = Some u -> byPid !! pid u = None ->
  restoreOne byPid st stored = st.
Proof.
  intros Hu Hdead. unfold restoreOne. rewrite Hu, Hdead.
  destruct (negb _); [reflexivity|]. case_bool_decide; reflexivity.
Qed.

Lemma coll_restoreOne_present byPid st stored u :
  stored ≫= s_serverUri = Some u -> is_Some (servers st !! pretty (pid u)) ->
  restoreOne byPid st stored = st.
Proof.
  intros Hu Hhas. unfold restoreOne. rewrite Hu.
  destruct (negb _); [reflexivity|]. rewrite bool_decide_eq_true_2 by exact Hhas.
  reflexivity.
Qed.

Lemma coll_restore_dead byPid l st p :
  byPid !! p = None ->
  servers (fold_left (restoreOne byPid) l st) !! pretty p = servers st !! pretty p.
Proof.
  intros Hdead. revert st. induction l as [|x l IH]; intros st; simpl.
  - reflexivity.
  - rewrite IH.
    destruct (coll_restoreOne_servers byPid st x (pretty p))
      as [H|(u & terminal & _ & Hk & _ & Hterm & _)]; [exact H|].
    apply (inj pretty) in Hk. subst p. congruence.
Qed.

Lemma coll_restoreOne_keeps byPid st stored k :
  is_Some (servers st !! k) -> is_Some (servers (restoreOne byPid st stored) !! k).
Proof.
  intros H. destruct (coll_restoreOne_servers byPid st stored k)
    as [->|(_ & _ & _ & _ & _ & _ & Hs)]; assumption.
Qed.

Lemma coll_restore_keeps byPid l st k :
  is_Some (servers st !! k) ->
  is_Some (servers (fold_left (restoreOne byPid) l st) !! k).
Proof.
  revert st. induction l as [|x l IH]; intros st H; simpl; [exact H|].
  apply IH. apply coll_restoreOne_keeps. exact H.
Qed.

Lemma coll_settled_restoreOne byPid st stored :
  settled byPid st stored -> restoreOne byPid st stored = st.
Proof.
  unfold settled, restoreOne. intros H.
  destruct (stored ≫= s_serverUri) as [u|]; [|reflexivity].
  destruct (H u eq_refl) as [-> | [Hs | ->]]; [reflexivity| |].
  - destruct (negb _); [reflexivity|].
    rewrite bool_decide_eq_true_2 by exact Hs. reflexivity.
  - destruct (negb _); [reflexivity|]. case_bool_decide; reflexivity.
Qed.

Lemma coll_restore_settles byPid l st :
  Forall (settled byPid (fold_left (restoreOne byPid) l st)) l.
Proof.
  revert st. induction l as [|x l IH]; intros st; simpl; constructor.
  - intros u Hu. unfold restoreOne at 2. rewrite Hu.
    destruct (truthyNum (pid u)) eqn:Htruthy; [|auto]. right. simpl.
    case_bool_decide as Hhas.
    + left. apply coll_restore_keeps. exact Hhas.
    + destruct (byPid !! pid u) as [terminal|] eqn:Hterm; [|auto].
      left. apply coll_restore_keeps. simpl. rewrite lookup_insert_eq. eauto.
  - apply IH.
Qed.

Lemma coll_restore_settled byPid l st :
  Forall (settled byPid st) l -> fold_left (restoreOne byPid) l st = st.
Proof.
  induction 1 as [|x l Hx _ IH]; simpl; [reflexivity|].
  rewrite (coll_settled_restoreOne _ _ _ Hx). exact IH.
Qed.

Lemma coll_restore_memento byPid l st :
  memento (fold_left (restoreOne byPid) l st) = memento st.
Proof.
  revert st. induction l as [|x l IH]; intros st; simpl; [reflexivity|].
  rewrite IH. unfold restoreOne.
  repeat case_match; reflexivity.
Qed.

Lemma coll_restore_twice terminals st :
  restoreJupyterServers terminals (restoreJupyterServers terminals st)
  = restoreJupyterServers terminals st.
Proof.
  unfold restoreJupyterServers at 1.
  unfold restoreJupyterServers at 1. rewrite coll_restore_memento.
  apply coll_restore_settled. apply coll_restore_settles.
Qed.

End WithUri.
End CollectionFacts.

(** ** The registry, with a server provider and shared records *)

Module ServerProviderFacts.
Import JS Host ServerProvider.

Section WithUri.
Context {Uri : Type}.
Variable uriReparse : Uri -> Uri.
Variable uriToString : Uri -> string.
Variable urlPort : string -> option string.
Implicit Types (st : State Uri) (stored : option Stored)
  (byPid : gmap Z Terminal).

Abbreviation restoreOne := (restoreOne uriReparse uriToString urlPort).
Abbreviation restoreEach := (restoreEach uriReparse uriToString urlPort).
Abbreviation restoreJupyterServers :=
  (restoreJupyterServers uriReparse uriToString urlPort).

Abbreviation reparsedObject := (reparsedObject uriReparse).
Abbreviation parsedAt := (parsedAt uriReparse).

Lemma reparsedObject_pid (u : IJupyterServerUri Uri) :
  pid (reparsedObject u) = pid u.
Proof. unfold ServerProvider.reparsedObject. destruct (baseUrl u); reflexivity. Qed.

Lemma reparsedObject_fixed (u : IJupyterServerUri Uri) :
  (forall b, baseUrl u = Some b -> uriReparse b = b) -> reparsedObject u = u.
Proof.
  unfold ServerProvider.reparsedObject.
  destruct u as [p [b|] t lb m a]; simpl; [|reflexivity].
  intros H. unfold set_baseUrl. simpl. rewrite (H b eq_refl). reflexivity.
Qed.

Lemma sp_lookup_reparsed l0 l (u : IJupyterServerUri Uri)
    (h : gmap loc (IJupyterServerUri Uri)) :
  h !! l0 = Some u ->
  pid <$> (<[l0 := reparsedObject u]> h !! l) = pid <$> (h !! l).
Proof.
  intros Hu. destruct (decide (l0 = l)) as [<-|Hne].
  - rewrite lookup_insert_eq, Hu. simpl. rewrite reparsedObject_pid. reflexivity.
  - rewrite lookup_insert_ne by exact Hne. reflexivity.
Qed.

(** What one callback does, case by case. *)
Lemma sp_restoreOne_inv byPid st stored st' stored' r :
  restoreOne byPid st stored = (st', stored', r) ->
  (forall l, pid <$> (uris st' !! l) = pid <$> (uris st !! l))
  /\ stored' ≫= s_serverUri = stored ≫= s_serverUri
  /\ fired st' = fired st /\ channel st' = channel st
  /\ memento st' = memento st
  /\ ((servers st' = servers st /\ stored' = stored
       /\ (r = None <-> settled byPid st stored))
      \/ exists p terminal entry,
           pidOf st stored = Some p /\ truthyNum p = true
           /\ servers st !! pretty p = None
           /\ byPid !! p = Some terminal
           /\ servers st' = <[pretty p := entry]> (servers st)
           /\ r = None).
Proof.
  unfold restoreOne, settled, pidOf.
  destruct (stored ≫= s_serverUri) as [l0|] eqn:Hl0; simpl.
  2:{ intros [= <- <- <-]. repeat split; auto. left. repeat split; auto.
      intros _ p [=]. }
  destruct (uris st !! l0) as [u|] eqn:Hu; simpl.
  2:{ intros [= <- <- <-]. repeat split; auto. left. repeat split; auto.
      intros _ p [=]. }
  destruct (truthyNum (pid u)) eqn:Htruthy; simpl.
  2:{ intros [= <- <- <-]. repeat split; auto. left. repeat split; auto.
      intros _ p [= <-]. auto. }
  case_bool_decide as Hhas.
  { intros [= <- <- <-]. simpl. split; [intros l; apply sp_lookup_reparsed; exact Hu|].
    repeat split; auto. left. repeat split; auto. intros _ p [= <-]. auto. }
  destruct (byPid !! pid u) as [terminal|] eqn:Hterm.
  2:{ intros [= <- <- <-]. simpl.
      split; [intros l; apply sp_lookup_reparsed; exact Hu|]. repeat split; auto.
      left. repeat split; auto. intros _ p [= <-]. auto. }
  assert (Hunsettled :
    ~ (forall p, Some (pid u) = Some p ->
         truthyNum p = false
         \/ is_Some (servers st !! pretty p) \/ byPid !! p = None)).
  { intros H. destruct (H _ eq_refl) as [?|[?|?]]; [congruence|tauto|congruence]. }
  destruct (baseUrl (reparsedObject u)) as [b|] eqn:Hb; simpl.
  - destruct (urlPort (uriToString b)) as [portText|].
    + intros [= <- <- <-]. simpl.
      split; [intros l; apply sp_lookup_reparsed; exact Hu|].
      split; [reflexivity|]. repeat split; auto.
      right. eexists (pid u), terminal, _.
      rewrite Htruthy. repeat split; auto.
      apply eq_None_not_Some. exact Hhas.
    + intros [= <- <- <-]. simpl.
      split; [intros l; apply sp_lookup_reparsed; exact Hu|].
      repeat split; auto. left. repeat split; auto.
      * discriminate.
      * intros H. contradiction.
  - intros [= <- <- <-]. simpl.
    split; [intros l; apply sp_lookup_reparsed; exact Hu|].
    repeat split; auto. left. repeat split; auto.
    + discriminate.
    + intros H. contradiction.
Qed.

Lemma sp_pidOf_stable st st' stored stored' :
  (forall l, pid <$> (uris st' !! l) = pid <$> (uris st !! l)) ->
  stored' ≫= s_serverUri = stored ≫= s_serverUri ->
  pidOf st' stored' = pidOf st stored.
Proof.
  intros Hpids Hsame. unfold pidOf. rewrite Hsame.
  destruct (stored ≫= s_serverUri) as [l|]; [|reflexivity]. simpl.
  specialize (Hpids l).
  destruct (uris st' !! l), (uris st !! l); simpl in *; congruence.
Qed.

Lemma sp_settled_stable byPid st st' stored stored' :
  (forall l, pid <$> (uris st' !! l) = pid <$> (uris st !! l)) ->
  stored' ≫= s_serverUri = stored ≫= s_serverUri ->
  (forall k, is_Some (servers st !! k) -> is_Some (servers st' !! k)) ->
  settled byPid st stored -> settled byPid st' stored'.
Proof.
  intros Hpids Hsame Hgrow H p Hp.
  rewrite (sp_pidOf_stable _ _ _ _ Hpids Hsame) in Hp.
  destruct (H p Hp) as [?|[?|?]]; auto.
Qed.

(** What the loop does. *)
Lemma sp_restoreEach_inv byPid todo st st' todo' r :
  restoreEach byPid st todo = (st', todo', r) ->
  (forall l, pid <$> (uris st' !! l) = pid <$> (uris st !! l))
  /\ (fun x => x ≫= s_serverUri) <$> todo' = (fun x => x ≫= s_serverUri) <$> todo
  /\ fired st' = fired st /\ channel st' = channel st
  /\ memento st' = memento st
  /\ (forall k, is_Some (servers st !! k) -> is_Some (servers st' !! k))
  /\ (forall p, byPid !! p = None ->
        servers st' !! pretty p = servers st !! pretty p)
  /\ (r = None -> Forall (settled byPid st') todo').
Proof.
  revert st st' todo' r. induction todo as [|x todo IH]; intros st st' todo' r; simpl.
  - intros [= <- <- <-]. repeat split; auto.
  - destruct (restoreOne byPid st x) as [[sta x'] ra] eqn:Hone.
    destruct (sp_restoreOne_inv _ _ _ _ _ _ Hone)
      as (Hpids & Hsame & Hfired & Hchannel & Hmemento & Hcases).
    assert (Hgrow : forall k, is_Some (servers st !! k) -> is_Some (servers sta !! k)).
    { intros k Hk. destruct Hcases as [(-> & _)|(p & t & en & _ & _ & _ & _ & -> & _)];
        [exact Hk|].
      destruct (decide (pretty p = k)) as [<-|Hne].
      - rewrite lookup_insert_eq. eauto.
      - rewrite lookup_insert_ne by exact Hne. exact Hk. }
    assert (Hdead : forall p, byPid !! p = None ->
              servers sta !! pretty p = servers st !! pretty p).
    { intros p Hp.
      destruct Hcases as [(-> & _)|(q & t & en & _ & _ & _ & Hq & -> & _)];
        [reflexivity|].
      apply lookup_insert_ne. intros Heq. apply (inj pretty) in Heq. congruence. }
    destruct ra as [err|].
    + intros [= <- <- <-].
      split; [exact Hpids|]. split; [rewrite !fmap_cons, Hsame; reflexivity|].
      repeat split; auto. discriminate.
    + destruct (restoreEach byPid sta todo) as [[stb rest'] rb] eqn:Hrest.
      destruct (IH _ _ _ _ Hrest)
        as (Hpids' & Hsame' & Hfired' & Hchannel' & Hmemento' & Hgrow' & Hdead'
            & Hsettled').
      intros [= <- <- <-].
      split; [intros l; rewrite Hpids'; apply Hpids|].
      split; [rewrite !fmap_cons, Hsame, Hsame'; reflexivity|].
      split; [congruence|]. split; [congruence|].
      split; [congruence|]. split; [auto|].
      split; [intros p Hp; rewrite Hdead' by exact Hp; apply Hdead; exact Hp|].
      intros ->. constructor; [|auto].
      assert (Hx' : settled byPid sta x').
      { destruct Hcases as [(_ & -> & Hiff)|(p & t & en & Hp & _ & _ & _ & Hs & _)].
        - apply (sp_settled_stable byPid st sta x x); auto. apply Hiff. reflexivity.
        - intros q Hq.
          rewrite (sp_pidOf_stable _ _ _ _ Hpids Hsame), Hp in Hq.
          injection Hq as <-. right. left. rewrite Hs, lookup_insert_eq. eauto. }
      apply (sp_settled_stable byPid sta stb x' x'); auto.
Qed.

Lemma sp_restoreEach_settled byPid todo st :
  Forall (settled byPid st) todo ->
  exists st',
    restoreEach byPid st todo = (st', todo, None)
    /\ servers st' = servers st.
Proof.
  revert st. induction todo as [|x todo IH]; intros st Hall; simpl.
  - eauto.
  - inversion Hall as [|? ? Hx Hrest]; subst.
    destruct (restoreOne byPid st x) as [[sta x'] ra] eqn:Hone.
    destruct (sp_restoreOne_inv _ _ _ _ _ _ Hone)
      as (Hpids & Hsame & _ & _ & _ & Hcases).
    destruct Hcases as [(Hs & -> & Hiff)|(p & t & en & Hp & Ht & Hnone & Hterm & _)].
    + rewrite (proj2 Hiff Hx).
      destruct (IH sta) as (stb & -> & Hsb).
      { eapply Forall_impl; [exact Hrest|]. intros y Hy.
        apply (sp_settled_stable byPid st sta y y); auto.
        intros k. rewrite Hs. auto. }
      exists stb. split; [reflexivity|]. congruence.
    + exfalso. destruct (Hx p Hp) as [?|[[? ?]|?]]; congruence.
Qed.

(** What one callback does to the store. *)
Lemma sp_restoreOne_uris byPid st stored st' stored' r :
  restoreOne byPid st stored = (st', stored', r) ->
  (uris st' = uris st
   /\ (r = None ->
       forall l u, stored ≫= s_serverUri = Some l -> uris st !! l = Some u ->
         truthyNum (pid u) = false))
  \/ exists l u,
       stored ≫= s_serverUri = Some l /\ uris st !! l = Some u
       /\ truthyNum (pid u) = true
       /\ uris st' = <[l := reparsedObject u]> (uris st).
Proof.
  unfold ServerProvider.restoreOne, reparsedObject.
  destruct (stored ≫= s_serverUri) as [l0|] eqn:Hl0; simpl.
  2:{ intros [= <- <- <-]. left. split; [reflexivity|]. intros _ l u [=]. }
  destruct (uris st !! l0) as [u|] eqn:Hu; simpl.
  2:{ intros [= <- <- <-]. left. split; [reflexivity|].
      intros _ l u' [= <-]. congruence. }
  destruct (truthyNum (pid u)) eqn:Htruthy; simpl.
  2:{ intros [= <- <- <-]. left. split; [reflexivity|].
      intros _ l u' [= <-]. congruence. }
  intros H. right. exists l0, u.
  split; [reflexivity|]. split; [exact Hu|]. split; [exact Htruthy|].
  revert H. repeat case_match; intros [= <- <- <-]; reflexivity.
Qed.

(** A callback on a record that is passed over and whose object is
    parsed already changes nothing at all. *)
Lemma sp_restoreOne_fixed byPid st stored :
  settled byPid st stored ->
  (forall l, stored ≫= s_serverUri = Some l -> parsedAt st l) ->
  restoreOne byPid st stored = (st, stored, None).
Proof.
  intros Hsettled Hparsed.
  destruct (restoreOne byPid st stored) as [[st' stored'] r] eqn:Hone.
  destruct (sp_restoreOne_inv _ _ _ _ _ _ Hone)
    as (_ & _ & Hf & Hc & Hm & [(Hs & -> & Hiff)|(p & t & en & Hp & Ht & Hn & Hterm & _)]).
  2:{ exfalso. destruct (Hsettled p Hp) as [?|[[? ?]|?]]; congruence. }
  rewrite (proj2 Hiff Hsettled).
  assert (Hu : uris st' = uris st).
  { destruct (sp_restoreOne_uris _ _ _ _ _ _ Hone)
      as [(Hu & _)|(l0 & u0 & Hl0 & Hu0 & Ht0 & Hu)]; [exact Hu|].
    rewrite Hu, reparsedObject_fixed.
    - apply insert_id. exact Hu0.
    - intros b Hb. exact (Hparsed l0 Hl0 u0 b Hu0 Ht0 Hb). }
  destruct st, st'. simpl in *. subst. reflexivity.
Qed.

Section Idempotent.
Hypothesis reparse_idempotent : forall b, uriReparse (uriReparse b) = uriReparse b.

Lemma sp_restoreOne_parsed byPid st stored st' stored' r :
  restoreOne byPid st stored = (st', stored', r) ->
  (forall l, parsedAt st l -> parsedAt st' l)
  /\ (r = None -> forall l, stored' ≫= s_serverUri = Some l -> parsedAt st' l).
Proof.
  intros Hone.
  destruct (sp_restoreOne_inv _ _ _ _ _ _ Hone) as (_ & Hsame & _).
  destruct (sp_restoreOne_uris _ _ _ _ _ _ Hone)
    as [(Hu & Hfalsy)|(l0 & u0 & Hl0 & Hu0 & Ht0 & Hu)].
  - split.
    + intros l H. unfold ServerProvider.parsedAt. rewrite Hu. exact H.
    + intros -> l Hl u b Hlu Htruthy _. rewrite Hsame in Hl. rewrite Hu in Hlu.
      rewrite (Hfalsy eq_refl l u Hl Hlu) in Htruthy. discriminate.
  - assert (Hat : parsedAt st' l0).
    { intros u b. rewrite Hu, lookup_insert_eq. intros [= <-] _.
      unfold reparsedObject. destruct (baseUrl u0) as [b0|] eqn:Hb0; simpl.
      - intros [= <-]. apply reparse_idempotent.
      - rewrite Hb0. discriminate. }
    split.
    + intros l H. destruct (decide (l0 = l)) as [<-|Hne]; [exact Hat|].
      intros u b. rewrite Hu, lookup_insert_ne by exact Hne. apply H.
    + intros _ l Hl. rewrite Hsame, Hl0 in Hl. injection Hl as <-. exact Hat.
Qed.

Lemma reparsedObject_again (u : IJupyterServerUri Uri) :
  reparsedObject (reparsedObject u) = reparsedObject u.
Proof.
  apply reparsedObject_fixed. unfold ServerProvider.reparsedObject.
  destruct (baseUrl u) as [b0|] eqn:Hb0; simpl.
  - intros b [= <-]. apply reparse_idempotent.
  - rewrite Hb0. discriminate.
Qed.

Lemma sp_restoreEach_keeps_parsed byPid todo st st' todo' r :
  restoreEach byPid st todo = (st', todo', r) ->
  forall l, parsedAt st l -> parsedAt st' l.
Proof.
  revert st st' todo' r. induction todo as [|x todo IH]; intros st st' todo' r; simpl.
  - intros [= <- <- <-]. auto.
  - destruct (ServerProvider.restoreOne _ _ _ byPid st x) as [[sta x'] ra] eqn:Hone.
    destruct (sp_restoreOne_parsed _ _ _ _ _ _ Hone) as (Hkeep & _).
    destruct ra as [err|].
    + intros [= <- <- <-]. exact Hkeep.
    + destruct (ServerProvider.restoreEach _ _ _ byPid sta todo)
        as [[stb rest'] rb] eqn:Hrest.
      intros [= <- <- <-] l Hl. apply (IH _ _ _ _ Hrest). apply Hkeep. exact Hl.
Qed.

(** A callback that has thrown throws again, and changes nothing, when
    it is run on the state it left. *)
Lemma sp_restoreOne_again byPid st stored st' stored' err f c m :
  restoreOne byPid st stored = (st', stored', Some err) ->
  restoreOne byPid
    {| servers := servers st'; uris := uris st'; fired := f; channel := c;
       memento := m |} stored'
  = ({| servers := servers st'; uris := uris st'; fired := f; channel := c;
        memento := m |}, stored', Some err).
Proof.
  unfold ServerProvider.restoreOne at 1.
  destruct (stored ≫= s_serverUri) as [l0|] eqn:Hl0; [|discriminate].
  destruct (uris st !! l0) as [u|] eqn:Hu; [|discriminate].
  destruct (truthyNum (pid u)) eqn:Htruthy; simpl; [|discriminate].
  case_bool_decide as Hhas; [discriminate|].
  destruct (byPid !! pid u) as [terminal|] eqn:Hterm; [|discriminate].
  assert (Hagain : forall e0,
    match baseUrl (reparsedObject u) with
    | Some b =>
        match urlPort (uriToString b) with
        | Some _ => None
        | None => Some (TypeError "Invalid URL")
        end
    | None => Some (TypeError "Cannot read properties of undefined")
    end = Some e0 ->
    restoreOne byPid
      {| servers := servers st; uris := <[l0 := reparsedObject u]> (uris st);
         fired := f; channel := c; memento := m |} stored
    = ({| servers := servers st; uris := <[l0 := reparsedObject u]> (uris st);
          fired := f; channel := c; memento := m |}, stored, Some e0)).
  { intros e0 He0. unfold ServerProvider.restoreOne. rewrite Hl0. simpl.
    rewrite lookup_insert_eq, reparsedObject_pid, Htruthy. simpl.
    rewrite bool_decide_eq_false_2 by exact Hhas. rewrite Hterm.
    rewrite reparsedObject_again. unfold set_uris. simpl.
    rewrite insert_insert_eq.
    destruct (baseUrl (reparsedObject u)) as [b|].
    - destruct (urlPort (uriToString b)); [discriminate|].
      injection He0 as <-. reflexivity.
    - injection He0 as <-. reflexivity. }
  destruct (baseUrl (reparsedObject u)) as [b|] eqn:Hb.
  - destruct (urlPort (uriToString b)) as [portText|] eqn:Hport; [discriminate|].
    intros [= <- <- <-]. simpl. apply Hagain. reflexivity.
  - intros [= <- <- <-]. simpl. apply Hagain. reflexivity.
Qed.

(** A callback that has passed over its record or adopted it leaves the
    record settled. *)
Lemma sp_restoreOne_settles byPid st stored st' stored' :
  restoreOne byPid st stored = (st', stored', None) ->
  settled byPid st' stored'.
Proof.
  intros Hone.
  destruct (sp_restoreOne_inv _ _ _ _ _ _ Hone)
    as (Hpids & Hsame & _ & _ & _ & Hcases).
  destruct Hcases as [(Hs & -> & Hiff)|(p & t & en & Hp & _ & _ & _ & Hs & _)].
  - apply (sp_settled_stable byPid st st' stored stored); auto.
    + intros k. rewrite Hs. auto.
    + apply Hiff. reflexivity.
  - intros q Hq. rewrite (sp_pidOf_stable _ _ _ _ Hpids Hsame), Hp in Hq.
    injection Hq as <-. right. left. rewrite Hs, lookup_insert_eq. eauto.
Qed.

(** The loop run again on the state and the list it left ends the same
    way and changes nothing. *)
Lemma sp_restoreEach_again byPid todo st st' todo' r f c m :
  restoreEach byPid st todo = (st', todo', r) ->
  restoreEach byPid
    {| servers := servers st'; uris := uris st'; fired := f; channel := c;
       memento := m |} todo'
  = ({| servers := servers st'; uris := uris st'; fired := f; channel := c;
        memento := m |}, todo', r).
Proof.
  revert st st' todo' r. induction todo as [|x todo IH]; intros st st' todo' r; simpl.
  - intros [= <- <- <-]. reflexivity.
  - destruct (ServerProvider.restoreOne _ _ _ byPid st x) as [[sta x'] ra] eqn:Hone.
    destruct ra as [err|].
    + intros [= <- <- <-]. simpl.
      rewrite (sp_restoreOne_again _ _ _ _ _ _ f c m Hone). reflexivity.
    + destruct (ServerProvider.restoreEach _ _ _ byPid sta todo)
        as [[stb rest'] rb] eqn:Hrest.
      intros [= <- <- <-]. simpl.
      destruct (sp_restoreEach_inv _ _ _ _ _ _ Hrest)
        as (Hpids & _ & _ & _ & _ & Hgrow & _ & _).
      rewrite sp_restoreOne_fixed.
      * rewrite (IH _ _ _ _ Hrest). reflexivity.
      * apply (sp_settled_stable byPid sta _ x' x'); auto.
        apply (sp_restoreOne_settles _ _ _ _ _ Hone).
      * intros l Hl.
        assert (Hp : parsedAt stb l).
        { apply (sp_restoreEach_keeps_parsed _ _ _ _ _ _ Hrest).
          apply (sp_restoreOne_parsed _ _ _ _ _ _ Hone); [reflexivity|exact Hl]. }
        exact Hp.
Qed.

End Idempotent.

End WithUri.
End ServerProviderFacts.

(** ** The registry: duplicates and reconciliation *)

Module RegistryFacts.
Import JS Host Samples.
Import HostFacts CollectionFacts ServerProviderFacts.

(** C3. When the process id of the server is registered already,
    [addJupyterServer] only writes the warning line (when there is an
    output channel): the registry is the same map, hence of the same
    size, nothing is created or fired, the stored list is not extended,
    and the call returns normally, both where servers are created in
    the collection and where a server provider is installed. *)
Theorem duplicate_add_is_ignored :
  (forall (Uri : Type) (uriParse : string -> Uri)
          (st : Collection.State Uri) (server : JupyterServer),
      is_Some (Collection.servers st !! pretty (pid server)) ->
      exists st',
        Collection.addJupyterServer uriParse st server = (st', None)
        /\ Collection.servers st' = Collection.servers st
        /\ size (Collection.servers st') = size (Collection.servers st)
        /\ Collection.created st' = Collection.created st
        /\ Collection.memento st' = Collection.memento st
        /\ Collection.channel st'
           = appendLine (duplicateWarning (pid server)) (Collection.channel st))
  /\ (forall (Uri : Type) (uriParse uriFile : string -> Uri)
             (st : ServerProvider.State Uri) (server : JupyterServer),
        is_Some (ServerProvider.servers st !! pretty (pid server)) ->
        let st' := ServerProvider.addJupyterServer uriParse uriFile st server in
        ServerProvider.servers st' = ServerProvider.servers st
        /\ size (ServerProvider.servers st') = size (ServerProvider.servers st)
        /\ ServerProvider.uris st' = ServerProvider.uris st
        /\ ServerProvider.fired st' = ServerProvider.fired st
        /\ ServerProvider.memento st' = ServerProvider.memento st
        /\ ServerProvider.channel st'
           = appendLine (duplicateWarning (pid server))
               (ServerProvider.channel st)).
Proof.
  split.
  - intros Uri uriParse st server Hhas. unfold Collection.addJupyterServer.
    rewrite bool_decide_eq_true_2 by exact Hhas.
    eexists. split; [reflexivity|]. repeat split.
  - intros Uri uriParse uriFile st server Hhas.
    unfold ServerProvider.addJupyterServer.
    rewrite bool_decide_eq_true_2 by exact Hhas. repeat split.
Qed.

(** [addJupyterServer] twice with the same server. *)
Lemma duplicate_add_is_ignored_witness :
  (exists st',
     Collection.addJupyterServer textOf addedCollection
       (sampleServer 4242 (Some 1%nat)) = (st', None)
     /\ Collection.servers st' = Collection.servers addedCollection
     /\ size (Collection.servers st') = size (Collection.servers addedCollection)
     /\ Collection.created st' = Collection.created addedCollection
     /\ Collection.memento st' = Collection.memento addedCollection
     /\ Collection.channel st'
        = appendLine (duplicateWarning (pid (sampleServer 4242 (Some 1%nat))))
            (Collection.channel addedCollection))
  /\ (let st' :=
        ServerProvider.addJupyterServer textOf textOf addedServerProvider
          (sampleServer 4242 (Some 1%nat)) in
      ServerProvider.servers st' = ServerProvider.servers addedServerProvider
      /\ size (ServerProvider.servers st')
         = size (ServerProvider.servers addedServerProvider)
      /\ ServerProvider.uris st' = ServerProvider.uris addedServerProvider
      /\ ServerProvider.fired st' = ServerProvider.fired addedServerProvider
      /\ ServerProvider.memento st' = ServerProvider.memento addedServerProvider
      /\ ServerProvider.channel st'
         = appendLine (duplicateWarning (pid (sampleServer 4242 (Some 1%nat))))
             (ServerProvider.channel addedServerProvider)).
Proof.
  split.
  - apply (proj1 duplicate_add_is_ignored string textOf addedCollection
             (sampleServer 4242 (Some 1%nat))).
    vm_compute. eexists. reflexivity.
  - apply (proj2 duplicate_add_is_ignored string textOf textOf
             addedServerProvider (sampleServer 4242 (Some 1%nat))).
    vm_compute. eexists. reflexivity.
Defined.

(** C6. A persisted record whose process id has no terminal in the
    inventory is passed over: its callback changes nothing and throws
    nothing, and after the whole reconciliation the registry holds under
    that process id exactly what it held before (so no entry when there
    was none). *)
Theorem dead_records_are_dropped :
  (forall (Uri : Type) (terminals : list Terminal) (st : Collection.State Uri)
          (stored : option (Collection.Stored Uri))
          (u : Collection.IJupyterServerUri Uri),
      stored ≫= Collection.s_serverUri = Some u ->
      terminalsByPid terminals !! Collection.pid u = None ->
      Collection.restoreOne (terminalsByPid terminals) st stored = st
      /\ Collection.servers (Collection.restoreJupyterServers terminals st)
           !! pretty (Collection.pid u)
         = Collection.servers st !! pretty (Collection.pid u))
  /\ (forall (Uri : Type) (uriReparse : Uri -> Uri) (uriToString : Uri -> string)
             (urlPort : string -> option string)
             (terminals : list Terminal) (st : ServerProvider.State Uri)
             (stored : option ServerProvider.Stored) (p : Z),
        ServerProvider.pidOf st stored = Some p ->
        terminalsByPid terminals !! p = None ->
        (exists st',
           ServerProvider.restoreOne uriReparse uriToString urlPort
             (terminalsByPid terminals) st stored = (st', stored, None)
           /\ ServerProvider.servers st' = ServerProvider.servers st)
        /\ ServerProvider.servers
             (ServerProvider.restoreJupyterServers uriReparse uriToString urlPort
                terminals st).1 !! pretty p
           = ServerProvider.servers st !! pretty p).
Proof.
  split.
  - intros Uri terminals st stored u Hu Hdead. split.
    + exact (coll_restoreOne_dead _ _ _ _ Hu Hdead).
    + apply coll_restore_dead. exact Hdead.
  - intros Uri uriReparse uriToString urlPort terminals st stored p Hp Hdead. split.
    + destruct (ServerProvider.restoreOne uriReparse uriToString urlPort
                  (terminalsByPid terminals) st stored) as [[st' stored'] r] eqn:Hone.
      destruct (sp_restoreOne_inv _ _ _ _ _ _ _ _ _ Hone)
        as (_ & _ & _ & _ & _ & [(Hs & -> & Hiff)|(q & t & en & Hq & _ & _ & Ht & _)]).
      * exists st'. split; [|exact Hs]. rewrite (proj2 Hiff); [reflexivity|].
        intros q Hq. rewrite Hp in Hq. injection Hq as <-. auto.
      * rewrite Hp in Hq. injection Hq as <-. congruence.
    + unfold ServerProvider.restoreJupyterServers.
      destruct (ServerProvider.restoreEach _ _ _ _ _ _) as [[st' stored'] r] eqn:Hall.
      simpl.
      destruct (sp_restoreEach_inv _ _ _ _ _ _ _ _ _ Hall)
        as (_ & _ & _ & _ & _ & _ & Hd & _).
      apply Hd. exact Hdead.
Qed.

Lemma dead_records_are_dropped_witness :
  (Collection.restoreOne (terminalsByPid openTerminals) freshCollection
     (storedRecord 17) = freshCollection
   /\ Collection.servers
        (Collection.restoreJupyterServers openTerminals freshCollection)
        !! pretty (Collection.pid (storedUri 17))
      = Collection.servers freshCollection !! pretty (Collection.pid (storedUri 17)))
  /\ ((exists st',
         ServerProvider.restoreOne textOf textOf portOf
           (terminalsByPid openTerminals) freshServerProvider
           (sharedRecord 2%positive)
         = (st', sharedRecord 2%positive, None)
         /\ ServerProvider.servers st' = ServerProvider.servers freshServerProvider)
      /\ ServerProvider.servers
           (ServerProvider.restoreJupyterServers textOf textOf portOf
              openTerminals freshServerProvider).1 !! pretty 17%Z
         = ServerProvider.servers freshServerProvider !! pretty 17%Z).
Proof.
  split.
  - apply (proj1 dead_records_are_dropped string openTerminals freshCollection
             (storedRecord 17) (storedUri 17)); reflexivity.
  - apply (proj2 dead_records_are_dropped string textOf textOf portOf
             openTerminals freshServerProvider (sharedRecord 2%positive) 17%Z);
      reflexivity.
Defined.

(** C7. A persisted record whose process id is registered already is
    passed over: its callback leaves the registry as it is and throws
    nothing. Hence a second reconciliation against the same terminals
    changes nothing: where servers are created in the collection the
    state after two runs is the state after one; where the server
    provider is installed, after a run that completed the next run
    completes as well and leaves the same registry and the same stored
    list; and when [Uri.parse] gives back a value it has parsed, the
    next run ends as the first did (completes, or throws the same) and
    leaves the whole state as it is but for the event it fires on
    completion. *)
Theorem restore_is_idempotent :
  (forall (Uri : Type) (terminals : list Terminal) (st : Collection.State Uri),
      (forall (stored : option (Collection.Stored Uri))
              (u : Collection.IJupyterServerUri Uri),
          stored ≫= Collection.s_serverUri = Some u ->
          is_Some (Collection.servers st !! pretty (Collection.pid u)) ->
          Collection.restoreOne (terminalsByPid terminals) st stored = st)
      /\ Collection.restoreJupyterServers terminals
           (Collection.restoreJupyterServers terminals st)
         = Collection.restoreJupyterServers terminals st)
  /\ (forall (Uri : Type) (uriReparse : Uri -> Uri) (uriToString : Uri -> string)
             (urlPort : string -> option string)
             (terminals : list Terminal) (st : ServerProvider.State Uri),
        (forall (stored : option ServerProvider.Stored) (p : Z),
            ServerProvider.pidOf st stored = Some p ->
            is_Some (ServerProvider.servers st !! pretty p) ->
            exists st',
              ServerProvider.restoreOne uriReparse uriToString urlPort
                (terminalsByPid terminals) st stored = (st', stored, None)
              /\ ServerProvider.servers st' = ServerProvider.servers st)
        /\ (forall st1,
              ServerProvider.restoreJupyterServers uriReparse uriToString urlPort
                terminals st = (st1, None) ->
              exists st2,
                ServerProvider.restoreJupyterServers uriReparse uriToString urlPort
                  terminals st1 = (st2, None)
                /\ ServerProvider.servers st2 = ServerProvider.servers st1
                /\ ServerProvider.memento st2 = ServerProvider.memento st1)
        /\ ((forall b, uriReparse (uriReparse b) = uriReparse b) ->
            forall st1 r,
              ServerProvider.restoreJupyterServers uriReparse uriToString urlPort
                terminals st = (st1, r) ->
              ServerProvider.restoreJupyterServers uriReparse uriToString urlPort
                terminals st1
              = ({| ServerProvider.servers := ServerProvider.servers st1;
                    ServerProvider.uris := ServerProvider.uris st1;
                    ServerProvider.fired :=
                      match r with
                      | None => S (ServerProvider.fired st1)
                      | Some _ => ServerProvider.fired st1
                      end;
                    ServerProvider.channel := ServerProvider.channel st1;
                    ServerProvider.memento := ServerProvider.memento st1 |},
                 r))).
Proof.
  split.
  - intros Uri terminals st. split.
    + intros stored u Hu Hhas. exact (coll_restoreOne_present _ _ _ _ Hu Hhas).
    + apply coll_restore_twice.
  - intros Uri uriReparse uriToString urlPort terminals st. split; [|split].
    + intros stored p Hp Hhas.
      destruct (ServerProvider.restoreOne uriReparse uriToString urlPort
                  (terminalsByPid terminals) st stored) as [[st' stored'] r] eqn:Hone.
      destruct (sp_restoreOne_inv _ _ _ _ _ _ _ _ _ Hone)
        as (_ & _ & _ & _ & _ & [(Hs & -> & Hiff)|(q & t & en & Hq & _ & Hnone & _)]).
      * exists st'. split; [|exact Hs]. rewrite (proj2 Hiff); [reflexivity|].
        intros q Hq. rewrite Hp in Hq. injection Hq as <-. auto.
      * rewrite Hp in Hq. injection Hq as <-. rewrite Hnone in Hhas.
        destruct Hhas as [x Hx]. discriminate Hx.
    + intros st1. unfold ServerProvider.restoreJupyterServers at 1.
      destruct (ServerProvider.restoreEach _ _ _ _ _ _) as [[st' stored'] r] eqn:Hall.
      intros [= <- ->].
      destruct (sp_restoreEach_inv _ _ _ _ _ _ _ _ _ Hall)
        as (_ & _ & _ & _ & _ & _ & _ & Hsettled).
      specialize (Hsettled eq_refl).
      unfold ServerProvider.restoreJupyterServers. simpl.
      destruct (sp_restoreEach_settled uriReparse uriToString urlPort
                  (terminalsByPid terminals) stored'
                  {| ServerProvider.servers := ServerProvider.servers st';
                     ServerProvider.uris := ServerProvider.uris st';
                     ServerProvider.fired := S (ServerProvider.fired st');
                     ServerProvider.channel := ServerProvider.channel st';
                     ServerProvider.memento := stored' |})
        as (st2 & -> & Hs2).
      { eapply Forall_impl; [exact Hsettled|]. intros x Hx. exact Hx. }
      eexists. split; [reflexivity|]. simpl. split; [exact Hs2|reflexivity].
    + intros Hidem st1 r. unfold ServerProvider.restoreJupyterServers at 1.
      destruct (ServerProvider.restoreEach _ _ _ _ _ _) as [[st' stored'] r'] eqn:Hall.
      intros [= <- <-].
      unfold ServerProvider.restoreJupyterServers. simpl.
      rewrite (sp_restoreEach_again _ _ _ Hidem _ _ _ _ _ _ _ _ _ Hall).
      reflexivity.
Qed.

Lemma restore_is_idempotent_witness :
  (Collection.restoreOne (terminalsByPid openTerminals) restoredCollection
     (storedRecord 4242) = restoredCollection
   /\ Collection.restoreJupyterServers openTerminals
        (Collection.restoreJupyterServers openTerminals freshCollection)
      = Collection.restoreJupyterServers openTerminals freshCollection)
  /\ ((exists st',
         ServerProvider.restoreOne textOf textOf portOf
           (terminalsByPid openTerminals) restoredServerProvider
           (sharedRecord 1%positive)
         = (st', sharedRecord 1%positive, None)
         /\ ServerProvider.servers st'
            = ServerProvider.servers restoredServerProvider)
      /\ exists st2,
           ServerProvider.restoreJupyterServers textOf textOf portOf openTerminals
             restoredServerProvider = (st2, None)
           /\ ServerProvider.servers st2
              = ServerProvider.servers restoredServerProvider
           /\ ServerProvider.memento st2
              = ServerProvider.memento restoredServerProvider)
  /\ ServerProvider.restoreJupyterServers textOf textOf portOf openTerminals
       restoredServerProvider
     = ({| ServerProvider.servers := ServerProvider.servers restoredServerProvider;
           ServerProvider.uris := ServerProvider.uris restoredServerProvider;
           ServerProvider.fired := S (ServerProvider.fired restoredServerProvider);
           ServerProvider.channel := ServerProvider.channel restoredServerProvider;
           ServerProvider.memento := ServerProvider.memento restoredServerProvider |},
        None).
Proof.
  split; [split|split; [split|]].
  - apply (proj1 (proj1 restore_is_idempotent string openTerminals
                    restoredCollection) (storedRecord 4242) (storedUri 4242)).
    + reflexivity.
    + vm_compute. eexists. reflexivity.
  - apply (proj2 (proj1 restore_is_idempotent string openTerminals freshCollection)).
  - apply (proj1 (proj2 restore_is_idempotent string textOf textOf portOf
                    openTerminals restoredServerProvider)
             (sharedRecord 1%positive) 4242%Z).
    + reflexivity.
    + vm_compute. eexists. reflexivity.
  - apply (proj1 (proj2 (proj2 restore_is_idempotent string textOf textOf portOf
                           openTerminals freshServerProvider))
             restoredServerProvider).
    vm_compute. reflexivity.
  - apply (proj2 (proj2 (proj2 restore_is_idempotent string textOf textOf portOf
                           openTerminals freshServerProvider))
             (fun b => eq_refl) restoredServerProvider None).
    vm_compute. reflexivity.
Defined.

(** C10. The inventory holds a process id exactly when some terminal
    whose name starts with "Jupyter Notebook at" or "Jupyter Lab at"
    reports it. So when every terminal that reports the process id of a
    persisted record has another name, the record is not restored: after
    the reconciliation the registry holds under that process id what it
    held before. *)
Theorem only_jupyter_terminals_are_live :
  (forall (terminals : list Terminal) (p : Z),
      is_Some (terminalsByPid terminals !! p)
      <-> exists t, t ∈ terminals /\ isJupyterTerminal t = true
                    /\ processId t = Some p /\ p <> 0%Z)
  /\ (forall (Uri : Type) (terminals : list Terminal)
             (st : Collection.State Uri) (p : Z),
        (forall t, t ∈ terminals -> processId t = Some p ->
                   isJupyterTerminal t = false) ->
        Collection.servers (Collection.restoreJupyterServers terminals st)
          !! pretty p
        = Collection.servers st !! pretty p)
  /\ (forall (Uri : Type) (uriReparse : Uri -> Uri) (uriToString : Uri -> string)
             (urlPort : string -> option string)
             (terminals : list Terminal) (st : ServerProvider.State Uri) (p : Z),
        (forall t, t ∈ terminals -> processId t = Some p ->
                   isJupyterTerminal t = false) ->
        ServerProvider.servers
          (ServerProvider.restoreJupyterServers uriReparse uriToString urlPort
             terminals st).1 !! pretty p
        = ServerProvider.servers st !! pretty p).
Proof.
  split; [|split].
  - apply terminalsByPid_is_Some.
  - intros Uri terminals st p Hother.
    apply coll_restore_dead. apply terminalsByPid_None. exact Hother.
  - intros Uri uriReparse uriToString urlPort terminals st p Hother.
    unfold ServerProvider.restoreJupyterServers.
    destruct (ServerProvider.restoreEach _ _ _ _ _ _) as [[st' stored'] r] eqn:Hall.
    simpl.
    destruct (sp_restoreEach_inv _ _ _ _ _ _ _ _ _ Hall)
      as (_ & _ & _ & _ & _ & _ & Hd & _).
    apply Hd. apply terminalsByPid_None. exact Hother.
Qed.

Lemma only_jupyter_terminals_are_live_witness :
  Collection.servers (Collection.restoreJupyterServers openTerminals freshCollection)
    !! pretty 17%Z
  = Collection.servers freshCollection !! pretty 17%Z
  /\ ServerProvider.servers
       (ServerProvider.restoreJupyterServers textOf textOf portOf openTerminals
          freshServerProvider).1 !! pretty 17%Z
     = ServerProvider.servers freshServerProvider !! pretty 17%Z.
Proof.
  assert (Hother : forall t, t ∈ openTerminals -> processId t = Some 17%Z ->
                     isJupyterTerminal t = false).
  { intros t Hin Hp. unfold openTerminals in Hin.
    apply elem_of_cons in Hin. destruct Hin as [->|Hin]; [discriminate Hp|].
    apply elem_of_cons in Hin. destruct Hin as [->|Hin]; [reflexivity|].
    apply elem_of_nil in Hin. contradiction. }
  split.
  - apply (proj1 (proj2 only_jupyter_terminals_are_live) string openTerminals
             freshCollection 17%Z Hother).
  - apply (proj2 (proj2 only_jupyter_terminals_are_live) string textOf textOf
             portOf openTerminals freshServerProvider 17%Z Hother).
Defined.

End RegistryFacts.
(** ** The JavaScript primitives *)

Module JSFacts.
Import JS.

Lemma trimEnd_idem (s : string) : trimEnd (trimEnd s) = trimEnd s.
Proof.
  induction s as [|a s IH]; [reflexivity|]. simpl.
  destruct (isWhiteSpace a && negb (truthy (trimEnd s))) eqn:H; [reflexivity|].
  simpl. rewrite IH, H. reflexivity.
Qed.

Lemma trimStart_head (s : string) :
  trimStart s = ""
  \/ exists a r, trimStart s = String a r /\ isWhiteSpace a = false.
Proof.
  induction s as [|a s IH]; [left; reflexivity|]. simpl.
  destruct (isWhiteSpace a) eqn:H; [exact IH|].
  right. exists a, s. split; [reflexivity|exact H].
Qed.

Lemma trimEnd_cons (a : ascii) (r : string) :
  isWhiteSpace a = false -> trimEnd (String a r) = String a (trimEnd r).
Proof. intros H. simpl. rewrite H. reflexivity. Qed.

Lemma trimStart_cons (a : ascii) (r : string) :
  isWhiteSpace a = false -> trimStart (String a r) = String a r.
Proof. intros H. simpl. rewrite H. reflexivity. Qed.

(** Trimming a trimmed string changes nothing. *)
Lemma trim_idem (s : string) : trim (trim s) = trim s.
Proof.
  unfold trim. destruct (trimStart_head s) as [->|(a & r & -> & Ha)].
  - reflexivity.
  - rewrite (trimEnd_cons a r Ha), (trimStart_cons a _ Ha),
      (trimEnd_cons a _ Ha), trimEnd_idem. reflexivity.
Qed.

(** A string without white space is its own trimming. *)
Lemma trim_everyChar (p : ascii -> bool) (s : string) :
  (forall a, p a = true -> isWhiteSpace a = false) ->
  everyChar p s = true -> trim s = s.
Proof.
  intros Hp Hs. unfold trim.
  assert (Hend : trimEnd s = s).
  { induction s as [|a s IH]; [reflexivity|]. simpl in Hs.
    apply andb_true_iff in Hs as [Ha Hs].
    rewrite (trimEnd_cons a s (Hp a Ha)), (IH Hs). reflexivity. }
  destruct s as [|a s]; [reflexivity|]. simpl in Hs.
  apply andb_true_iff in Hs as [Ha Hs].
  rewrite (trimStart_cons a s (Hp a Ha)). exact Hend.
Qed.

Lemma isDigit_not_space (a : ascii) : isDigit a = true -> isWhiteSpace a = false.
Proof.
  unfold isDigit, digitValue, isWhiteSpace.
  destruct ((48 <=? N_of_ascii a) && (N_of_ascii a <=? 57))%N eqn:H; [|discriminate].
  intros _. apply andb_true_iff in H as [H1 H2].
  apply N.leb_le in H1, H2.
  destruct (9 <=? N_of_ascii a)%N eqn:E1, (N_of_ascii a <=? 13)%N eqn:E2,
    (N_of_ascii a =? 32)%N eqn:E3, (N_of_ascii a =? 160)%N eqn:E4;
    try reflexivity;
    try apply N.leb_le in E2; try apply N.eqb_eq in E3; try apply N.eqb_eq in E4;
    lia.
Qed.

Lemma pretty_N_char_digit (d : N) :
  (d < 10)%N -> digitValue (pretty_N_char d) = Some d.
Proof.
  intros H.
  assert (d = 0 \/ d = 1 \/ d = 2 \/ d = 3 \/ d = 4 \/ d = 5 \/ d = 6 \/ d = 7
          \/ d = 8 \/ d = 9)%N as Hd by lia.
  repeat (destruct Hd as [->|Hd]; [reflexivity|]). subst d. reflexivity.
Qed.

Lemma pretty_N_char_isDigit (d : N) : isDigit (pretty_N_char d) = true.
Proof.
  unfold pretty_N_char.
  repeat (match goal with |- context [match ?x with _ => _ end] => destruct x end;
          try reflexivity).
Qed.

Lemma pretty_N_go_digits (x : N) (s : string) :
  everyChar isDigit s = true -> everyChar isDigit (pretty_N_go x s) = true.
Proof.
  revert s. induction (N.lt_wf_0 x) as [x _ IH]. intros s Hs.
  destruct (N.eq_dec x 0%N) as [->|Hx].
  - rewrite pretty_N_go_0. exact Hs.
  - rewrite pretty_N_go_step by lia. apply IH.
    + apply N.div_lt; lia.
    + simpl. rewrite pretty_N_char_isDigit. exact Hs.
Qed.

(** [n.toString()] is made of decimal digits. *)
Lemma pretty_N_digits (n : N) : everyChar isDigit (pretty n) = true.
Proof.
  unfold pretty, pretty_N. destruct (decide (n = 0%N)); [reflexivity|].
  apply pretty_N_go_digits. reflexivity.
Qed.

Lemma trim_pretty_N (n : N) : trim (pretty n) = pretty n.
Proof.
  apply (trim_everyChar isDigit); [exact isDigit_not_space|apply pretty_N_digits].
Qed.

(** Reading the digits [pretty_N_go] writes gives the number back. *)
Lemma leadingDigits_pretty_N_go (x : N) (s : string) :
  (0 < x)%N ->
  leadingDigits None (pretty_N_go x s) = leadingDigits (Some x) s.
Proof.
  revert s. induction (N.lt_wf_0 x) as [x _ IH]. intros s Hx.
  rewrite pretty_N_go_step by exact Hx.
  assert (Hd : (x mod 10 < 10)%N) by (apply N.mod_lt; lia).
  destruct (N.eq_dec (x / 10)%N 0%N) as [H0|H0].
  - rewrite H0, pretty_N_go_0. simpl.
    rewrite (pretty_N_char_digit _ Hd). f_equal. f_equal.
    assert (E : x = (10 * (x / 10) + x mod 10)%N) by (apply N.div_mod; lia). simpl. lia.
  - rewrite IH; [|apply N.div_lt; lia|apply N.neq_0_lt_0; exact H0]. simpl.
    rewrite (pretty_N_char_digit _ Hd). f_equal. f_equal.
    assert (E : x = (10 * (x / 10) + x mod 10)%N) by (apply N.div_mod; lia). simpl. lia.
Qed.

Lemma leadingDigits_head (s : string) (n : N) :
  leadingDigits None s = Some n ->
  exists a r, s = String a r /\ isDigit a = true.
Proof.
  destruct s as [|a r]; simpl; [discriminate|].
  intros H. exists a, r. split; [reflexivity|]. unfold isDigit.
  destruct (digitValue a); [reflexivity|discriminate].
Qed.

Lemma parseInt_digits (s : string) (n : N) :
  leadingDigits None s = Some n -> parseInt s = Some (Z.of_N n).
Proof.
  intros H. destruct (leadingDigits_head s n H) as (a & r & -> & Ha).
  unfold parseInt. rewrite (trimStart_cons a r (isDigit_not_space a Ha)).
  assert (Hs : a <> "-"%char /\ a <> "+"%char).
  { split; intros ->; discriminate Ha. }
  destruct Hs as [Hm Hp].
  assert (E : (let '(negative, body) :=
                 match String a r with
                 | String "-" r0 => (true, r0)
                 | String "+" r0 => (false, r0)
                 | _ => (false, String a r)
                 end in
               match leadingDigits None body with
               | Some n0 => Some (if negative then (- Z.of_N n0)%Z else Z.of_N n0)
               | None => None
               end)
              = match leadingDigits None (String a r) with
                | Some n0 => Some (Z.of_N n0)
                | None => None
                end).
  { destruct a as [[] [] [] [] [] [] [] []]; try reflexivity; congruence. }
  rewrite E, H. reflexivity.
Qed.

Lemma leadingDigits_pretty_pos (p : positive) :
  leadingDigits None (pretty (N.pos p)) = Some (N.pos p).
Proof.
  unfold pretty, pretty_N. destruct (decide (N.pos p = 0%N)); [discriminate|].
  rewrite leadingDigits_pretty_N_go by lia. reflexivity.
Qed.

(** [parseInt(k.toString(), 10)] is [k]. *)
Lemma parseInt_pretty (k : Z) : parseInt (pretty k) = Some k.
Proof.
  destruct k as [|p|p].
  - reflexivity.
  - exact (parseInt_digits _ (N.pos p) (leadingDigits_pretty_pos p)).
  - change (pretty (Z.neg p)) with (String "-" (pretty (N.pos p))).
    unfold parseInt. rewrite trimStart_cons by reflexivity.
    cbv beta iota zeta. rewrite leadingDigits_pretty_pos. reflexivity.
Qed.

Lemma prefix_app (p s : string) : String.prefix p (p +:+ s) = true.
Proof.
  induction p as [|a p IH]; simpl; [destruct s; reflexivity|].
  destruct (Ascii.ascii_dec a a); [exact IH|congruence].
Qed.

Lemma sliceFrom_app (p s : string) : sliceFrom (String.length p) (p +:+ s) = s.
Proof. induction p as [|a p IH]; simpl; [destruct s; reflexivity|exact IH]. Qed.

Lemma replace_startsWith (s pat rep : string) :
  startsWith s pat = true ->
  replace s pat rep = rep +:+ sliceFrom (String.length pat) s.
Proof.
  unfold startsWith. intros H. destruct s; unfold replace; fold replace;
    rewrite H; reflexivity.
Qed.

(** Replacing a prefix: the text after it follows the replacement. *)
Lemma replace_prefix (p s rep : string) :
  replace (p +:+ s) p rep = rep +:+ s.
Proof.
  rewrite replace_startsWith by apply prefix_app.
  rewrite sliceFrom_app. reflexivity.
Qed.

End JSFacts.
(** ** The launch parameters, beyond the fixed order *)

Module WizardFacts.
Import JS Launcher Samples LauncherFacts JSFacts.

(** [getLaunchArgs] is the end of the build on the accepted
    configuration. *)
Lemma getLaunchArgs_accepted sha rnd assign o env script outcome probe
    cancelled now :
  getLaunchArgs sha rnd assign o env script outcome probe cancelled now
  = match accepted assign o env script outcome with
    | Some l => finishLaunch sha rnd (type o) probe cancelled now l
    | None => ReturnedUndefined
    end.
Proof. unfold getLaunchArgs, accepted. destruct (customize o); reflexivity. Qed.

(** What [getLaunchArgs] returns comes from an accepted configuration,
    in the fixed order. *)
Lemma shellArgs_fixed_order_aux sha rnd assign o env script outcome probe
    cancelled now info :
  getLaunchArgs sha rnd assign o env script outcome probe cancelled now
    = Returned info ->
  exists l pw1 pw2,
    accepted assign o env script outcome = Some l
    /\ Info.shellArgs info
       = orderedArgs (type o) (shouldOpenBrowser l) (cors l)
           (trim (Info.token info)) pw1 pw2 (workingDirectory l)
           (Info.port info).
Proof.
  rewrite getLaunchArgs_accepted.
  destruct (accepted assign o env script outcome) as [l|]; [|discriminate].
  unfold finishLaunch. destruct probe as [reason|port]; [discriminate|].
  destruct cancelled; [discriminate|].
  destruct (resolveToken now (token l)) as [err|t]; [discriminate|].
  intros [= <-]. cbn [Info.shellArgs Info.token Info.port].
  destruct (buildShellArgs_ordered sha rnd (type o) l (value t) port)
    as (pw1 & pw2 & Hargs & _).
  exists l, pw1, pw2. split; [reflexivity|exact Hargs].
Qed.

(** The fields [getLaunchArgs] copies from the accepted configuration. *)
Lemma getLaunchArgs_returned sha rnd assign o env script outcome probe
    cancelled now info :
  getLaunchArgs sha rnd assign o env script outcome probe cancelled now
    = Returned info ->
  exists l,
    accepted assign o env script outcome = Some l
    /\ probe = inr (Info.port info)
    /\ Info.cwd info = cwd l
    /\ Info.password info = password l
    /\ Info.registerWithJupyterExtension info = registerWithJupyterExtension l
    /\ Info.jupyterExtensionWorkingDirectory info
       = jupyterExtensionWorkingDirectory l.
Proof.
  rewrite getLaunchArgs_accepted.
  destruct (accepted assign o env script outcome) as [l|]; [|discriminate].
  unfold finishLaunch. destruct probe as [reason|port]; [discriminate|].
  destruct cancelled; [discriminate|].
  destruct (resolveToken now (token l)) as [err|t]; [discriminate|].
  intros [= <-]. exists l. repeat split; reflexivity.
Qed.

(** Every branch of the handler leaves [locals] to [p] when each
    assignment it makes does. *)
Lemma onDidChangeSelection_locals (P : Locals -> Prop) assign w c :
  P (locals w) ->
  (forall pw, P (locals w) -> P (set_password pw (locals w))) ->
  (forall t, (t = {| value := value (token (locals w)); isRandom := false;
                     isEmpty := true |}
              \/ (t = {| value := captureToken (answer c); isRandom := false;
                         isEmpty := false |}
                  /\ truthy (captureToken (answer c)) = true)
              \/ t = {| value := value (token (locals w)); isRandom := true;
                        isEmpty := false |}) ->
             P (locals w) -> P (set_token t (locals w))) ->
  (forall d, (d = answer c /\ truthy_opt d = true \/ d = customCwd (locals w)) ->
             P (locals w) -> P (set_custom true d (locals w))) ->
  (forall m, (m = answer c /\ truthy_opt m = true \/ m = Some (cwd (locals w))) ->
             P (locals w) -> P (set_mapping m (locals w))) ->
  P (locals (onDidChangeSelection assign w c)).
Proof.
  intros H Hpw Htok Hcus Hmap. unfold onDidChangeSelection.
  destruct (ignoreNext w); [exact H|].
  destruct (includes (e c) passwordEnabled && _).
  { destruct (truthy_opt (answer c)); [apply Hpw|]; exact H. }
  destruct (includes (e c) emptyToken && _).
  { apply Htok; [left; reflexivity|exact H]. }
  destruct (includes (e c) specificToken && _).
  { destruct (truthy (captureToken (answer c))) eqn:Hcap.
    - apply Htok; [right; left; split; reflexivity|exact H].
    - apply Htok; [right; right; reflexivity|exact H]. }
  destruct (includes (e c) cwdPrompt && _).
  { destruct (truthy_opt (answer c)) eqn:Ha.
    - apply Hcus; [left; split; [reflexivity|exact Ha]|exact H].
    - apply Hcus; [right; reflexivity|exact H]. }
  destruct (includes (e c) localPathMapping && _).
  { destruct (truthy_opt (answer c)) eqn:Ha.
    - apply Hmap; [left; split; [reflexivity|exact Ha]|exact H].
    - apply Hmap; [right; reflexivity|exact H]. }
  destruct (negb (includes (e c) cwdPrompt) && _).
  { apply Hcus; [right; reflexivity|exact H]. }
  destruct (negb (includes (e c) emptyToken) && _); exact H.
Qed.

(** A property of [locals] that holds when the quick pick opens and that
    every handler keeps holds when the wizard ends. *)
Lemma runWizard_locals (P : Locals -> Prop) assign w script :
  P (locals w) ->
  (forall w c, P (locals w) -> P (locals (onDidChangeSelection assign w c))) ->
  P (locals (runWizard assign w script)).
Proof.
  intros H Hstep. unfold runWizard. revert w H.
  induction script as [|c script IH]; intros w H; [exact H|].
  simpl. apply IH. apply Hstep. exact H.
Qed.

Lemma captureToken_trimmed (a : option string) :
  trim (captureToken a) = captureToken a.
Proof. unfold captureToken. apply trim_idem. Qed.

Lemma onDidChangeSelection_ready assign w c :
  readyToken (token (locals w)) ->
  readyToken (token (locals (onDidChangeSelection assign w c))).
Proof.
  intros H.
  apply (onDidChangeSelection_locals (fun l => readyToken (token l)));
    try (intros; assumption).
  intros t [->|[[-> Hcap]| ->]] _; unfold readyToken, tokenMode; simpl;
    try discriminate.
  intros _. split; [exact Hcap|apply captureToken_trimmed].
Qed.

(** The configuration a wizard is accepted with holds a token the build
    takes as it is. *)
Lemma accepted_ready assign o env script outcome l :
  accepted assign o env script outcome = Some l -> readyToken (token l).
Proof.
  unfold accepted.
  assert (Hinit : readyToken (token (initialLocals env))) by discriminate.
  destruct (customize o).
  - unfold readSelections. destruct outcome; [|discriminate].
    destruct (_ =? 0)%nat; [discriminate|].
    destruct (forallb _ _); [discriminate|].
    intros [= <-]. cbn [token].
    apply (runWizard_locals (fun l => readyToken (token l))); [exact Hinit|].
    intros w c. apply onDidChangeSelection_ready.
  - intros [= <-]. exact Hinit.
Qed.

Lemma resolveToken_ready now t :
  readyToken t ->
  exists t', resolveToken now t = inr t' /\ trim (value t') = value t'.
Proof.
  unfold readyToken, resolveToken, tokenMode. intros H.
  destruct (isRandom t).
  - eexists. split; [reflexivity|]. apply trim_pretty_N.
  - destruct (isEmpty t).
    + eexists. split; [reflexivity|reflexivity].
    + destruct (H eq_refl) as [Hv Ht]. rewrite Ht, Hv. simpl.
      exists t. split; [reflexivity|exact Ht].
Qed.

(** X1. [getLaunchArgs] throws only what the port probe was rejected
    with: the error "Token cannot be empty" of the [if] chain on the
    token is never thrown, because the wizard stores a token only when
    the trimmed input is not empty. *)
Theorem launch_args_throw_only_the_probe_rejection sha rnd assign o env script
    outcome probe cancelled now err :
  getLaunchArgs sha rnd assign o env script outcome probe cancelled now
    = Thrown err ->
  exists reason, probe = inl reason /\ err = Rejection reason.
Proof.
  rewrite getLaunchArgs_accepted.
  destruct (accepted assign o env script outcome) as [l|] eqn:Hacc; [|discriminate].
  unfold finishLaunch. destruct probe as [reason|port].
  - intros [= <-]. exists reason. split; reflexivity.
  - destruct cancelled; [discriminate|].
    destruct (resolveToken_ready now (token l) (accepted_ready _ _ _ _ _ _ Hacc))
      as (t' & -> & _).
    discriminate.
Qed.

Lemma launch_args_throw_only_the_probe_rejection_witness :
  exists reason,
    @inl string N "no open port" = inl reason /\ Rejection "no open port" = Rejection reason.
Proof.
  apply (launch_args_throw_only_the_probe_rejection sampleSha sampleBytes
           assignVerbatim wizardOptions tmpEnv tickSpecificUntickCors Accept
           (inl "no open port") false 5%N).
  reflexivity.
Defined.

Lemma orderedArgs_passes_token ty ob co tok pw1 pw2 dir port :
  passes (orderedArgs ty ob co tok pw1 pw2 dir port) "--NotebookApp.token" tok
  /\ passes (orderedArgs ty ob co tok pw1 pw2 dir port) "--ServerApp.token" tok.
Proof.
  unfold passes, orderedArgs.
  set (head := ["-m"; "jupyter"; kindWord ty]).
  set (browser := if ob then [] else ["--no-browser"]).
  set (origin := if co then _ else _).
  set (tail := _ ++ _ ++ ["--port"; pretty port]).
  split.
  - exists (head ++ browser ++ origin), (["--ServerApp.token"; tok] ++ tail).
    rewrite <- !app_assoc. reflexivity.
  - exists (head ++ browser ++ origin ++ ["--NotebookApp.token"; tok]), tail.
    rewrite <- !app_assoc. reflexivity.
Qed.

(** X2. The token [getLaunchArgs] reports is the one it puts on the
    command line: it has no white space around it, so the trimming the
    two token flags apply leaves it as it is, and both flags are
    directly followed by it. *)
Theorem reported_token_is_on_the_command_line sha rnd assign o env script
    outcome probe cancelled now info :
  getLaunchArgs sha rnd assign o env script outcome probe cancelled now
    = Returned info ->
  trim (Info.token info) = Info.token info
  /\ passes (Info.shellArgs info) "--NotebookApp.token" (Info.token info)
  /\ passes (Info.shellArgs info) "--ServerApp.token" (Info.token info).
Proof.
  rewrite getLaunchArgs_accepted.
  destruct (accepted assign o env script outcome) as [l|] eqn:Hacc; [|discriminate].
  unfold finishLaunch. destruct probe as [reason|port]; [discriminate|].
  destruct cancelled; [discriminate|].
  destruct (resolveToken_ready now (token l) (accepted_ready _ _ _ _ _ _ Hacc))
    as (t' & -> & Ht).
  intros [= <-]. cbn [Info.token Info.shellArgs].
  split; [exact Ht|].
  destruct (buildShellArgs_ordered sha rnd (type o) l (value t') port)
    as (pw1 & pw2 & -> & _).
  rewrite Ht. apply orderedArgs_passes_token.
Qed.

Lemma reported_token_is_on_the_command_line_witness :
  exists info,
    getLaunchArgs sampleSha sampleBytes assignVerbatim wizardOptions tmpEnv
      tickSpecificUntickCors Accept (inr 8888%N) false 5%N = Returned info
    /\ Info.token info = "abc"
    /\ trim (Info.token info) = Info.token info
    /\ passes (Info.shellArgs info) "--NotebookApp.token" (Info.token info)
    /\ passes (Info.shellArgs info) "--ServerApp.token" (Info.token info).
Proof.
  eexists. split; [vm_compute; reflexivity|]. split; [reflexivity|].
  apply (reported_token_is_on_the_command_line sampleSha sampleBytes
           assignVerbatim wizardOptions tmpEnv tickSpecificUntickCors Accept
           (inr 8888%N) false 5%N).
  vm_compute. reflexivity.
Defined.

Lemma assignListed_listed o l i : i ∈ assignListed o l -> i ∈ items o.
Proof.
  unfold assignListed. rewrite list_elem_of_In, List.filter_In.
  intros [_ H]. apply includes_true. exact H.
Qed.

(** Where the host keeps the listed items only and the events report
    listed items only, the quick pick holds listed items only. *)
Lemma onDidChangeSelection_listed o w c i :
  reportsListed o c ->
  i ∈ selectedItems (onDidChangeSelection (assignListed o) w c) -> i ∈ items o.
Proof.
  intros He. unfold onDidChangeSelection, displayQuickPick.
  repeat match goal with
         | |- context [if ?b then _ else _] => destruct b
         end;
    cbn [selectedItems]; intros Hi;
    first [exact (He i Hi) | exact (assignListed_listed _ _ _ Hi)].
Qed.

Lemma runWizard_listed o env script i :
  Forall (reportsListed o) script ->
  i ∈ selectedItems
        (runWizard (assignListed o) (openQuickPick (assignListed o) o env) script) ->
  i ∈ items o.
Proof.
  intros Hs. unfold runWizard.
  assert (H0 : i ∈ selectedItems (openQuickPick (assignListed o) o env) ->
               i ∈ items o) by apply assignListed_listed.
  revert H0. generalize (openQuickPick (assignListed o) o env).
  induction Hs as [|c script Hc Hs IH]; intros w H0; [exact H0|].
  simpl. apply IH. apply onDidChangeSelection_listed. exact Hc.
Qed.

Lemma orderedArgs_passes_origin ty ob tok pw1 pw2 dir port :
  passes (orderedArgs ty ob true tok pw1 pw2 dir port)
    "--NotebookApp.allow_origin" "*"
  /\ passes (orderedArgs ty ob true tok pw1 pw2 dir port)
       "--ServerApp.allow_origin" "*".
Proof.
  unfold passes, orderedArgs.
  set (head := ["-m"; "jupyter"; kindWord ty]).
  set (browser := if ob then [] else ["--no-browser"]).
  set (tail := ["--NotebookApp.token"; tok; "--ServerApp.token"; tok] ++ _).
  split.
  - exists (head ++ browser), (["--ServerApp.allow_origin"; "*"] ++ tail).
    rewrite <- !app_assoc. reflexivity.
  - exists (head ++ browser ++ ["--NotebookApp.allow_origin"; "*"]), tail.
    rewrite <- !app_assoc. reflexivity.
Qed.

(** X3. In a host that keeps only listed items in the selection (as
    VS Code does), and when the option to integrate with the Jupyter
    extension is not displayed, the wizard yields launch parameters
    only with the CORS item selected: the accepted selection must hold
    an item created with [picked: true], and of those only the CORS item
    is listed. So every command line such a wizard produces carries both
    [allow_origin] flags with [*]. *)
Theorem listed_host_launches_only_with_cors sha rnd o env script outcome probe
    cancelled now info :
  customize o = true ->
  displayOptionToIntegrateWithJupyter o = false ->
  Forall (reportsListed o) script ->
  getLaunchArgs sha rnd (assignListed o) o env script outcome probe cancelled now
    = Returned info ->
  includes
    (selectedItems
       (runWizard (assignListed o) (openQuickPick (assignListed o) o env) script))
    corsEnabled = true
  /\ passes (Info.shellArgs info) "--NotebookApp.allow_origin" "*"
  /\ passes (Info.shellArgs info) "--ServerApp.allow_origin" "*".
Proof.
  intros Hcust Hdisp Hscript Hret.
  destruct (shellArgs_fixed_order_aux sha rnd (assignListed o) o env script outcome
              probe cancelled now info Hret)
    as (l & pw1 & pw2 & Hacc & Hargs).
  unfold accepted in Hacc. rewrite Hcust in Hacc.
  set (w := runWizard (assignListed o) (openQuickPick (assignListed o) o env) script)
    in *.
  assert (Hcors : includes (selectedItems w) corsEnabled = true).
  { unfold readSelections in Hacc. destruct outcome; [|discriminate].
    destruct (_ =? 0)%nat; [discriminate|].
    destruct (forallb _ _) eqn:Hall; [discriminate|].
    apply not_true_iff_false in Hall. rewrite forallb_forall in Hall.
    apply includes_true.
    destruct (decide (corsEnabled ∈ selectedItems w)) as [Hin|Hnot]; [exact Hin|].
    exfalso. apply Hall. intros i Hi. apply list_elem_of_In in Hi.
    pose proof (runWizard_listed o env script i Hscript Hi) as Hlisted.
    unfold items in Hlisted. rewrite Hdisp, app_nil_r in Hlisted.
    unfold picked. rewrite Hdisp.
    repeat (apply elem_of_cons in Hlisted as [->|Hlisted]; [try reflexivity|]).
    - contradiction.
    - apply elem_of_nil in Hlisted. contradiction. }
  split; [exact Hcors|].
  destruct (readSelections_flags _ _ _ _ Hacc) as [_ Hc].
  fold w in Hc. rewrite Hcors in Hc. rewrite Hargs, Hc.
  apply orderedArgs_passes_origin.
Qed.

Lemma listed_host_launches_only_with_cors_witness :
  exists info,
    getLaunchArgs sampleSha sampleBytes (assignListed wizardOptions) wizardOptions
      tmpEnv tickOpenInBrowser Accept (inr 8889%N) false 1700000000000%N
    = Returned info
    /\ includes
         (selectedItems
            (runWizard (assignListed wizardOptions)
               (openQuickPick (assignListed wizardOptions) wizardOptions tmpEnv)
               tickOpenInBrowser))
         corsEnabled = true
    /\ passes (Info.shellArgs info) "--NotebookApp.allow_origin" "*"
    /\ passes (Info.shellArgs info) "--ServerApp.allow_origin" "*".
Proof.
  eexists. split; [vm_compute; reflexivity|].
  apply (listed_host_launches_only_with_cors sampleSha sampleBytes wizardOptions
           tmpEnv tickOpenInBrowser Accept (inr 8889%N) false 1700000000000%N).
  - reflexivity.
  - reflexivity.
  - apply List.Forall_cons; [|apply List.Forall_nil].
    intros i Hi. cbn in Hi. apply includes_true.
    repeat (apply elem_of_cons in Hi as [->|Hi]; [reflexivity|]).
    apply elem_of_nil in Hi. contradiction.
  - vm_compute. reflexivity.
Defined.

Lemma hexDigit_isHex (n : N) : (n < 16)%N -> isHexDigit (hexDigit n) = true.
Proof.
  intros H. destruct n as [|p]; [reflexivity|].
  do 4 (destruct p as [p|p|]; try reflexivity; try lia).
Qed.

Lemma toHex_length (bytes : list N) :
  String.length (toHex bytes) = 2 * length bytes.
Proof. induction bytes as [|b bs IH]; simpl; [reflexivity|]. rewrite IH. lia. Qed.

Lemma toHex_hex (bytes : list N) : everyChar isHexDigit (toHex bytes) = true.
Proof.
  induction bytes as [|b bs IH]; [reflexivity|].
  cbn [toHex everyChar].
  rewrite !hexDigit_isHex by (apply N.mod_lt; discriminate). exact IH.
Qed.

Lemma slice0_length (n : nat) (s : string) :
  String.length (slice0 n s) = Nat.min n (String.length s).
Proof.
  revert s. induction n as [|n IH]; intros [|a s]; simpl; try reflexivity.
  rewrite IH. reflexivity.
Qed.

Lemma slice0_every (p : ascii -> bool) (n : nat) (s : string) :
  everyChar p s = true -> everyChar p (slice0 n s) = true.
Proof.
  revert s. induction n as [|n IH]; intros [|a s]; simpl; try reflexivity.
  rewrite !andb_true_iff. intros [Ha Hs]. split; [exact Ha|exact (IH s Hs)].
Qed.

Lemma div2_covers (n : nat) : n <= 2 * Nat.div2 (n + 1).
Proof.
  induction n as [n IH] using lt_wf_ind.
  destruct n as [|[|n]]; simpl; try lia.
  specialize (IH n ltac:(lia)). simpl in IH. lia.
Qed.

(** X4. When [crypto.randomBytes] returns as many bytes as it is asked
    for, [genRandomString(length)] is made of exactly [length]
    lower-case hexadecimal digits, for an odd [length] too; so the salt
    of [generateHashedPassword] has 16 of them, and the hashed password
    is [sha1:], the salt, a colon, and the digest of the password
    followed by the salt. *)
Theorem random_string_has_the_asked_length sha rnd k :
  (forall size, length (rnd k size) = size) ->
  (forall n,
     String.length (genRandomString rnd k n) = n
     /\ everyChar isHexDigit (genRandomString rnd k n) = true)
  /\ forall password,
       exists salt,
         String.length salt = 16
         /\ everyChar isHexDigit salt = true
         /\ generateHashedPassword sha rnd k password
            = "sha1:" +:+ salt +:+ ":" +:+ sha (password +:+ salt).
Proof.
  intros Hrnd.
  assert (Hgen : forall n,
            String.length (genRandomString rnd k n) = n
            /\ everyChar isHexDigit (genRandomString rnd k n) = true).
  { intros n. unfold genRandomString. split.
    - rewrite slice0_length, toHex_length, Hrnd.
      pose proof (div2_covers n). lia.
    - apply slice0_every, toHex_hex. }
  split; [exact Hgen|].
  intros password. exists (genRandomString rnd k 16).
  destruct (Hgen 16) as [Hlen Hhex].
  split; [exact Hlen|]. split; [exact Hhex|]. reflexivity.
Qed.

Lemma random_string_has_the_asked_length_witness :
  (forall n,
     String.length (genRandomString sampleBytes 0 n) = n
     /\ everyChar isHexDigit (genRandomString sampleBytes 0 n) = true)
  /\ forall password,
       exists salt,
         String.length salt = 16
         /\ everyChar isHexDigit salt = true
         /\ generateHashedPassword sampleSha sampleBytes 0 password
            = "sha1:" +:+ salt +:+ ":" +:+ sampleSha (password +:+ salt).
Proof.
  apply (random_string_has_the_asked_length sampleSha sampleBytes 0).
  intros size. apply repeat_length.
Defined.

Lemma tokenItem_inj m m' : tokenItem m = tokenItem m' -> m = m'.
Proof. destruct m, m'; simpl; intros H; try reflexivity; discriminate H. Qed.

(** X5. A tick in the token group that the handler acts on leaves,
    among the selections the handler keeps, exactly one of the three
    token items, and it is the item of the mode the token object then
    stands for: [Empty Token] after a tick on it, [Specific Token] after
    an answered token prompt (the token being the trimmed answer),
    [Random Token] after a prompt that was dismissed or answered with
    white space only. The handler then waits for the echo of the
    selection it assigned. *)
Theorem token_tick_keeps_one_token_item assign w c :
  tokenTick w c = true ->
  let w' := onDidChangeSelection assign w c in
  onlyTokenItem (tokenMode (token (locals w'))) (previousSelections w')
  /\ ignoreNext w' = true
  /\ (tokenMode (token (locals w')) = Specific ->
      value (token (locals w')) = captureToken (answer c)).
Proof.
  unfold tokenTick. rewrite !andb_true_iff, !negb_true_iff.
  intros [[Hig Hpw] Htick].
  unfold onDidChangeSelection. rewrite Hig, Hpw.
  assert (Hone : forall m a b prev,
            (forall m', m' <> m -> tokenItem m' = a \/ tokenItem m' = b) ->
            onlyTokenItem m (dedupe (without2 a b prev ++ [tokenItem m]))).
  { intros m a b prev Hothers m'.
    rewrite includes_true, dedupe_elem, elem_of_app, without2_elem,
      list_elem_of_singleton.
    split.
    - intros [(_ & Ha & Hb)|Heq]; [|exact (tokenItem_inj _ _ Heq)].
      assert (Hdec : m' = m \/ m' <> m)
        by (destruct m', m; (left; reflexivity) || (right; discriminate)).
      destruct Hdec as [->|Hne]; [reflexivity|].
      destruct (Hothers m' Hne); contradiction.
    - intros ->. right. reflexivity. }
  destruct (includes (e c) emptyToken
            && negb (includes (previousSelections w) emptyToken)) eqn:Hem.
  - cbn. split; [|split; [reflexivity|discriminate]].
    apply (Hone Empty). intros [] Hne; auto. contradiction.
  - simpl in Htick. rewrite Htick.
    destruct (truthy (captureToken (answer c))) eqn:Hcap; cbn.
    + split; [|split; [reflexivity|reflexivity]].
      apply (Hone Specific). intros [] Hne; auto. contradiction.
    + split; [|split; [reflexivity|discriminate]].
      apply (Hone Random). intros [] Hne; auto. contradiction.
Qed.

Lemma token_tick_keeps_one_token_item_witness :
  onlyTokenItem Specific
    (previousSelections
       (onDidChangeSelection assignVerbatim (emptyTicked assignVerbatim)
          tickSpecificAnswered))
  /\ ignoreNext
       (onDidChangeSelection assignVerbatim (emptyTicked assignVerbatim)
          tickSpecificAnswered) = true
  /\ (Specific = Specific ->
      value
        (token
           (locals
              (onDidChangeSelection assignVerbatim (emptyTicked assignVerbatim)
                 tickSpecificAnswered))) = "abc").
Proof.
  apply (token_tick_keeps_one_token_item assignVerbatim
           (emptyTicked assignVerbatim) tickSpecificAnswered).
  reflexivity.
Defined.

Lemma orderedArgs_passes_dir ty ob co tok pw1 pw2 d port :
  passes (orderedArgs ty ob co tok pw1 pw2 (Some d) port) "--notebook-dir" d.
Proof.
  unfold passes, orderedArgs.
  set (head := ["-m"; "jupyter"; kindWord ty]).
  set (browser := if ob then [] else ["--no-browser"]).
  set (origin := if co then _ else _).
  set (tokens := ["--NotebookApp.token"; tok; "--ServerApp.token"; tok]).
  set (passwords := ["--NotebookApp.password"; pw1; "--ServerApp.password"; pw2]).
  exists (head ++ browser ++ origin ++ tokens ++ passwords), ["--port"; pretty port].
  rewrite <- !app_assoc. reflexivity.
Qed.

(** Once a folder is picked, [useCustomWorkingDirectory] is set: no
    handler clears it. *)
Lemma onDidChangeSelection_custom assign w c :
  (truthy_opt (customCwd (locals w)) = true ->
   useCustomWorkingDirectory (locals w) = true) ->
  truthy_opt (customCwd (locals (onDidChangeSelection assign w c))) = true ->
  useCustomWorkingDirectory (locals (onDidChangeSelection assign w c)) = true.
Proof.
  intros H.
  apply (onDidChangeSelection_locals
           (fun l => truthy_opt (customCwd l) = true ->
                     useCustomWorkingDirectory l = true)).
  - exact H.
  - intros pw HP. exact HP.
  - intros t _ HP. exact HP.
  - intros d _ _ _. reflexivity.
  - intros m _ HP. exact HP.
Qed.

(** X6. A folder picked for [Custom Working Directory] stays in force:
    no later event of the wizard clears it (unticking the item leaves
    both the folder and [useCustomWorkingDirectory] set), and every
    launch of a wizard that holds a picked folder passes it as
    [--notebook-dir], whether or not the item is still selected. *)
Theorem picked_folder_stays_in_force assign :
  (forall w c,
     truthy_opt (customCwd (locals w)) = true ->
     truthy_opt (customCwd (locals (onDidChangeSelection assign w c))) = true)
  /\ (forall sha rnd o env script outcome probe cancelled now info d,
        customize o = true ->
        customCwd (locals (runWizard assign (openQuickPick assign o env) script))
          = Some d ->
        truthy d = true ->
        getLaunchArgs sha rnd assign o env script outcome probe cancelled now
          = Returned info ->
        passes (Info.shellArgs info) "--notebook-dir" d).
Proof.
  split.
  - intros w c H.
    apply (onDidChangeSelection_locals
             (fun l => truthy_opt (customCwd l) = true));
      try (intros; assumption).
    intros d [[-> Hd]| ->] _; [exact Hd|exact H].
  - intros sha rnd o env script outcome probe cancelled now info d Hcust Hd Ht Hret.
    destruct (shellArgs_fixed_order_aux sha rnd assign o env script outcome
                probe cancelled now info Hret)
      as (l & pw1 & pw2 & Hacc & Hargs).
    unfold accepted in Hacc. rewrite Hcust in Hacc.
    set (w := runWizard assign (openQuickPick assign o env) script) in *.
    assert (Huse : useCustomWorkingDirectory (locals w) = true).
    { apply (runWizard_locals
               (fun l => truthy_opt (customCwd l) = true ->
                         useCustomWorkingDirectory l = true) assign
               (openQuickPick assign o env) script).
      - discriminate.
      - intros w0 c0. apply onDidChangeSelection_custom.
      - fold w. rewrite Hd. exact Ht. }
    assert (Hwd : workingDirectory l = Some d).
    { unfold readSelections in Hacc. destruct outcome; [|discriminate].
      destruct (_ =? 0)%nat; [discriminate|].
      destruct (forallb _ _); [discriminate|].
      injection Hacc as <-. unfold workingDirectory.
      cbn [customCwd useCustomWorkingDirectory]. rewrite Hd, Huse. simpl.
      rewrite Ht. reflexivity. }
    rewrite Hargs, Hwd. apply orderedArgs_passes_dir.
Qed.

Lemma picked_folder_stays_in_force_witness :
  exists info,
    includes
      (selectedItems
         (runWizard assignVerbatim
            (openQuickPick assignVerbatim wizardOptions tmpEnv)
            pickFolderThenUntick)) cwdPrompt = false
    /\ getLaunchArgs sampleSha sampleBytes assignVerbatim wizardOptions tmpEnv
         pickFolderThenUntick Accept (inr 8888%N) false 5%N = Returned info
    /\ passes (Info.shellArgs info) "--notebook-dir" "/data".
Proof.
  eexists. split; [reflexivity|]. split; [vm_compute; reflexivity|].
  apply (proj2 (picked_folder_stays_in_force assignVerbatim) sampleSha sampleBytes
           wizardOptions tmpEnv pickFolderThenUntick Accept (inr 8888%N) false 5%N);
    reflexivity.
Defined.

(** No handler of the wizard assigns [cwd]. *)
Lemma accepted_cwd assign o env script outcome l :
  accepted assign o env script outcome = Some l -> cwd l = defaultDirectory env.
Proof.
  unfold accepted. destruct (customize o).
  - unfold readSelections. destruct outcome; [|discriminate].
    destruct (_ =? 0)%nat; [discriminate|].
    destruct (forallb _ _); [discriminate|].
    intros [= <-]. cbn [cwd].
    apply (runWizard_locals (fun l => cwd l = defaultDirectory env));
      [reflexivity|].
    intros w c H.
    apply (onDidChangeSelection_locals (fun l => cwd l = defaultDirectory env));
      intros; assumption.
  - intros [= <-]. reflexivity.
Qed.

(** X7. Without [customize] the wizard is not run: whatever the events
    and the outcome given, once the port is probed and no cancellation
    is requested the launch parameters are the defaults. The server is
    not opened in a browser, CORS is open, the token is the clock
    reading in decimal, there is no password, the notebook directory is
    the default directory (the flag is left out when its name is
    empty), and the server is to be registered with the default
    directory as the mapped directory. *)
Theorem launch_without_customize_is_the_default sha rnd assign o env script
    outcome port now :
  customize o = false ->
  getLaunchArgs sha rnd assign o env script outcome (inr port) false now
  = Returned
      {| Info.shellArgs := defaultArgs (type o) (defaultDirectory env) now port;
         Info.token := pretty now;
         Info.port := port;
         Info.password := "";
         Info.registerWithJupyterExtension := true;
         Info.cwd := defaultDirectory env;
         Info.jupyterExtensionWorkingDirectory := Some (defaultDirectory env) |}.
Proof.
  intros Hcust. unfold getLaunchArgs. rewrite Hcust.
  assert (Hargs : buildShellArgs sha rnd (type o) (initialLocals env) (pretty now)
                    port
                  = defaultArgs (type o) (defaultDirectory env) now port).
  { unfold buildShellArgs. rewrite trim_pretty_N.
    destruct (type o); reflexivity. }
  unfold finishLaunch.
  change (resolveToken now (token (initialLocals env)))
    with (@inr JS.thrown Token
            {| value := pretty now; isRandom := true; isEmpty := false |}).
  cbv beta iota. cbn [value]. rewrite Hargs. reflexivity.
Qed.

Lemma launch_without_customize_is_the_default_witness :
  getLaunchArgs sampleSha sampleBytes assignVerbatim defaultOptions tmpEnv
    tickEmpty Back (inr 8888%N) false 1700000000000%N
  = Returned
      {| Info.shellArgs :=
           defaultArgs (type defaultOptions) (defaultDirectory tmpEnv)
             1700000000000%N 8888%N;
         Info.token := pretty 1700000000000%N;
         Info.port := 8888%N;
         Info.password := "";
         Info.registerWithJupyterExtension := true;
         Info.cwd := defaultDirectory tmpEnv;
         Info.jupyterExtensionWorkingDirectory := Some (defaultDirectory tmpEnv) |}.
Proof.
  apply (launch_without_customize_is_the_default sampleSha sampleBytes
           assignVerbatim defaultOptions tmpEnv tickEmpty Back 8888%N
           1700000000000%N).
  reflexivity.
Defined.

(** The pushes onto [shellArgs], with the two password values spelled
    out. *)
Lemma buildShellArgs_passwords sha rnd ty l tokenValue port :
  buildShellArgs sha rnd ty l tokenValue port
  = orderedArgs ty (shouldOpenBrowser l) (cors l) (trim tokenValue)
      (if (0 <? String.length (trim (password l)))%nat
       then generateHashedPassword sha rnd 0 (password l) else "")
      (if (0 <? String.length (trim (password l)))%nat
       then generateHashedPassword sha rnd 1 (password l) else "")
      (workingDirectory l) port.
Proof.
  unfold buildShellArgs, orderedArgs, workingDirectory, kindWord.
  destruct (0 <? String.length (trim (password l)))%nat, ty,
    (shouldOpenBrowser l), (cors l), (customCwd l) as [[|a c]|],
    (useCustomWorkingDirectory l), (cwd l); reflexivity.
Qed.

Lemma orderedArgs_passes_password ty ob co tok pw1 pw2 dir port :
  passes (orderedArgs ty ob co tok pw1 pw2 dir port) "--NotebookApp.password" pw1
  /\ passes (orderedArgs ty ob co tok pw1 pw2 dir port) "--ServerApp.password" pw2.
Proof.
  unfold passes, orderedArgs.
  set (head := ["-m"; "jupyter"; kindWord ty]).
  set (browser := if ob then [] else ["--no-browser"]).
  set (origin := if co then _ else _).
  set (tokens := ["--NotebookApp.token"; tok; "--ServerApp.token"; tok]).
  set (tail := _ ++ ["--port"; pretty port]).
  split.
  - exists (head ++ browser ++ origin ++ tokens),
      (["--ServerApp.password"; pw2] ++ tail).
    rewrite <- !app_assoc. reflexivity.
  - exists (head ++ browser ++ origin ++ tokens ++ ["--NotebookApp.password"; pw1]),
      tail.
    rewrite <- !app_assoc. reflexivity.
Qed.

(** X8. The password of a customised launch is the one entered in the
    wizard only while the [Password] item is in the accepted selection:
    without the item the launch parameters hold the empty password and
    both password flags are followed by the empty string, whatever was
    entered. With the item, the parameters hold the password as entered,
    and the two flags are followed by two hashes of it, each made with a
    salt of its own (the first and the second draw of random bytes), or
    by the empty string when the password is blank. *)
Theorem password_needs_its_item sha rnd assign o env script outcome probe
    cancelled now info :
  customize o = true ->
  getLaunchArgs sha rnd assign o env script outcome probe cancelled now
    = Returned info ->
  let w := runWizard assign (openQuickPick assign o env) script in
  let entered := password (locals w) in
  (includes (selectedItems w) passwordEnabled = false ->
   Info.password info = ""
   /\ passes (Info.shellArgs info) "--NotebookApp.password" ""
   /\ passes (Info.shellArgs info) "--ServerApp.password" "")
  /\ (includes (selectedItems w) passwordEnabled = true ->
      Info.password info = entered
      /\ (trim entered <> "" ->
          passes (Info.shellArgs info) "--NotebookApp.password"
            (generateHashedPassword sha rnd 0 entered)
          /\ passes (Info.shellArgs info) "--ServerApp.password"
               (generateHashedPassword sha rnd 1 entered))
      /\ (trim entered = "" ->
          passes (Info.shellArgs info) "--NotebookApp.password" ""
          /\ passes (Info.shellArgs info) "--ServerApp.password" "")).
Proof.
  intros Hcust Hret. cbv zeta.
  set (w := runWizard assign (openQuickPick assign o env) script).
  rewrite getLaunchArgs_accepted in Hret. unfold accepted in Hret.
  rewrite Hcust in Hret. fold w in Hret.
  unfold readSelections in Hret. destruct outcome; [|discriminate].
  destruct (_ =? 0)%nat; [discriminate|].
  destruct (forallb _ _); [discriminate|].
  rewrite (someLabel_includes passwordEnabled) in Hret.
  unfold finishLaunch in Hret. destruct probe as [reason|port]; [discriminate|].
  destruct cancelled; [discriminate|].
  destruct (resolveToken now _) as [err|t]; [discriminate|].
  injection Hret as <-. cbn [Info.password Info.shellArgs].
  rewrite buildShellArgs_passwords. cbn [password].
  split.
  - intros ->. split; [reflexivity|]. apply orderedArgs_passes_password.
  - intros ->. split; [reflexivity|]. split.
    + intros Hne.
      assert (Hlen : (0 <? String.length (trim (password (locals w))))%nat = true).
      { destruct (trim (password (locals w))); [congruence|reflexivity]. }
      rewrite Hlen. apply orderedArgs_passes_password.
    + intros ->. apply orderedArgs_passes_password.
Qed.

Lemma password_needs_its_item_witness :
  exists info,
    getLaunchArgs sampleSha sampleBytes assignVerbatim wizardOptions tmpEnv
      tickPassword Accept (inr 8888%N) false 5%N = Returned info
    /\ Info.password info = "secret"
    /\ passes (Info.shellArgs info) "--NotebookApp.password"
         "sha1:abababababababab:da39a3ee"
    /\ passes (Info.shellArgs info) "--ServerApp.password"
         "sha1:acacacacacacacac:da39a3ee".
Proof.
  eexists. split; [vm_compute; reflexivity|].
  pose proof (proj2 (password_needs_its_item sampleSha sampleBytes assignVerbatim
                       wizardOptions tmpEnv tickPassword Accept (inr 8888%N)
                       false 5%N _ eq_refl ltac:(vm_compute; reflexivity))
                eq_refl) as (Hpw & Hhashed & _).
  split; [exact Hpw|]. apply Hhashed. vm_compute. discriminate.
Defined.

(** No handler leaves [jupyterExtensionWorkingDirectory] undefined. *)
Lemma runWizard_mapping assign o env script :
  is_Some
    (jupyterExtensionWorkingDirectory
       (locals (runWizard assign (openQuickPick assign o env) script))).
Proof.
  apply (runWizard_locals (fun l => is_Some (jupyterExtensionWorkingDirectory l))).
  - cbn. eauto.
  - intros w c H.
    apply (onDidChangeSelection_locals
             (fun l => is_Some (jupyterExtensionWorkingDirectory l)));
      try (intros; assumption).
    intros m [[-> Hm]| ->] _; cbn; [|eauto].
    destruct (answer c); [eauto|discriminate].
Qed.

(** X9. The directory mapped to the remote notebook directory. A
    launch that is not customised maps the default directory. A
    customised launch maps a directory only when
    [Map local dir to remote notebook dir] is in the accepted selection,
    and then it maps the directory the wizard holds, if its name is not
    empty: the folder last picked at the prompt of the item, or the
    default directory. So a wizard accepted as it opens maps nothing,
    unlike the launch without a wizard. *)
Theorem mapped_directory_needs_its_item sha rnd assign o env script outcome probe
    cancelled now info :
  getLaunchArgs sha rnd assign o env script outcome probe cancelled now
    = Returned info ->
  let w := runWizard assign (openQuickPick assign o env) script in
  (customize o = false ->
   Info.jupyterExtensionWorkingDirectory info = Some (defaultDirectory env))
  /\ (customize o = true ->
      (includes (selectedItems w) localPathMapping = false ->
       Info.jupyterExtensionWorkingDirectory info = None)
      /\ (includes (selectedItems w) localPathMapping = true ->
          exists d,
            jupyterExtensionWorkingDirectory (locals w) = Some d
            /\ Info.jupyterExtensionWorkingDirectory info
               = if truthy d then Some d else None)).
Proof.
  intros Hret. cbv zeta.
  destruct (getLaunchArgs_returned _ _ _ _ _ _ _ _ _ _ _ Hret)
    as (l & Hacc & _ & _ & _ & _ & Hmap).
  rewrite Hmap. unfold accepted in Hacc. split.
  - intros Hcust. rewrite Hcust in Hacc. injection Hacc as <-. reflexivity.
  - intros Hcust. rewrite Hcust in Hacc.
    unfold readSelections in Hacc. destruct outcome; [|discriminate].
    destruct (_ =? 0)%nat; [discriminate|].
    destruct (forallb _ _); [discriminate|].
    rewrite (someLabel_includes localPathMapping) in Hacc.
    injection Hacc as <-. cbn [jupyterExtensionWorkingDirectory].
    split.
    + intros ->. reflexivity.
    + intros ->. destruct (runWizard_mapping assign o env script) as [d Hd].
      exists d. split; [exact Hd|]. rewrite Hd. cbn.
      destruct (truthy d); reflexivity.
Qed.

Lemma mapped_directory_needs_its_item_witness :
  exists info,
    getLaunchArgs sampleSha sampleBytes assignVerbatim wizardOptions tmpEnv
      [] Accept (inr 8888%N) false 5%N = Returned info
    /\ Info.jupyterExtensionWorkingDirectory info = None.
Proof.
  eexists. split; [vm_compute; reflexivity|].
  apply (proj2 (mapped_directory_needs_its_item sampleSha sampleBytes
                  assignVerbatim wizardOptions tmpEnv [] Accept (inr 8888%N)
                  false 5%N _ ltac:(vm_compute; reflexivity)) eq_refl).
  reflexivity.
Defined.

(** X10. In a host that keeps only listed items in the selection, the
    quick pick never holds [Random Token]: the item is not among the
    items listed, so it is not selected when the quick pick opens,
    although the token object then stands for [Random], and no event
    selects it, the branch that puts it back into the selection
    included. *)
Theorem random_token_is_never_selected_when_listed o env script :
  Forall (reportsListed o) script ->
  tokenMode (token (locals (openQuickPick (assignListed o) o env))) = Random
  /\ includes (selectedItems (openQuickPick (assignListed o) o env)) randomToken
     = false
  /\ includes
       (selectedItems
          (runWizard (assignListed o) (openQuickPick (assignListed o) o env) script))
       randomToken = false.
Proof.
  intros Hs.
  assert (Hnot : randomToken ∉ items o).
  { unfold items. rewrite elem_of_app.
    intros [H|H].
    - repeat (apply elem_of_cons in H as [H|H]; [discriminate|]).
      apply elem_of_nil in H. exact H.
    - destruct (displayOptionToIntegrateWithJupyter o).
      + apply list_elem_of_singleton in H. discriminate.
      + apply elem_of_nil in H. exact H. }
  split; [reflexivity|]. split.
  - apply includes_false. intros H. apply Hnot.
    exact (runWizard_listed o env [] randomToken (List.Forall_nil _) H).
  - apply includes_false. intros H. apply Hnot.
    exact (runWizard_listed o env script randomToken Hs H).
Qed.

Lemma random_token_is_never_selected_when_listed_witness :
  tokenMode
    (token (locals (openQuickPick (assignListed wizardOptions) wizardOptions tmpEnv)))
  = Random
  /\ includes
       (selectedItems
          (openQuickPick (assignListed wizardOptions) wizardOptions tmpEnv))
       randomToken = false
  /\ includes
       (selectedItems
          (runWizard (assignListed wizardOptions)
             (openQuickPick (assignListed wizardOptions) wizardOptions tmpEnv)
             tickOpenInBrowser))
       randomToken = false.
Proof.
  apply (random_token_is_never_selected_when_listed wizardOptions tmpEnv
           tickOpenInBrowser).
  apply List.Forall_cons; [|apply List.Forall_nil].
  intros i Hi. cbn in Hi. apply includes_true.
  repeat (apply elem_of_cons in Hi as [->|Hi]; [reflexivity|]).
  apply elem_of_nil in Hi. contradiction.
Defined.

(** The token of an accepted configuration is the one the wizard ends
    with. *)
Lemma readSelections_token o outcome w l :
  readSelections o outcome w = Some l -> token l = token (locals w).
Proof.
  unfold readSelections. destruct outcome; [|discriminate].
  destruct (_ =? 0)%nat; [discriminate|].
  destruct (forallb _ _); [discriminate|].
  intros [= <-]. reflexivity.
Qed.

(** A token prompt that captures nothing sets the token to random. *)
Lemma blank_capture_token assign w c :
  opensTokenPrompt w c = true -> captureToken (answer c) = "" ->
  isRandom (token (locals (onDidChangeSelection assign w c))) = true.
Proof.
  unfold opensTokenPrompt. rewrite !andb_true_iff, !negb_true_iff.
  intros ((((Hig & Hpw) & Hem) & Hin) & Hprev) Hcap.
  unfold onDidChangeSelection. rewrite Hig, Hpw, Hem, Hin, Hprev, Hcap.
  reflexivity.
Qed.

(** C4, as amended. Building the launch parameters never fails with the
    error "Token cannot be empty" (InvalidToken), whatever the token
    mode. A configuration the wizard is accepted with in the mode
    [Specific] has a value that is not blank after trimming, and the
    build gives it as the token. When [Specific Token] is ticked and the
    value captured is empty or blank after trimming, the token mode
    becomes [Random]: a wizard accepted then is built with a generated
    token. With the mode [Random] or [Empty] the error does not
    occur. *)
Theorem blank_token_falls_back_to_random sha rnd assign o env script outcome
    probe cancelled now :
  let built :=
    getLaunchArgs sha rnd assign o env script outcome probe cancelled now in
  built <> Thrown (NewError "Token cannot be empty")
  /\ (forall l,
        accepted assign o env script outcome = Some l ->
        tokenMode (token l) = Specific ->
        trim (value (token l)) <> ""
        /\ forall port, probe = inr port -> cancelled = false ->
             exists info,
               built = Returned info /\ Info.token info = value (token l))
  /\ (forall pre c l,
        customize o = true -> script = pre ++ [c] ->
        opensTokenPrompt (runWizard assign (openQuickPick assign o env) pre) c
          = true ->
        captureToken (answer c) = "" ->
        accepted assign o env script outcome = Some l ->
        tokenMode (token l) = Random
        /\ forall port, probe = inr port -> cancelled = false ->
             exists info,
               built = Returned info /\ Info.token info = pretty now
               /\ Info.port info = port)
  /\ (forall l,
        tokenMode (token l) <> Specific ->
        finishLaunch sha rnd (type o) probe cancelled now l
        <> Thrown (NewError "Token cannot be empty")).
Proof.
  cbv zeta. rewrite getLaunchArgs_accepted.
  split; [|split; [|split]].
  - destruct (accepted assign o env script outcome) as [l|] eqn:Hacc;
      [|discriminate].
    unfold finishLaunch. destruct probe as [reason|port]; [discriminate|].
    destruct cancelled; [discriminate|].
    destruct (resolveToken_ready now (token l) (accepted_ready _ _ _ _ _ _ Hacc))
      as (t' & -> & _).
    discriminate.
  - intros l Hacc Hmode.
    destruct (accepted_ready _ _ _ _ _ _ Hacc Hmode) as [Hv Ht].
    split.
    + rewrite Ht. intros E. rewrite E in Hv. discriminate Hv.
    + intros port -> ->. rewrite Hacc. unfold finishLaunch, resolveToken.
      unfold tokenMode in Hmode.
      destruct (isRandom (token l)); [discriminate|].
      destruct (isEmpty (token l)); [discriminate|].
      rewrite Ht, Hv. cbn [negb]. eexists. split; reflexivity.
  - intros pre c l Hcust -> Hopens Hcap Hacc.
    assert (Hrandom : isRandom (token l) = true).
    { unfold accepted in Hacc. rewrite Hcust in Hacc.
      rewrite (readSelections_token _ _ _ _ Hacc).
      unfold runWizard. rewrite fold_left_app. cbn [fold_left].
      apply blank_capture_token; assumption. }
    split; [unfold tokenMode; rewrite Hrandom; reflexivity|].
    intros port -> ->. rewrite Hacc. unfold finishLaunch, resolveToken.
    rewrite Hrandom. eexists. repeat split.
  - intros l Hmode. unfold finishLaunch, resolveToken.
    unfold tokenMode in Hmode.
    destruct probe as [reason|port]; [discriminate|].
    destruct cancelled; [discriminate|].
    destruct (isRandom (token l)); [discriminate|].
    destruct (isEmpty (token l)); [discriminate|].
    congruence.
Qed.

Lemma blank_token_falls_back_to_random_witness :
  (exists info,
     getLaunchArgs sampleSha sampleBytes assignVerbatim wizardOptions tmpEnv
       [tickSpecificBlank] Accept (inr 8888%N) false 5%N = Returned info
     /\ Info.token info = pretty 5%N /\ Info.port info = 8888%N)
  /\ (exists info,
        getLaunchArgs sampleSha sampleBytes assignVerbatim wizardOptions tmpEnv
          [tickSpecificAnswered] Accept (inr 8888%N) false 5%N = Returned info
        /\ Info.token info = "abc").
Proof.
  split.
  - destruct (accepted assignVerbatim wizardOptions tmpEnv [tickSpecificBlank]
                Accept) as [l|] eqn:Hacc; [|vm_compute in Hacc; discriminate Hacc].
    apply (proj2 (proj1 (proj2 (proj2 (blank_token_falls_back_to_random
                                         sampleSha sampleBytes assignVerbatim
                                         wizardOptions tmpEnv [tickSpecificBlank]
                                         Accept (inr 8888%N) false 5%N)))
                    [] tickSpecificBlank l eq_refl eq_refl eq_refl eq_refl Hacc)
             8888%N eq_refl eq_refl).
  - destruct (accepted assignVerbatim wizardOptions tmpEnv [tickSpecificAnswered]
                Accept) as [l|] eqn:Hacc; [|vm_compute in Hacc; discriminate Hacc].
    assert (Hl : token l = {| value := "abc"; isRandom := false; isEmpty := false |}).
    { vm_compute in Hacc. injection Hacc as <-. reflexivity. }
    destruct (proj1 (proj2 (blank_token_falls_back_to_random sampleSha
                              sampleBytes assignVerbatim wizardOptions tmpEnv
                              [tickSpecificAnswered] Accept (inr 8888%N) false
                              5%N))
                l Hacc ltac:(rewrite Hl; reflexivity)) as [_ Hbuild].
    destruct (Hbuild 8888%N eq_refl eq_refl) as (info & Hinfo & Htok).
    exists info. split; [exact Hinfo|]. rewrite Htok, Hl. reflexivity.
Defined.

(** C4, as stated, fails: the user ticks [Specific Token], the value
    captured is blank after trimming, and the launch parameters are
    built all the same, with a generated token, a port and a command
    line; so at both readings of the host. *)
Lemma blank_captured_token_is_not_an_error :
  blankCaptureLaunches assignVerbatim
  /\ blankCaptureLaunches (assignListed wizardOptions).
Proof.
  split; (split; [reflexivity|]; split; [reflexivity|]; split; [reflexivity|];
          split; [reflexivity|]; eexists; split; [vm_compute; reflexivity|];
          repeat split).
Qed.

End WizardFacts.
(** ** [launchJupyter] *)

Module LaunchFacts.
Import JS Launcher Host Launch Samples JSFacts WizardFacts.

Section WithPath.

Variable sha1Hex : string -> string.
Variable randomBytes : nat -> nat -> list N.
Variable assign : list Item -> list Item.
Variable dirname : string -> string.
Variable delimiter : string.

(** The name [launchJupyter] gives a terminal passes the test on the
    name that opens [restoreJupyterServers]. *)
Lemma launched_name_is_recognised (ty : JupyterType) (port : N) (id : nat)
    (p : option Z) :
  isJupyterTerminal
    {| tid := id; Host.name := typeName ty +:+ " at " +:+ pretty port;
       processId := p |} = true.
Proof.
  unfold isJupyterTerminal, startsWith. cbn [Host.name].
  destruct ty.
  - change (typeName JupyterNotebook +:+ " at " +:+ pretty port)
      with ("Jupyter Notebook at" +:+ (" " +:+ pretty port)).
    rewrite prefix_app. reflexivity.
  - change (typeName JupyterLab +:+ " at " +:+ pretty port)
      with ("Jupyter Lab at" +:+ (" " +:+ pretty port)).
    rewrite (prefix_app "Jupyter Lab at"). apply orb_true_r.
Qed.

(** What the callback does when it goes all the way. *)
Lemma startServer_returned progress ty launchInfo h tr tr' server :
  startServer dirname delimiter progress ty launchInfo h tr = (tr', Returned server) ->
  exists options,
    terminals tr' = terminals tr ++ [(terminalId h, options)]
    /\ disposed tr' = disposed tr
    /\ TerminalOptions.name options
       = typeName ty +:+ " at " +:+ pretty (Info.port launchInfo)
    /\ TerminalOptions.shellArgs options = Info.shellArgs launchInfo
    /\ TerminalOptions.cwd options = Info.cwd launchInfo
    /\ terminalPid h = Some (Host.pid server)
    /\ truthyNum (Host.pid server) = true
    /\ Host.dispose server = Some (terminalId h)
    /\ Host.shellArgs server = Info.shellArgs launchInfo
    /\ Host.token server = Info.token launchInfo
    /\ Host.port server = Some (Z.of_N (Info.port launchInfo))
    /\ Host.baseUrl server
       = "http://localhost:" +:+ pretty (Info.port launchInfo) +:+ "/".
Proof.
  unfold startServer.
  destruct (pythonExt h); [|discriminate]. cbn [negb].
  destruct (isCancellationRequested h); [discriminate|].
  destruct (resolvedEnv h) as [r|]; [|discriminate].
  destruct (Resolved.uri r) as [fsPath|]; [|discriminate].
  match goal with
  | |- context [match ?x with Some _ => _ | None => _ end = _] =>
      destruct x; [discriminate|]
  end.
  destruct (terminalPid h) as [pid|]; [|discriminate].
  destruct (truthyNum pid) eqn:Hpid; [|discriminate].
  intros [= <- <-]. eexists. cbn.
  destruct progress; cbn; repeat split; try reflexivity; exact Hpid.
Qed.

(** A server [launchJupyter] returns is built by the callback from the
    launch parameters of [getLaunchArgs]. *)
Lemma launchJupyter_returned progress o env script outcome probe cancelled now
    h tr tr' server :
  launchJupyter sha1Hex randomBytes assign dirname delimiter progress o env
    script outcome probe cancelled now h tr = (tr', Returned server) ->
  exists info,
    getLaunchArgs sha1Hex randomBytes assign o env script outcome probe cancelled
      now = Returned info
    /\ probe = inr (Info.port info)
    /\ Host.token server = Info.token info
    /\ Host.baseUrl server
       = "http://localhost:" +:+ pretty (Info.port info) +:+ "/".
Proof.
  unfold launchJupyter.
  destruct (getLaunchArgs _ _ _ _ _ _ _ _ _ _) as [info| |err] eqn:Hargs;
    [|discriminate|discriminate].
  intros Hstart.
  destruct (startServer_returned _ _ _ _ _ _ _ Hstart)
    as (_ & _ & _ & _ & _ & _ & _ & _ & _ & _ & Htok & _ & Hurl).
  destruct (getLaunchArgs_returned _ _ _ _ _ _ _ _ _ _ _ Hargs)
    as (_ & _ & Hport & _).
  exists info. auto.
Qed.

(** X11. The terminal behind a server that [launchJupyter] returns is
    one the inventory of [restoreJupyterServers] records under the
    process id of the server: exactly one terminal is created and none
    is disposed, its name begins with [Jupyter Notebook at] or
    [Jupyter Lab at], it runs the command line of [getLaunchArgs] in the
    default directory, and the server points at the probed port and
    disposes that terminal. *)
Theorem launched_server_has_a_listed_terminal progress o env script outcome
    probe cancelled now h tr tr' server :
  launchJupyter sha1Hex randomBytes assign dirname delimiter progress o env
    script outcome probe cancelled now h tr = (tr', Returned server) ->
  exists options port,
    terminals tr' = terminals tr ++ [(terminalId h, options)]
    /\ disposed tr' = disposed tr
    /\ isJupyterTerminal (terminalOf h options) = true
    /\ terminalsByPid [terminalOf h options] !! Host.pid server
       = Some (terminalOf h options)
    /\ probe = inr port
    /\ TerminalOptions.name options
       = typeName (Launcher.type o) +:+ " at " +:+ pretty port
    /\ TerminalOptions.shellArgs options = Host.shellArgs server
    /\ TerminalOptions.cwd options = defaultDirectory env
    /\ Host.baseUrl server = "http://localhost:" +:+ pretty port +:+ "/"
    /\ Host.dispose server = Some (terminalId h).
Proof.
  unfold launchJupyter.
  destruct (getLaunchArgs _ _ _ _ _ _ _ _ _ _) as [info| |err] eqn:Hargs;
    [|discriminate|discriminate].
  intros Hstart.
  destruct (startServer_returned _ _ _ _ _ _ _ Hstart)
    as (options & Hterm & Hdisp & Hname & Hshell & Hcwd & Hpid & Htruthy & Hdispose
        & Hsa & _ & _ & Hurl).
  destruct (getLaunchArgs_returned _ _ _ _ _ _ _ _ _ _ _ Hargs)
    as (l & Hacc & Hport & Hdir & _).
  rewrite (accepted_cwd _ _ _ _ _ _ Hacc) in Hdir.
  exists options, (Info.port info).
  assert (Hrec : isJupyterTerminal (terminalOf h options) = true).
  { unfold terminalOf. rewrite Hname. apply launched_name_is_recognised. }
  split; [destruct progress; exact Hterm|].
  split; [destruct progress; exact Hdisp|]. split; [exact Hrec|].
  split.
  { unfold terminalsByPid. cbn [fold_left]. unfold recordTerminal.
    rewrite Hrec. cbn [negb]. unfold terminalOf at 1. cbn [processId].
    rewrite Hpid, Htruthy. cbn [negb].
    rewrite bool_decide_eq_false_2 by (rewrite lookup_empty; discriminate).
    apply lookup_insert_eq. }
  split; [exact Hport|]. split; [exact Hname|].
  split; [rewrite Hshell, Hsa; reflexivity|].
  split; [rewrite Hcwd; exact Hdir|].
  split; [exact Hurl|exact Hdispose].
Qed.

(** The three ways the callback ends. *)
Lemma startServer_cases progress ty launchInfo h tr :
  let res := startServer dirname delimiter progress ty launchInfo h tr in
  (admitted h = true /\ hasPid h = true /\ exists server, res.2 = Returned server)
  \/ (admitted h = true /\ hasPid h = false /\ res.2 = ReturnedUndefined
      /\ exists options fsPath,
           resolvedEnv h ≫= Resolved.uri = Some fsPath
           /\ terminals res.1 = terminals tr ++ [(terminalId h, options)]
           /\ disposed res.1 = disposed tr ++ [terminalId h]
           /\ Helpers.errorMessages (ui res.1)
              = Helpers.errorMessages (ui tr) ++ ["Failed to get PID"]
           /\ Helpers.channel (ui res.1)
              = (fun lines =>
                   lines
                   ++ ["Starting Jupyter with " +:+ fsPath +:+ " "
                         +:+ join " " (Info.shellArgs launchInfo);
                       "Jupyter Started at http://localhost:"
                         +:+ pretty (Info.port launchInfo) +:+ "/?token="
                         +:+ Info.token launchInfo;
                       "[Error]:Error: Failed to get PID"])
                <$> Helpers.channel (ui tr))
  \/ (admitted h = false /\ (forall server, res.2 <> Returned server)
      /\ terminals res.1 = terminals tr /\ disposed res.1 = disposed tr
      /\ ui res.1 = ui tr).
Proof.
  assert (Hlog : forall (a b c : string) (ch : option (list string)),
             Host.appendLine c (Host.appendLine b (Host.appendLine a ch))
             = (fun lines => lines ++ [a; b; c]) <$> ch).
  { intros a b c [lines|]; [|reflexivity]. cbn.
    rewrite <- !app_assoc. reflexivity. }
  assert (Hfail : forall r fsPath,
             resolvedEnv h = Some r -> Resolved.uri r = Some fsPath ->
             let tr0 := showProgress progress tr in
             let starting :=
               "Starting Jupyter with " +:+ fsPath +:+ " "
                 +:+ join " " (Info.shellArgs launchInfo) in
             let options :=
               {| TerminalOptions.name :=
                    typeName ty +:+ " at " +:+ pretty (Info.port launchInfo);
                  TerminalOptions.shellPath := fsPath;
                  TerminalOptions.shellArgs := Info.shellArgs launchInfo;
                  TerminalOptions.cwd := Info.cwd launchInfo;
                  TerminalOptions.PATH := withPython dirname delimiter r fsPath (envPATH h);
                  TerminalOptions.Path := withPython dirname delimiter r fsPath (envPath h);
                  TerminalOptions.message := starting |} in
             let res :=
               catchAndDispose "Failed to get PID" (terminalId h)
                 (report "Waiting for terminal process..."
                    (report "Waiting for server..."
                       (appendLine
                          ("Jupyter Started at "
                             +:+ ("http://localhost:"
                                    +:+ pretty (Info.port launchInfo)
                                    +:+ "/?token=" +:+ Info.token launchInfo))
                          (createTerminal (terminalId h) options
                             (report "Creating terminal..."
                                (appendLine starting
                                   (report "Resolving Python Environment"
                                      tr0))))))) in
             exists options fsPath',
               resolvedEnv h ≫= Resolved.uri = Some fsPath'
               /\ terminals res = terminals tr ++ [(terminalId h, options)]
               /\ disposed res = disposed tr ++ [terminalId h]
               /\ Helpers.errorMessages (ui res)
                  = Helpers.errorMessages (ui tr) ++ ["Failed to get PID"]
               /\ Helpers.channel (ui res)
                  = (fun lines =>
                       lines
                       ++ ["Starting Jupyter with " +:+ fsPath' +:+ " "
                             +:+ join " " (Info.shellArgs launchInfo);
                           "Jupyter Started at http://localhost:"
                             +:+ pretty (Info.port launchInfo) +:+ "/?token="
                             +:+ Info.token launchInfo;
                           "[Error]:Error: Failed to get PID"])
                    <$> Helpers.channel (ui tr)).
  { intros r fsPath Hr Hu. cbv zeta. eexists. exists fsPath.
    split; [rewrite Hr; exact Hu|].
    split; [destruct progress; reflexivity|].
    split; [destruct progress; reflexivity|].
    split; [destruct progress; reflexivity|].
    cbn [catchAndDispose report appendLine createTerminal ui Helpers.channel
           Helpers.logAndDisplayError].
    change (errorText "Failed to get PID") with "Error: Failed to get PID".
    change ("[Error]:" +:+ "Error: Failed to get PID")
      with "[Error]:Error: Failed to get PID".
    rewrite Hlog. destruct progress; reflexivity. }
  unfold startServer, admitted, hasPid.
  destruct (pythonExt h); cbn [negb andb];
    [|right; right; destruct progress; repeat split; discriminate].
  destruct (isCancellationRequested h); cbn [negb andb];
    [right; right; destruct progress; repeat split; discriminate|].
  destruct (resolvedEnv h) as [r|] eqn:Hr;
    [|right; right; destruct progress; repeat split; discriminate].
  destruct (Resolved.uri r) as [fsPath|] eqn:Hu;
    [|right; right; destruct progress; repeat split; discriminate].
  specialize (Hfail r fsPath eq_refl Hu). cbv zeta in Hfail.
  destruct (Resolved.environment r) as [e|].
  - destruct (truthy_opt (Environment.type e)); cbn [negb andb orb].
    + destruct (String.eqb _ "VirtualEnvironment"); cbn [negb].
      * destruct (terminalPid h) as [pid|]; [destruct (truthyNum pid)|].
        -- left. repeat split. eexists. reflexivity.
        -- right; left. split; [reflexivity|]. split; [reflexivity|].
           split; [reflexivity|]. exact Hfail.
        -- right; left. split; [reflexivity|]. split; [reflexivity|].
           split; [reflexivity|]. exact Hfail.
      * right; right. destruct progress; repeat split; discriminate.
    + destruct (terminalPid h) as [pid|]; [destruct (truthyNum pid)|].
      * left. repeat split. eexists. reflexivity.
      * right; left. split; [reflexivity|]. split; [reflexivity|].
        split; [reflexivity|]. exact Hfail.
      * right; left. split; [reflexivity|]. split; [reflexivity|].
        split; [reflexivity|]. exact Hfail.
  - destruct (terminalPid h) as [pid|]; [destruct (truthyNum pid)|].
    + left. repeat split. eexists. reflexivity.
    + right; left. split; [reflexivity|]. split; [reflexivity|].
      split; [reflexivity|]. exact Hfail.
    + right; left. split; [reflexivity|]. split; [reflexivity|].
      split; [reflexivity|]. exact Hfail.
Qed.

(** X12. [launchJupyter] leaves no terminal behind: when it does not
    return a server, either it has created no terminal, disposed none
    and shown and logged nothing, or it has created one, found no
    process id for it, shown the message "Failed to get PID", written
    the line "[Error]:Error: Failed to get PID" to the output channel
    (after the two lines of the launch) when there is a channel,
    disposed that terminal and returned nothing. *)
Theorem unreturned_terminal_is_disposed progress o env script outcome probe
    cancelled now h tr :
  let res :=
    launchJupyter sha1Hex randomBytes assign dirname delimiter progress o env
      script outcome probe cancelled now h tr in
  (exists server, res.2 = Returned server)
  \/ (terminals res.1 = terminals tr /\ disposed res.1 = disposed tr
      /\ ui res.1 = ui tr)
  \/ (exists options info fsPath,
        getLaunchArgs sha1Hex randomBytes assign o env script outcome probe
          cancelled now = Returned info
        /\ resolvedEnv h ≫= Resolved.uri = Some fsPath
        /\ terminals res.1 = terminals tr ++ [(terminalId h, options)]
        /\ disposed res.1 = disposed tr ++ [terminalId h]
        /\ res.2 = ReturnedUndefined
        /\ hasPid h = false
        /\ Helpers.errorMessages (ui res.1)
           = Helpers.errorMessages (ui tr) ++ ["Failed to get PID"]
        /\ Helpers.channel (ui res.1)
           = (fun lines =>
                lines
                ++ ["Starting Jupyter with " +:+ fsPath +:+ " "
                      +:+ join " " (Info.shellArgs info);
                    "Jupyter Started at http://localhost:"
                      +:+ pretty (Info.port info) +:+ "/?token="
                      +:+ Info.token info;
                    "[Error]:Error: Failed to get PID"])
             <$> Helpers.channel (ui tr)).
Proof.
  unfold launchJupyter.
  destruct (getLaunchArgs _ _ _ _ _ _ _ _ _ _) as [info| |err].
  - destruct (startServer_cases progress (Launcher.type o) info h
                (showProgress progress tr))
      as [(_ & _ & Hs)|[(_ & Hpid & Hr & options & fsPath & Hu & Ht & Hd & He & Hc)
                       |(_ & _ & Ht & Hd & Hui)]].
    + left. exact Hs.
    + right; right. exists options, info, fsPath.
      split; [reflexivity|]. split; [exact Hu|].
      destruct progress; cbn in Ht, Hd, He, Hc |- *; auto 10.
    + right; left. destruct progress; cbn in Ht, Hd, Hui |- *; auto.
  - right; left. destruct progress; repeat split; reflexivity.
  - right; left. destruct progress; repeat split; reflexivity.
Qed.

(** X13. [launchJupyter] returns a server exactly when [getLaunchArgs]
    returns launch parameters, the Python extension is there, no
    cancellation is requested after the environment is resolved, the
    environment has an executable and is a virtual environment or has no
    type, and the terminal yields a process id that is not [0]. *)
Theorem launch_returns_a_server_exactly_when progress o env script outcome
    probe cancelled now h tr :
  (exists server,
     (launchJupyter sha1Hex randomBytes assign dirname delimiter progress o env
        script outcome probe cancelled now h tr).2 = Returned server)
  <-> (exists info,
         getLaunchArgs sha1Hex randomBytes assign o env script outcome probe
           cancelled now = Returned info)
      /\ admitted h = true /\ hasPid h = true.
Proof.
  unfold launchJupyter.
  destruct (getLaunchArgs _ _ _ _ _ _ _ _ _ _) as [info| |err].
  - destruct (startServer_cases progress (Launcher.type o) info h
                (showProgress progress tr))
      as [(Ha & Hp & Hs)|[(Ha & Hp & Hr & _)|(Ha & Hn & _)]].
    + split; [intros _; split; [exists info; reflexivity|auto]|intros _; exact Hs].
    + split.
      * intros [server Hs]. rewrite Hr in Hs. discriminate.
      * intros (_ & _ & H). congruence.
    + split.
      * intros [server Hs]. destruct (Hn server Hs).
      * intros (_ & H & _). congruence.
  - split; [intros [server H]; discriminate|intros [[info H] _]; discriminate].
  - split; [intros [server H]; discriminate|intros [[info H] _]; discriminate].
Qed.

End WithPath.

Lemma launched_server_has_a_listed_terminal_witness :
  exists tr' server options port,
    launchJupyter sampleSha sampleBytes assignVerbatim sampleDirname ":" true
      defaultOptions tmpEnv [] Accept (inr 8888%N) false 5%N readyPlatform
      quietTrace = (tr', Returned server)
    /\ terminals tr' = terminals quietTrace ++ [(terminalId readyPlatform, options)]
    /\ disposed tr' = disposed quietTrace
    /\ isJupyterTerminal (terminalOf readyPlatform options) = true
    /\ terminalsByPid [terminalOf readyPlatform options] !! Host.pid server
       = Some (terminalOf readyPlatform options)
    /\ @inr string N 8888%N = inr port
    /\ TerminalOptions.name options
       = typeName (Launcher.type defaultOptions) +:+ " at " +:+ pretty port
    /\ TerminalOptions.shellArgs options = Host.shellArgs server
    /\ TerminalOptions.cwd options = defaultDirectory tmpEnv
    /\ Host.baseUrl server = "http://localhost:" +:+ pretty port +:+ "/"
    /\ Host.dispose server = Some (terminalId readyPlatform).
Proof.
  eexists _, _.
  assert (Hrun : launchJupyter sampleSha sampleBytes assignVerbatim sampleDirname
                   ":" true defaultOptions tmpEnv [] Accept (inr 8888%N) false 5%N
                   readyPlatform quietTrace
                 = (_, Returned _)) by (vm_compute; reflexivity).
  destruct (launched_server_has_a_listed_terminal sampleSha sampleBytes
              assignVerbatim sampleDirname ":" true defaultOptions tmpEnv []
              Accept (inr 8888%N) false 5%N readyPlatform quietTrace _ _ Hrun)
    as (options & port & H).
  exists options, port. split; [exact Hrun|exact H].
Defined.

End LaunchFacts.
(** ** [helpers.ts] *)

Module HelpersFacts.
Import JS Helpers Samples JSFacts.

Lemma pop_snoc {D} (l : list (option D)) (x : option D) :
  pop (l ++ [x]) = Some (x, l).
Proof. unfold pop. rewrite List.rev_app_distr. simpl. rewrite List.rev_involutive. reflexivity. Qed.

Lemma disposeLoop_all {D} (ds : list (option D)) :
  forall fuel log, length ds <= fuel ->
    disposeLoop fuel ds log = ([], log ++ List.rev (omap id ds)).
Proof.
  induction ds as [|x ds IH] using rev_ind; intros fuel log Hfuel.
  - destruct fuel; simpl; rewrite app_nil_r; reflexivity.
  - rewrite length_app in Hfuel. simpl in Hfuel.
    destruct fuel as [|fuel]; [lia|].
    cbn [disposeLoop]. rewrite pop_snoc.
    rewrite IH by lia. rewrite omap_app, List.rev_app_distr.
    destruct x as [d|]; simpl; [rewrite <- app_assoc|]; reflexivity.
Qed.

(** X14. [disposeAllDisposables] empties the array and calls [dispose]
    on every element that is there, once, the last pushed first; holes
    are skipped and what a call throws is dropped. The loop ends by
    itself (more rounds change nothing), a second call on the array it
    leaves disposes nothing, and what [push] added last is disposed
    first. *)
Theorem dispose_all_is_last_in_first_out {D} (ds : list (option D))
    (log : list D) :
  disposeAllDisposables ds log = ([], log ++ List.rev (omap id ds))
  /\ (forall fuel, length ds <= fuel ->
        disposeLoop fuel ds log = disposeAllDisposables ds log)
  /\ disposeAllDisposables (disposeAllDisposables ds log).1
       (disposeAllDisposables ds log).2
     = disposeAllDisposables ds log
  /\ (forall d, disposeAllDisposables (push ds d) log
                = ([], log ++ d :: List.rev (omap id ds))).
Proof.
  assert (H : forall l : list (option D),
             disposeAllDisposables l log = ([], log ++ List.rev (omap id l))).
  { intros l. unfold disposeAllDisposables. apply disposeLoop_all. lia. }
  split; [apply H|]. split; [|split].
  - intros fuel Hfuel. rewrite H. apply disposeLoop_all. exact Hfuel.
  - rewrite H. reflexivity.
  - intros d. rewrite H. unfold push. rewrite omap_app, List.rev_app_distr.
    reflexivity.
Qed.

Lemma eqb_app_self (root rest : string) :
  String.eqb (root +:+ rest) root = negb (truthy rest).
Proof.
  induction root as [|a root IH]; simpl.
  - destruct rest; reflexivity.
  - rewrite Ascii.eqb_refl. exact IH.
Qed.

Lemma eqb_startsWith (s p : string) : String.eqb s p = true -> startsWith s p = true.
Proof.
  intros H. apply String.eqb_eq in H. subst p. unfold startsWith.
  induction s as [|a s IH]; simpl; [reflexivity|].
  destruct (Ascii.ascii_dec a a); [exact IH|congruence].
Qed.

Section DisplayPath.

Variable fileFsPath : string -> string.
Variable basename : string -> string.

(** X15. [getDisplayPath] shortens a prefix. For a file that is given,
    with [root] the directory it is shown against (the [cwd] argument,
    else the first workspace folder): a path that is [root] followed by
    [rest] is shown as [.] followed by [rest], and as the base name when
    [rest] is empty; a path that does not begin with [root] (or when
    there is no [root]) and is the home directory followed by [rest] is
    shown as [~] followed by [rest]; any other path is shown in full.
    A file that is [undefined] or the empty string is shown as the
    empty string. *)
Theorem display_path_shortens_a_prefix (homeDir : string)
    (workspaceFolder : option string) (file : PathArg) (cwd : option PathArg) :
  let shown :=
    getDisplayPath fileFsPath basename homeDir workspaceFolder (Some file) cwd in
  let path := fsPathOf fileFsPath file in
  let outside :=
    match displayRoot fileFsPath workspaceFolder cwd with
    | Some root => startsWith path root = false
    | None => True
    end in
  (given (Some file) = false -> shown = "")
  /\ (forall root rest,
        given (Some file) = true ->
        displayRoot fileFsPath workspaceFolder cwd = Some root ->
        path = root +:+ rest ->
        shown = if truthy rest then "." +:+ rest else basename path)
  /\ (forall rest,
        given (Some file) = true -> outside -> path = homeDir +:+ rest ->
        shown = "~" +:+ rest)
  /\ (given (Some file) = true -> outside -> startsWith path homeDir = false ->
      shown = path)
  /\ getDisplayPath fileFsPath basename homeDir workspaceFolder None cwd = "".
Proof.
  cbv zeta. unfold getDisplayPath.
  split; [intros ->; reflexivity|]. split; [|split; [|split; [|reflexivity]]].
  - intros root rest -> -> Hpath. cbn [negb]. rewrite Hpath, eqb_app_self.
    destruct (truthy rest); cbn [negb]; [|reflexivity].
    unfold startsWith. rewrite prefix_app, replace_prefix. reflexivity.
  - intros rest -> Hout Hpath. cbn [negb].
    assert (Hhome : (if startsWith (fsPathOf fileFsPath file) homeDir
                     then replace (fsPathOf fileFsPath file) homeDir "~"
                     else fsPathOf fileFsPath file) = "~" +:+ rest).
    { rewrite Hpath. unfold startsWith. rewrite prefix_app, replace_prefix.
      reflexivity. }
    rewrite Hhome.
    destruct (displayRoot fileFsPath workspaceFolder cwd) as [root|]; [|reflexivity].
    rewrite Hout.
    destruct (String.eqb _ root) eqn:Heq; [|reflexivity].
    apply eqb_startsWith in Heq. congruence.
  - intros -> Hout Hhome. cbn [negb]. rewrite Hhome.
    destruct (displayRoot fileFsPath workspaceFolder cwd) as [root|]; [|reflexivity].
    rewrite Hout.
    destruct (String.eqb _ root) eqn:Heq; [|reflexivity].
    apply eqb_startsWith in Heq. congruence.
Qed.

End DisplayPath.

Lemma display_path_shortens_a_prefix_witness :
  getDisplayPath textOf sampleBasename "/home/me" (Some "/work")
    (Some (AString "/work/nb/a.ipynb")) None = "./nb/a.ipynb"
  /\ getDisplayPath textOf sampleBasename "/home/me" (Some "/work")
       (Some (AString "/workshop/a.ipynb")) None = ".shop/a.ipynb"
  /\ getDisplayPath textOf sampleBasename "/home/me" (Some "/work")
       (Some (AString "/work")) None = "work"
  /\ getDisplayPath textOf sampleBasename "/home/me" (Some "/work")
       (Some (AUri "/home/me/a.ipynb")) None = "~/a.ipynb".
Proof.
  split; [|split; [|split]].
  - apply (proj1 (proj2 (display_path_shortens_a_prefix textOf sampleBasename
                           "/home/me" (Some "/work")
                           (AString "/work/nb/a.ipynb") None))
             "/work" "/nb/a.ipynb"); reflexivity.
  - apply (proj1 (proj2 (display_path_shortens_a_prefix textOf sampleBasename
                           "/home/me" (Some "/work")
                           (AString "/workshop/a.ipynb") None))
             "/work" "shop/a.ipynb"); reflexivity.
  - apply (proj1 (proj2 (display_path_shortens_a_prefix textOf sampleBasename
                           "/home/me" (Some "/work") (AString "/work") None))
             "/work" ""); reflexivity.
  - apply (proj1 (proj2 (proj2 (display_path_shortens_a_prefix textOf
                                  sampleBasename "/home/me" (Some "/work")
                                  (AUri "/home/me/a.ipynb") None)))
             "/a.ipynb"); reflexivity.
Defined.

End HelpersFacts.
(** ** [extension.ts] *)

Module ExtensionFacts.
Import JS Launcher Host Samples LauncherFacts WizardFacts LaunchFacts.

Section Command.

Context {State : Type}.
Variable addJupyterServer : State -> JupyterServer -> State.
Variable sha1Hex : string -> string.
Variable randomBytes : nat -> nat -> list N.
Variable assign : list Item -> list Item.
Variable dirname : string -> string.
Variable delimiter : string.

(** The server [launchJupyter] returns is to be registered exactly when
    the launch parameters say so. *)
Lemma launched_register_flag progress o env script outcome probe cancelled now
    h tr tr' server :
  Launch.launchJupyter sha1Hex randomBytes assign dirname delimiter progress o
    env script outcome probe cancelled now h tr = (tr', Returned server) ->
  exists l,
    accepted assign o env script outcome = Some l
    /\ Host.registerWithJupyterExtension server
       = Launcher.registerWithJupyterExtension l
    /\ Host.type server = Launcher.type o.
Proof.
  unfold Launch.launchJupyter.
  destruct (getLaunchArgs _ _ _ _ _ _ _ _ _ _) as [info| |err] eqn:Hargs;
    [|discriminate|discriminate].
  destruct (getLaunchArgs_returned _ _ _ _ _ _ _ _ _ _ _ Hargs)
    as (l & Hacc & _ & _ & _ & Hreg & _).
  intros Hstart. exists l. split; [exact Hacc|].
  unfold Launch.startServer in Hstart.
  destruct (Launch.pythonExt h); [|discriminate]. cbn [negb] in Hstart.
  destruct (Launch.isCancellationRequested h); [discriminate|].
  destruct (Launch.resolvedEnv h) as [r|]; [|discriminate].
  destruct (Launch.Resolved.uri r) as [fsPath|]; [|discriminate].
  match type of Hstart with
  | context [match ?x with Some _ => _ | None => _ end] =>
      destruct x; [discriminate|]
  end.
  destruct (Launch.terminalPid h) as [pid|]; [|discriminate].
  destruct (truthyNum pid); [|discriminate].
  injection Hstart as _ <-. cbn. split; [exact Hreg|reflexivity].
Qed.

(** X16. The launch command registers a server only when it was asked
    to: [startJupyterServer] of [activate] either leaves the registry
    and the subscriptions as they are, or it has launched a server of
    the asked kind from a wizard whose accepted selection holds
    [Register with Jupyter Extension], pushed it onto the subscriptions
    and given it to [addJupyterServer]. Whatever [launchJupyter] throws,
    the command is rejected with the error "Function not implemented."
    of the local [logAndDisplayError], and nothing is registered. *)
Theorem command_registers_only_when_asked ty env script outcome probe cancelled
    now h tr (st : State) subscriptions :
  let launched :=
    (Launch.launchJupyter sha1Hex randomBytes assign dirname delimiter false
       (Extension.commandOptions ty) env script outcome probe cancelled now h
       tr).2 in
  let res :=
    (Extension.startJupyterServer addJupyterServer sha1Hex randomBytes assign
       dirname delimiter ty env script outcome probe cancelled now h tr st
       subscriptions).2 in
  ((res = (st, subscriptions, None)
    \/ res = (st, subscriptions, Some (NewError "Function not implemented.")))
   \/ exists serverInfo,
        launched = Returned serverInfo
        /\ res = (addJupyterServer st serverInfo, subscriptions ++ [serverInfo], None)
        /\ Host.type serverInfo = ty
        /\ includes
             (selectedItems
                (runWizard assign
                   (openQuickPick assign (Extension.commandOptions ty) env) script))
             registerWithJupyterExtensionPrompt = true)
  /\ ((exists err, launched = Thrown err)
      <-> res = (st, subscriptions, Some (NewError "Function not implemented."))).
Proof.
  cbv zeta. unfold Extension.startJupyterServer.
  destruct (Launch.launchJupyter _ _ _ _ _ _ _ _ _ _ _ _ _ _ _)
    as [tr' launched] eqn:Hlaunch.
  cbn [snd fst]. unfold Extension.register.
  destruct launched as [serverInfo| |err].
  - destruct (launched_register_flag _ _ _ _ _ _ _ _ _ _ _ _ Hlaunch)
      as (l & Hacc & Hreg & Hty).
    destruct (Host.registerWithJupyterExtension serverInfo) eqn:Hflag.
    + split.
      * right. exists serverInfo. split; [reflexivity|]. split; [reflexivity|].
        split; [exact Hty|].
        unfold accepted in Hacc. cbn [customize Extension.commandOptions] in Hacc.
        unfold readSelections in Hacc. destruct outcome; [|discriminate].
        destruct (_ =? 0)%nat; [discriminate|].
        destruct (forallb _ _); [discriminate|].
        injection Hacc as <-. cbn [Launcher.registerWithJupyterExtension] in Hreg.
        rewrite <- (someLabel_includes registerWithJupyterExtensionPrompt).
        symmetry. exact Hreg.
      * split; [intros [err H]; discriminate|intros H; discriminate].
    + split; [left; left; reflexivity|].
      split; [intros [err H]; discriminate|intros H; discriminate].
  - split; [left; left; reflexivity|].
    split; [intros [err H]; discriminate|intros H; discriminate].
  - split; [left; right; reflexivity|].
    split; [intros _; reflexivity|intros _; exists err; reflexivity].
Qed.

End Command.

End ExtensionFacts.
(** ** More of the registry behind a URI provider *)

Module HandleFacts.
Import JS Host Provider Samples JSFacts LaunchFacts.

(** X17. The handle [getHandles] makes of a key of the registry (its
    decimal text) names that key and no other: [getServerUri] resolves
    it to the connection information stored under the key, and
    [removeHandle] disposes that server, deletes that key only and
    leaves a registry in which the handle is invalid. *)
Theorem listed_handle_names_its_key st k entry :
  servers st !! k = Some entry ->
  getServerUri st (pretty k) = Returned (serverUri entry)
  /\ servers (removeHandle st (pretty k)) = delete k (servers st)
  /\ disposed (removeHandle st (pretty k))
     = runDispose (Host.dispose (serverInfo entry)) (disposed st)
  /\ getServerUri (removeHandle st (pretty k)) (pretty k)
     = Thrown (NewError "Invalid handle").
Proof.
  intros Hk. unfold getServerUri, removeHandle. rewrite parseInt_pretty.
  cbn [getNum deleteNum servers disposed]. rewrite Hk.
  split; [reflexivity|]. split; [reflexivity|]. split; [reflexivity|].
  rewrite lookup_delete_eq. reflexivity.
Qed.

Lemma listed_handle_names_its_key_witness :
  exists entry,
    servers oneHandle !! 4242%Z = Some entry
    /\ getServerUri oneHandle (pretty 4242%Z) = Returned (serverUri entry)
    /\ servers (removeHandle oneHandle (pretty 4242%Z))
       = delete 4242%Z (servers oneHandle)
    /\ disposed (removeHandle oneHandle (pretty 4242%Z))
       = runDispose (Host.dispose (serverInfo entry)) (disposed oneHandle)
    /\ getServerUri (removeHandle oneHandle (pretty 4242%Z)) (pretty 4242%Z)
       = Thrown (NewError "Invalid handle").
Proof.
  eexists. split; [vm_compute; reflexivity|].
  apply (listed_handle_names_its_key oneHandle 4242%Z). vm_compute. reflexivity.
Defined.

(** X18. The handle [handleQuickPick] returns after [addJupyterServer]
    (the process id in decimal) always resolves. When the process id
    was not registered, it resolves to the base URL and the token of
    the server just added, the change event has fired once and the
    stored list has grown by the new record; and removing that handle
    gives back the registry as it was before the server was added,
    disposes the server and fires once more, but leaves the record in
    the stored list. *)
Theorem added_server_resolves_by_its_pid st server :
  let st' := addJupyterServer st server in
  let handle := pretty (Host.pid server) in
  (exists u, getServerUri st' handle = Returned u)
  /\ (servers st !! Host.pid server = None ->
      exists entry,
        getServerUri st' handle = Returned (serverUri entry)
        /\ serverInfo entry = server
        /\ baseUrl (serverUri entry) = Host.baseUrl server
        /\ token (serverUri entry) = Host.token server
        /\ fired st' = S (fired st)
        /\ memento st' = memento st ++ [asStored entry]
        /\ servers (removeHandle st' handle) = servers st
        /\ fired (removeHandle st' handle) = S (S (fired st))
        /\ disposed (removeHandle st' handle)
           = runDispose (Host.dispose server) (disposed st)
        /\ memento (removeHandle st' handle) = memento st ++ [asStored entry]).
Proof.
  cbv zeta. unfold getServerUri, removeHandle. rewrite parseInt_pretty.
  cbn [getNum deleteNum]. unfold addJupyterServer.
  destruct (servers st !! Host.pid server) as [old|] eqn:Hold.
  - cbn [servers]. rewrite Hold. split; [eauto|discriminate].
  - cbn [servers fired memento disposed]. rewrite !lookup_insert_eq.
    split; [eauto|]. intros _. eexists. split; [reflexivity|].
    cbn [serverInfo serverUri baseUrl token].
    repeat (split; [reflexivity|]).
    split; [|repeat split; reflexivity].
    rewrite delete_insert_eq. apply delete_id. exact Hold.
Qed.

Lemma added_server_resolves_by_its_pid_witness :
  exists entry,
    getServerUri oneHandle (pretty 4242%Z) = Returned (serverUri entry)
    /\ serverInfo entry = sampleServer 4242 (Some 1%nat)
    /\ baseUrl (serverUri entry) = "http://localhost:8888/"
    /\ token (serverUri entry) = "t0"
    /\ fired oneHandle = 1
    /\ memento oneHandle = [asStored entry]
    /\ servers (removeHandle oneHandle (pretty 4242%Z)) = servers emptyProvider
    /\ fired (removeHandle oneHandle (pretty 4242%Z)) = 2
    /\ disposed (removeHandle oneHandle (pretty 4242%Z)) = [1%nat]
    /\ memento (removeHandle oneHandle (pretty 4242%Z)) = [asStored entry].
Proof.
  apply (proj2 (added_server_resolves_by_its_pid emptyProvider
                  (sampleServer 4242 (Some 1%nat)))).
  apply lookup_empty.
Defined.

(** What one callback of the reconciliation changes. *)
Lemma prov_restoreOne_cases byPid st server :
  (restoreOne byPid st server = (st, server)
   /\ (incomplete server
       \/ exists info,
            server ≫= s_serverInfo = Some info
            /\ byPid !! Host.pid info = None
            /\ servers st !! Host.pid info = None))
  \/ (exists info uri,
        server ≫= s_serverInfo = Some info
        /\ server ≫= s_serverUri = Some uri
        /\ truthyNum (Host.pid info) = true
        /\ (is_Some (byPid !! Host.pid info)
            \/ is_Some (servers st !! Host.pid info))
        /\ exists server',
             restoreOne byPid st server
             = ({| servers := <[Host.pid info := server']> (servers st);
                   fired := fired st; disposed := disposed st;
                   channel := channel st; memento := memento st |},
                asStored server')
             /\ serverUri server' = uri
             /\ Host.pid (serverInfo server') = Host.pid info
             /\ Host.dispose (serverInfo server')
                = tid <$> byPid !! Host.pid info).
Proof.
  unfold restoreOne, incomplete.
  destruct (server ≫= s_serverInfo) as [info|]; [|left; auto].
  destruct (truthyNum (Host.pid info)) eqn:Ht; cbn [negb].
  - destruct (server ≫= s_serverUri) as [uri|]; [|left; auto].
    case_bool_decide as Hlive; cbn [negb andb].
    + right. exists info, uri. split; [reflexivity|]. split; [reflexivity|].
      split; [exact Ht|].
      split; [left; exact Hlive|].
      eexists. split; [reflexivity|]. repeat split.
    + case_bool_decide as Hreg; cbn [negb].
      * right. exists info, uri. split; [reflexivity|]. split; [reflexivity|].
      split; [exact Ht|].
        split; [right; exact Hreg|].
        eexists. split; [reflexivity|]. repeat split.
      * left. split; [reflexivity|]. right. exists info.
        split; [reflexivity|]. split; apply eq_None_not_Some; assumption.
  - left. split; [reflexivity|]. left.
    destruct (server ≫= s_serverUri); auto.
Qed.

(** The reconciliation fires nothing, disposes nothing, logs nothing,
    and removes no key. *)
Lemma prov_restoreEach_quiet byPid todo st :
  let st' := (restoreEach byPid st todo).1 in
  fired st' = fired st /\ disposed st' = disposed st /\ channel st' = channel st
  /\ length (restoreEach byPid st todo).2 = length todo
  /\ forall k, is_Some (servers st !! k) -> is_Some (servers st' !! k).
Proof.
  cbv zeta. revert st. induction todo as [|server rest IH]; intros st.
  - cbn. repeat split; auto.
  - cbn [restoreEach].
    destruct (prov_restoreOne_cases byPid st server)
      as [[-> _]|(info & uri & _ & _ & _ & _ & server' & -> & _)].
    + specialize (IH st). destruct (restoreEach byPid st rest) as [st2 rest'].
      cbn in IH |- *. destruct IH as (Hf & Hd & Hc & Hl & Hk).
      repeat split; auto.
    + match goal with
      | |- context [restoreEach byPid ?s rest] => specialize (IH s)
      end.
      destruct (restoreEach byPid _ rest) as [st2 rest'].
      cbn in IH |- *. destruct IH as (Hf & Hd & Hc & Hl & Hk).
      repeat split; auto.
      intros k Hs. apply Hk.
      destruct (decide (Host.pid info = k)) as [<-|Hne].
      * rewrite lookup_insert_eq. eauto.
      * rewrite lookup_insert_ne by exact Hne. exact Hs.
Qed.

(** Once the entry under [p] is one whose [dispose] is bound to the
    inventory, it stays so. *)
Lemma prov_restoreOne_bound byPid st server p :
  (exists e, servers st !! p = Some e /\ Host.pid (serverInfo e) = p
             /\ Host.dispose (serverInfo e) = tid <$> byPid !! p) ->
  exists e, servers (restoreOne byPid st server).1 !! p = Some e
            /\ Host.pid (serverInfo e) = p
            /\ Host.dispose (serverInfo e) = tid <$> byPid !! p.
Proof.
  intros H.
  destruct (prov_restoreOne_cases byPid st server)
    as [[-> _]|(info & uri & _ & _ & _ & _ & server' & -> & _ & Hp & Hd)];
    [exact H|].
  cbn [fst servers].
  destruct (decide (Host.pid info = p)) as [<-|Hne].
  - rewrite lookup_insert_eq. exists server'. auto.
  - rewrite lookup_insert_ne by exact Hne. exact H.
Qed.

Lemma prov_restoreEach_bound byPid todo st p :
  (exists e, servers st !! p = Some e /\ Host.pid (serverInfo e) = p
             /\ Host.dispose (serverInfo e) = tid <$> byPid !! p) ->
  exists e, servers (restoreEach byPid st todo).1 !! p = Some e
            /\ Host.pid (serverInfo e) = p
            /\ Host.dispose (serverInfo e) = tid <$> byPid !! p.
Proof.
  revert st. induction todo as [|server rest IH]; intros st H; [exact H|].
  cbn [restoreEach].
  pose proof (prov_restoreOne_bound byPid st server p H) as H1.
  destruct (restoreOne byPid st server) as [st1 server'].
  specialize (IH st1 H1). destruct (restoreEach byPid st1 rest) as [st2 rest'].
  exact IH.
Qed.

Lemma prov_restoreEach_binds byPid todo st server info uri :
  server ∈ todo ->
  server ≫= s_serverInfo = Some info ->
  server ≫= s_serverUri = Some uri ->
  truthyNum (Host.pid info) = true ->
  is_Some (byPid !! Host.pid info) \/ is_Some (servers st !! Host.pid info) ->
  exists e,
    servers (restoreEach byPid st todo).1 !! Host.pid info = Some e
    /\ Host.pid (serverInfo e) = Host.pid info
    /\ Host.dispose (serverInfo e) = tid <$> byPid !! Host.pid info.
Proof.
  intros Hin Hinfo Huri Ht. revert st Hin.
  induction todo as [|x rest IH]; intros st Hin Hcond.
  - apply elem_of_nil in Hin. contradiction.
  - cbn [restoreEach]. apply elem_of_cons in Hin as [<-|Hin].
    + destruct (prov_restoreOne_cases byPid st server)
        as [[_ [Hinc|(info' & Hinfo' & Hn1 & Hn2)]]
           |(info' & uri' & Hinfo' & _ & _ & _ & server' & Heq & _ & Hp & Hd)].
      * unfold incomplete in Hinc. rewrite Hinfo, Huri in Hinc. congruence.
      * rewrite Hinfo in Hinfo'. injection Hinfo' as <-.
        rewrite Hn1, Hn2 in Hcond. destruct Hcond as [[? ?]|[? ?]]; discriminate.
      * rewrite Hinfo in Hinfo'. injection Hinfo' as <-.
        pose proof (prov_restoreEach_bound byPid rest
                      (restoreOne byPid st server).1 (Host.pid info)) as Hb.
        rewrite Heq in Hb |- *. cbn [fst servers] in Hb.
        rewrite lookup_insert_eq in Hb.
        specialize (Hb ltac:(eauto)).
        destruct (restoreEach byPid _ rest) as [st2 rest']. exact Hb.
    + pose proof (proj2 (proj2 (proj2 (proj2 (prov_restoreEach_quiet byPid [x] st)))))
        as Hkeep.
      cbn [restoreEach fst] in Hkeep.
      destruct (restoreOne byPid st x) as [st1 x'] eqn:Hx.
      cbn [fst] in Hkeep.
      specialize (IH st1 Hin).
      destruct (restoreEach byPid st1 rest) as [st2 rest']. apply IH.
      destruct Hcond as [Hl|Hr]; [left; exact Hl|right; apply Hkeep; exact Hr].
Qed.

(** Stored elements the guard stops are handed back as they are, and
    the registry with them. *)
Lemma prov_restoreEach_incomplete byPid todo st :
  Forall incomplete todo -> restoreEach byPid st todo = (st, todo).
Proof.
  induction 1 as [|x rest Hx _ IH]; [reflexivity|].
  cbn [restoreEach].
  assert (Hone : restoreOne byPid st x = (st, x)).
  { unfold restoreOne. unfold incomplete in Hx.
    destruct (x ≫= s_serverInfo) as [info|]; [|reflexivity].
    destruct (x ≫= s_serverUri) as [uri|].
    - rewrite Hx. reflexivity.
    - destruct (negb (truthyNum (Host.pid info))); reflexivity. }
  rewrite Hone, IH. reflexivity.
Qed.

(** X19. The reconciliation of the provider revision registers, under
    its process id, every stored record that has its [serverInfo] and
    its [serverUri] and whose process id is not [0] and is live in the
    inventory or registered already, and binds the [dispose] of the
    registered server to the terminal the inventory holds for that
    process id (to nothing when it holds none). Stored elements that are
    [null] or lack their [serverInfo], a process id that is not [0] or
    their [serverUri] are passed over: when the stored list holds no
    other, the registry and the list are left as they were, whatever
    terminals are open. The reconciliation is silent: [updated] is never
    set, so the change event is not fired, and nothing is disposed or
    logged. *)
Theorem provider_restore_registers_silently terminals st :
  let st' := restoreJupyterServers terminals st in
  (forall server info uri,
     server ∈ memento st ->
     server ≫= s_serverInfo = Some info ->
     server ≫= s_serverUri = Some uri ->
     truthyNum (Host.pid info) = true ->
     is_Some (terminalsByPid terminals !! Host.pid info)
     \/ is_Some (servers st !! Host.pid info) ->
     exists e,
       servers st' !! Host.pid info = Some e
       /\ Host.pid (serverInfo e) = Host.pid info
       /\ Host.dispose (serverInfo e)
          = tid <$> terminalsByPid terminals !! Host.pid info)
  /\ (Forall incomplete (memento st) ->
      servers st' = servers st /\ memento st' = memento st)
  /\ fired st' = fired st
  /\ disposed st' = disposed st
  /\ channel st' = channel st.
Proof.
  cbv zeta. unfold restoreJupyterServers.
  pose proof (prov_restoreEach_quiet (terminalsByPid terminals) (memento st) st)
    as (Hf & Hd & Hc & _).
  split; [|split].
  - intros server info uri Hin Hinfo Huri Ht Hcond.
    pose proof (prov_restoreEach_binds (terminalsByPid terminals) (memento st) st
                  server info uri Hin Hinfo Huri Ht Hcond) as Hb.
    destruct (restoreEach (terminalsByPid terminals) st (memento st))
      as [st1 stored].
    exact Hb.
  - intros Hall. rewrite (prov_restoreEach_incomplete _ _ _ Hall).
    split; reflexivity.
  - destruct (restoreEach (terminalsByPid terminals) st (memento st))
      as [st1 stored].
    cbn [fst servers fired disposed channel] in *. auto.
Qed.

Lemma provider_restore_registers_silently_witness :
  (exists e,
     servers (restoreJupyterServers openTerminals reloadedProvider) !! 4242%Z
     = Some e
     /\ Host.pid (serverInfo e) = 4242%Z
     /\ Host.dispose (serverInfo e) = tid <$> terminalsByPid openTerminals !! 4242%Z)
  /\ is_Some (terminalsByPid openTerminals !! 4242%Z)
  /\ servers (restoreJupyterServers openTerminals damagedProvider)
     = servers damagedProvider
  /\ memento (restoreJupyterServers openTerminals damagedProvider)
     = memento damagedProvider.
Proof.
  split; [|split; [vm_compute; eauto|]].
  - apply (proj1 (provider_restore_registers_silently openTerminals
                    reloadedProvider)
             (asStored
                {| serverInfo := sampleServer 4242 (Some 1%nat);
                   serverUri :=
                     {| baseUrl := "http://localhost:8888/"; token := "t0";
                        displayName := "Jupyter Lab http://localhost:8888/";
                        mappedRemoteNotebookDir := None;
                        authorizationHeader := None;
                        dispose := Some 1%nat |} |})
             (sampleServer 4242 (Some 1%nat))
             {| baseUrl := "http://localhost:8888/"; token := "t0";
                displayName := "Jupyter Lab http://localhost:8888/";
                mappedRemoteNotebookDir := None;
                authorizationHeader := None;
                dispose := Some 1%nat |}).
    + apply list_elem_of_here.
    + reflexivity.
    + reflexivity.
    + reflexivity.
    + left. vm_compute. eauto.
  - apply (proj1 (proj2 (provider_restore_registers_silently openTerminals
                           damagedProvider))).
    repeat constructor.
Defined.

(** The keys one callback adds. *)
Lemma prov_restoreEach_keys byPid todo st k :
  is_Some (servers (restoreEach byPid st todo).1 !! k) ->
  is_Some (servers st !! k)
  \/ exists server info uri,
       server ∈ todo
       /\ server ≫= s_serverInfo = Some info
       /\ server ≫= s_serverUri = Some uri
       /\ Host.pid info = k
       /\ truthyNum k = true /\ is_Some (byPid !! k).
Proof.
  revert st. induction todo as [|x rest IH]; intros st; [left; assumption|].
  cbn [restoreEach].
  destruct (prov_restoreOne_cases byPid st x)
    as [[Heq _]|(info & uri & Hinfo & Huri & Ht & Hcond & server' & Heq & _)];
    rewrite Heq.
  - specialize (IH st). destruct (restoreEach byPid st rest) as [st2 rest'].
    intros H. destruct (IH H) as [Hs|(server & i & u & Hin & Hp)]; [left; exact Hs|].
    right. exists server, i, u. split; [right; exact Hin|exact Hp].
  - match goal with
    | |- context [restoreEach byPid ?s rest] => specialize (IH s)
    end.
    destruct (restoreEach byPid _ rest) as [st2 rest'].
    intros H. destruct (IH H) as [Hs|(server & i & u & Hin & Hp)].
    + cbn [fst servers] in Hs.
      destruct (decide (Host.pid info = k)) as [<-|Hne].
      * destruct Hcond as [Hlive|Hreg]; [|left; exact Hreg].
        right. exists x, info, uri. split; [left|]. auto 10.
      * rewrite lookup_insert_ne in Hs by exact Hne. left. exact Hs.
    + right. exists server, i, u. split; [right; exact Hin|exact Hp].
Qed.

(** X20. The reconciliation of the provider revision removes no key and
    adds no key but the process id of a stored record that has its
    [serverInfo] and its [serverUri], is not [0] and belongs to a
    terminal of the inventory. *)
Theorem provider_restore_adds_only_live_records terminals st k :
  (is_Some (servers st !! k) ->
   is_Some (servers (restoreJupyterServers terminals st) !! k))
  /\ (is_Some (servers (restoreJupyterServers terminals st) !! k) ->
      is_Some (servers st !! k)
      \/ exists server info uri,
           server ∈ memento st
           /\ server ≫= s_serverInfo = Some info
           /\ server ≫= s_serverUri = Some uri
           /\ Host.pid info = k
           /\ truthyNum k = true
           /\ is_Some (terminalsByPid terminals !! k)).
Proof.
  unfold restoreJupyterServers.
  pose proof (prov_restoreEach_quiet (terminalsByPid terminals) (memento st) st)
    as (_ & _ & _ & _ & Hkeep).
  pose proof (prov_restoreEach_keys (terminalsByPid terminals) (memento st) st k)
    as Hkeys.
  destruct (restoreEach (terminalsByPid terminals) st (memento st))
    as [st1 stored].
  cbn [fst servers] in *. split; [apply Hkeep|exact Hkeys].
Qed.

Lemma add_then_get st server :
  exists entry,
    getServerUri (addJupyterServer st server) (pretty (Host.pid server))
    = Returned (serverUri entry)
    /\ (servers st !! Host.pid server = None ->
        baseUrl (serverUri entry) = Host.baseUrl server
        /\ token (serverUri entry) = Host.token server).
Proof.
  unfold getServerUri. rewrite parseInt_pretty. cbn [getNum].
  unfold addJupyterServer.
  destruct (servers st !! Host.pid server) as [old|] eqn:Hold.
  - cbn [servers]. rewrite Hold. exists old. split; [reflexivity|discriminate].
  - cbn [servers]. rewrite lookup_insert_eq. eexists. split; [reflexivity|].
    intros _. split; reflexivity.
Qed.

Lemma provider_restore_adds_only_live_records_witness :
  is_Some (servers (restoreJupyterServers openTerminals reloadedProvider) !! 4242%Z)
  /\ (is_Some (servers reloadedProvider !! 4242%Z)
      \/ exists server info uri,
           server ∈ memento reloadedProvider
           /\ server ≫= s_serverInfo = Some info
           /\ server ≫= s_serverUri = Some uri
           /\ Host.pid info = 4242%Z
           /\ truthyNum 4242 = true
           /\ is_Some (terminalsByPid openTerminals !! 4242%Z)).
Proof.
  assert (H : is_Some (servers (restoreJupyterServers openTerminals reloadedProvider)
                         !! 4242%Z)) by (vm_compute; eauto).
  split; [exact H|].
  exact (proj2 (provider_restore_adds_only_live_records openTerminals
                  reloadedProvider 4242%Z) H).
Defined.

(** X21. [handleQuickPick] of the provider revision: a handle it returns
    is the process id, in decimal, of a server it has launched and
    given to [addJupyterServer], and [getServerUri] resolves it in the
    registry it leaves (to the base URL [http://localhost:<port>/] of the
    probed port and to the token of that server, when the process id was
    not registered before). When it returns nothing or is rejected the
    registry is as it was, and it is rejected with nothing but the error
    "Function not implemented." of the local [logAndDisplayError]. An
    item with another label than the two it knows launches nothing. *)
Theorem quick_pick_handle_resolves sha rnd assign dirname delimiter item
    backEnabled env script outcome probe cancelled now h tr st :
  let res :=
    handleQuickPick sha rnd assign dirname delimiter item backEnabled env script
      outcome probe cancelled now h tr st in
  (forall handle,
     res.2 = Returned handle ->
     exists server u port,
       handle = pretty (Host.pid server)
       /\ res.1.2 = addJupyterServer st server
       /\ getServerUri res.1.2 handle = Returned u
       /\ probe = inr port
       /\ Host.baseUrl server = "http://localhost:" +:+ pretty port +:+ "/"
       /\ (servers st !! Host.pid server = None ->
           baseUrl u = Host.baseUrl server /\ token u = Host.token server))
  /\ (forall err,
        res.2 = Thrown err ->
        err = NewError "Function not implemented." /\ res.1.2 = st)
  /\ (res.2 = ReturnedUndefined -> res.1.2 = st)
  /\ (forall i,
        item = Some i -> handleOptions i backEnabled = None ->
        res = (Launch.showProgress true tr, st, ReturnedUndefined)).
Proof.
  cbv zeta. unfold handleQuickPick.
  destruct item as [i|];
    [|repeat split; intros; simplify_eq; reflexivity].
  destruct (handleOptions i backEnabled) as [o|] eqn:Ho;
    [|repeat split; intros; simplify_eq; reflexivity].
  destruct (Launch.launchJupyter _ _ _ _ _ _ _ _ _ _ _ _ _ _ _)
    as [tr' launched] eqn:Hlaunch.
  destruct launched as [server| |err]; cbn [fst snd].
  - split; [|repeat split; intros; simplify_eq; congruence].
    intros handle [= <-].
    destruct (launchJupyter_returned _ _ _ _ _ _ _ _ _ _ _ _ _ _ _ _ _ Hlaunch)
      as (info & _ & Hport & _ & Hurl).
    destruct (add_then_get st server) as (entry & Hget & Hfresh).
    exists server, (serverUri entry), (Launcher.Info.port info).
    split; [reflexivity|]. split; [reflexivity|]. split; [exact Hget|].
    split; [exact Hport|]. split; [exact Hurl|exact Hfresh].
  - repeat split; intros; simplify_eq; congruence.
  - repeat split; intros; simplify_eq; congruence.
Qed.

Lemma quick_pick_handle_resolves_witness :
  let res :=
    handleQuickPick sampleSha sampleBytes Launcher.assignVerbatim sampleDirname ":"
      (Some defaultNotebookItem) false tmpEnv [] Launcher.Accept (inr 8888%N)
      false 5%N readyPlatform quietTrace emptyProvider in
  res.2 = Returned "4242"
  /\ exists server u port,
       "4242" = pretty (Host.pid server)
       /\ res.1.2 = addJupyterServer emptyProvider server
       /\ getServerUri res.1.2 "4242" = Returned u
       /\ @inr string N 8888%N = inr port
       /\ Host.baseUrl server = "http://localhost:" +:+ pretty port +:+ "/"
       /\ (servers emptyProvider !! Host.pid server = None ->
           baseUrl u = Host.baseUrl server /\ token u = Host.token server).
Proof.
  cbv zeta. split; [vm_compute; reflexivity|].
  apply (proj1 (quick_pick_handle_resolves sampleSha sampleBytes Launcher.assignVerbatim
                  sampleDirname ":" (Some defaultNotebookItem) false tmpEnv []
                  Launcher.Accept (inr 8888%N) false 5%N readyPlatform
                  quietTrace emptyProvider) "4242").
  vm_compute. reflexivity.
Defined.

End HandleFacts.
(** ** More of the registry of the two later revisions *)

Module LifecycleFacts.
Import JS Host Samples CollectionFacts ServerProviderFacts LauncherFacts
  WizardFacts ExtensionFacts.

(** The entries one callback of the collection revision adds. *)
Lemma coll_restoreOne_entry {Uri} byPid (st : Collection.State Uri) stored k e :
  Collection.servers (Collection.restoreOne byPid st stored) !! k = Some e ->
  Collection.servers st !! k = Some e
  \/ exists u t,
       stored ≫= Collection.s_serverUri = Some u
       /\ k = pretty (Collection.pid u)
       /\ truthyNum (Collection.pid u) = true
       /\ byPid !! Collection.pid u = Some t
       /\ e = {| Collection.serverUri := u;
                 Collection.disposables :=
                   [Collection.DTerminal t;
                    Collection.DCreated (length (Collection.created st))] |}.
Proof.
  unfold Collection.restoreOne.
  destruct (stored ≫= Collection.s_serverUri) as [u|]; [|auto].
  destruct (truthyNum (Collection.pid u)) eqn:Ht; cbn [negb]; [|auto].
  case_bool_decide as Hhas; [auto|].
  destruct (byPid !! Collection.pid u) as [t|] eqn:Hterm; [|auto].
  cbn [Collection.servers].
  destruct (decide (pretty (Collection.pid u) = k)) as [<-|Hne].
  - rewrite lookup_insert_eq. intros [= <-]. right. exists u, t. auto.
  - rewrite lookup_insert_ne by exact Hne. auto.
Qed.

Lemma coll_restore_entry {Uri} byPid l (st : Collection.State Uri) k e :
  Collection.servers (fold_left (Collection.restoreOne byPid) l st) !! k = Some e ->
  Collection.servers st !! k = Some e
  \/ exists stored u t n,
       stored ∈ l
       /\ stored ≫= Collection.s_serverUri = Some u
       /\ k = pretty (Collection.pid u)
       /\ truthyNum (Collection.pid u) = true
       /\ byPid !! Collection.pid u = Some t
       /\ e = {| Collection.serverUri := u;
                 Collection.disposables :=
                   [Collection.DTerminal t; Collection.DCreated n] |}.
Proof.
  revert st. induction l as [|x l IH]; intros st; [auto|]. cbn [fold_left].
  intros H. destruct (IH _ H) as [H1|(stored & u & t & n & Hin & Hrest)].
  - destruct (coll_restoreOne_entry _ _ _ _ _ H1) as [H0|(u & t & Hrest)];
      [left; exact H0|].
    right. exists x, u, t, (length (Collection.created st)).
    split; [left|exact Hrest].
  - right. exists stored, u, t, n. split; [right; exact Hin|exact Hrest].
Qed.

Lemma fmap_elem_of_same {A B} (f : A -> B) (l l' : list A) (x : A) :
  f <$> l' = f <$> l -> x ∈ l -> exists x', x' ∈ l' /\ f x' = f x.
Proof.
  intros Heq Hin.
  assert (Hfx : f x ∈ f <$> l') by (rewrite Heq; apply list_elem_of_fmap_2; exact Hin).
  apply list_elem_of_fmap in Hfx as (x' & Hx' & Hin'). exists x'. auto.
Qed.

(** X22. A stored record whose process id is not [0] and belongs to a
    terminal of the inventory is registered by the reconciliation. Where
    servers are created in the collection, it always is, and an entry
    the reconciliation adds is such a record with, as its disposables,
    the terminal of the inventory and the server just created in the
    collection. Where the server provider is installed, it is whenever
    the reconciliation runs to its end (throws nothing). *)
Theorem live_records_are_restored :
  (forall (Uri : Type) (terminals : list Terminal) (st : Collection.State Uri),
      (forall stored u,
          stored ∈ Collection.memento st ->
          stored ≫= Collection.s_serverUri = Some u ->
          truthyNum (Collection.pid u) = true ->
          is_Some (terminalsByPid terminals !! Collection.pid u) ->
          is_Some (Collection.servers (Collection.restoreJupyterServers terminals st)
                     !! pretty (Collection.pid u)))
      /\ (forall k e,
            Collection.servers (Collection.restoreJupyterServers terminals st) !! k
              = Some e ->
            Collection.servers st !! k = Some e
            \/ exists stored u t n,
                 stored ∈ Collection.memento st
                 /\ stored ≫= Collection.s_serverUri = Some u
                 /\ k = pretty (Collection.pid u)
                 /\ truthyNum (Collection.pid u) = true
                 /\ terminalsByPid terminals !! Collection.pid u = Some t
                 /\ e = {| Collection.serverUri := u;
                           Collection.disposables :=
                             [Collection.DTerminal t; Collection.DCreated n] |}))
  /\ (forall (Uri : Type) (uriReparse : Uri -> Uri) (uriToString : Uri -> string)
             (urlPort : string -> option string)
             (terminals : list Terminal) (st st' : ServerProvider.State Uri)
             (stored : option ServerProvider.Stored) (p : Z),
        ServerProvider.restoreJupyterServers uriReparse uriToString urlPort
          terminals st = (st', None) ->
        stored ∈ ServerProvider.memento st ->
        ServerProvider.pidOf st stored = Some p ->
        truthyNum p = true ->
        is_Some (terminalsByPid terminals !! p) ->
        is_Some (ServerProvider.servers st' !! pretty p)).
Proof.
  split.
  - intros Uri terminals st. split.
    + intros stored u Hin Hu Ht Hlive. unfold Collection.restoreJupyterServers.
      pose proof (coll_restore_settles (terminalsByPid terminals)
                    (Collection.memento st) st) as Hall.
      rewrite Forall_forall in Hall.
      destruct (Hall stored Hin u Hu) as [Hf|[Hs|Hn]].
      * congruence.
      * exact Hs.
      * rewrite Hn in Hlive. destruct Hlive as [? ?]. discriminate.
    + intros k e. unfold Collection.restoreJupyterServers. apply coll_restore_entry.
  - intros Uri uriReparse uriToString urlPort terminals st st' stored p Hrun Hin
      Hp Ht Hlive.
    unfold ServerProvider.restoreJupyterServers in Hrun.
    destruct (ServerProvider.restoreEach uriReparse uriToString urlPort
                (terminalsByPid terminals) st (ServerProvider.memento st))
      as [[st1 stored1] r] eqn:Heach.
    injection Hrun as <- ->.
    destruct (sp_restoreEach_inv uriReparse uriToString urlPort _ _ _ _ _ _ Heach)
      as (Hpid & Hsame & _ & _ & _ & _ & _ & Hsettled).
    specialize (Hsettled eq_refl). rewrite Forall_forall in Hsettled.
    destruct (fmap_elem_of_same _ _ _ stored Hsame Hin) as (stored' & Hin' & Hs').
    cbn [ServerProvider.servers].
    assert (Hp' : ServerProvider.pidOf st1 stored' = Some p).
    { rewrite (sp_pidOf_stable st st1 stored stored' Hpid Hs'). exact Hp. }
    destruct (Hsettled stored' Hin' p Hp') as [Hf|[Hs|Hn]].
    + congruence.
    + exact Hs.
    + rewrite Hn in Hlive. destruct Hlive as [? ?]. discriminate.
Qed.

Lemma live_records_are_restored_witness :
  is_Some (Collection.servers
             (Collection.restoreJupyterServers openTerminals freshCollection)
             !! pretty (Collection.pid (storedUri 4242)))
  /\ is_Some (ServerProvider.servers restoredServerProvider !! pretty 4242%Z).
Proof.
  split.
  - apply (proj1 (proj1 live_records_are_restored string openTerminals
                    freshCollection) (storedRecord 4242) (storedUri 4242)).
    + apply list_elem_of_here.
    + reflexivity.
    + reflexivity.
    + vm_compute. eauto.
  - apply (proj2 live_records_are_restored string textOf textOf portOf
             openTerminals freshServerProvider restoredServerProvider
             (sharedRecord 1%positive) 4242%Z).
    + vm_compute. reflexivity.
    + apply list_elem_of_here.
    + reflexivity.
    + reflexivity.
    + vm_compute. eauto.
Defined.

(** X23. [shutdownJupyterServer] of the two later revisions, for a
    terminal whose process id [p] is not [0]: the key of [p] is deleted
    and no other, the disposables of the entry that was there are
    disposed in their order (none when there was no entry), and nothing
    else changes. In particular the record stays in the stored list, and
    where the server provider is installed the change event is not
    fired. A terminal without a process id changes nothing. *)
Theorem shutdown_deletes_one_key_and_keeps_the_record :
  (forall (Uri : Type) (st : Collection.State Uri) (t : Terminal),
      (forall p, processId t = Some p -> p <> 0%Z ->
         let res := Collection.shutdownJupyterServer st t in
         Collection.servers res.1 = delete (pretty p) (Collection.servers st)
         /\ (forall q, q <> p ->
               Collection.servers res.1 !! pretty q
               = Collection.servers st !! pretty q)
         /\ res.2 = match Collection.servers st !! pretty p with
                    | Some e => Collection.disposables e
                    | None => []
                    end
         /\ Collection.memento res.1 = Collection.memento st
         /\ Collection.created res.1 = Collection.created st
         /\ Collection.channel res.1 = Collection.channel st)
      /\ (processId t = None \/ processId t = Some 0%Z ->
          Collection.shutdownJupyterServer st t = (st, [])))
  /\ (forall (Uri : Type) (st : ServerProvider.State Uri) (t : Terminal),
        (forall p, processId t = Some p -> p <> 0%Z ->
           let res := ServerProvider.shutdownJupyterServer st t in
           ServerProvider.servers res.1
           = delete (pretty p) (ServerProvider.servers st)
           /\ (forall q, q <> p ->
                 ServerProvider.servers res.1 !! pretty q
                 = ServerProvider.servers st !! pretty q)
           /\ res.2 = match ServerProvider.servers st !! pretty p with
                      | Some e => ServerProvider.disposables e
                      | None => []
                      end
           /\ ServerProvider.memento res.1 = ServerProvider.memento st
           /\ ServerProvider.fired res.1 = ServerProvider.fired st
           /\ ServerProvider.uris res.1 = ServerProvider.uris st
           /\ ServerProvider.channel res.1 = ServerProvider.channel st)
        /\ (processId t = None \/ processId t = Some 0%Z ->
            ServerProvider.shutdownJupyterServer st t = (st, []))).
Proof.
  assert (Hne : forall p q : Z, q <> p -> pretty p <> pretty q).
  { intros p q H Heq. apply (inj pretty) in Heq. congruence. }
  split.
  - intros Uri st t. split.
    + intros p Hp Hnz. cbv zeta. unfold Collection.shutdownJupyterServer.
      rewrite Hp. unfold truthyNum.
      destruct (Z.eqb_spec p 0) as [->|_]; [contradiction|]. cbn [negb].
      destruct (Collection.servers st !! pretty p) as [e|] eqn:He; cbn.
      * repeat split; try reflexivity.
        intros q Hq. apply lookup_delete_ne, Hne, Hq.
      * repeat split; try reflexivity. symmetry. apply delete_id. exact He.
    + intros [Hn|Hz]; unfold Collection.shutdownJupyterServer; rewrite ?Hn, ?Hz;
        reflexivity.
  - intros Uri st t. split.
    + intros p Hp Hnz. cbv zeta. unfold ServerProvider.shutdownJupyterServer.
      rewrite Hp. unfold truthyNum.
      destruct (Z.eqb_spec p 0) as [->|_]; [contradiction|]. cbn [negb].
      destruct (ServerProvider.servers st !! pretty p) as [e|] eqn:He; cbn.
      * repeat split; try reflexivity.
        intros q Hq. apply lookup_delete_ne, Hne, Hq.
      * repeat split; try reflexivity. symmetry. apply delete_id. exact He.
    + intros [Hn|Hz]; unfold ServerProvider.shutdownJupyterServer;
        rewrite ?Hn, ?Hz; reflexivity.
Qed.

Lemma shutdown_deletes_one_key_and_keeps_the_record_witness :
  Collection.servers (Collection.shutdownJupyterServer addedCollection jupyterTerminal).1
  = delete (pretty 4242%Z) (Collection.servers addedCollection)
  /\ Collection.memento
       (Collection.shutdownJupyterServer addedCollection jupyterTerminal).1
     = Collection.memento addedCollection
  /\ ServerProvider.fired
       (ServerProvider.shutdownJupyterServer addedServerProvider jupyterTerminal).1
     = ServerProvider.fired addedServerProvider.
Proof.
  pose proof (proj1 (proj1 shutdown_deletes_one_key_and_keeps_the_record string
                       addedCollection jupyterTerminal) 4242%Z eq_refl
                ltac:(discriminate)) as H1.
  pose proof (proj1 (proj2 shutdown_deletes_one_key_and_keeps_the_record string
                       addedServerProvider jupyterTerminal) 4242%Z eq_refl
                ltac:(discriminate)) as H2.
  cbv zeta in H1, H2.
  destruct H1 as (Hs & _ & _ & Hm & _). destruct H2 as (_ & _ & _ & _ & Hf & _).
  split; [exact Hs|]. split; [exact Hm|exact Hf].
Defined.

(** X24. Closing a server does not forget it. Where servers are created
    in the collection: after a server with a fresh process id is added
    and its terminal is closed, the registry is what it was before the
    server was added, the server and the object created for it in the
    collection have been disposed, and the stored list still holds the
    record; so a later reconciliation that finds a Jupyter terminal with
    that process id registers the record again, with that terminal and
    a newly created server as its disposables. *)
Theorem closed_server_comes_back (Uri : Type) (uriParse : string -> Uri)
    (st : Collection.State Uri) (server : JupyterServer) (t t' : Terminal)
    (terminals : list Terminal) :
  Collection.servers st !! pretty (pid server) = None ->
  pid server <> 0%Z ->
  processId t = Some (pid server) ->
  terminalsByPid terminals !! pid server = Some t' ->
  let added := (Collection.addJupyterServer uriParse st server).1 in
  let closed := Collection.shutdownJupyterServer added t in
  let restored := Collection.restoreJupyterServers terminals closed.1 in
  closed.2 = [Collection.DServer server;
              Collection.DCreated (length (Collection.created st))]
  /\ Collection.servers closed.1 = Collection.servers st
  /\ Collection.memento closed.1 = Collection.memento added
  /\ exists e n,
       Collection.servers restored !! pretty (pid server) = Some e
       /\ Collection.pid (Collection.serverUri e) = pid server
       /\ Collection.disposables e
          = [Collection.DTerminal t'; Collection.DCreated n].
Proof.
  intros Hfresh Hnz Hp Hlive. cbv zeta.
  assert (Htruthy : truthyNum (pid server) = true).
  { unfold truthyNum. destruct (Z.eqb_spec (pid server) 0); [contradiction|].
    reflexivity. }
  unfold Collection.addJupyterServer.
  rewrite bool_decide_eq_false_2
    by (rewrite Hfresh; intros [? ?]; discriminate).
  cbn [fst]. unfold Collection.shutdownJupyterServer. rewrite Hp, Htruthy.
  cbn [negb Collection.servers]. rewrite lookup_insert_eq. cbn [fst snd].
  cbn [Collection.disposables Collection.servers Collection.memento].
  split; [reflexivity|].
  assert (Hback : delete (pretty (pid server))
                    (<[pretty (pid server) :=
                        {| Collection.serverUri :=
                             {| Collection.pid := pid server;
                                Collection.baseUrl := uriParse (baseUrl server);
                                Collection.token := token server;
                                Collection.label :=
                                  typeName (type server) +:+ " " +:+ baseUrl server;
                                Collection.mappedRemoteNotebookDir :=
                                  jupyterExtensionWorkingDirectory server;
                                Collection.authorizationHeader := None |};
                           Collection.disposables :=
                             [Collection.DServer server;
                              Collection.DCreated (length (Collection.created st))] |}]>
                       (Collection.servers st))
                  = Collection.servers st).
  { rewrite delete_insert_eq. apply delete_id. exact Hfresh. }
  rewrite Hback. split; [reflexivity|]. split; [reflexivity|].
  match goal with
  | |- context [Collection.restoreJupyterServers terminals ?s] => set (closed := s)
  end.
  set (u := {| Collection.pid := pid server;
               Collection.baseUrl := uriParse (baseUrl server);
               Collection.token := token server;
               Collection.label := typeName (type server) +:+ " " +:+ baseUrl server;
               Collection.mappedRemoteNotebookDir :=
                 jupyterExtensionWorkingDirectory server;
               Collection.authorizationHeader := None |}) in *.
  assert (Hin : Some {| Collection.s_serverUri := Some u;
                        Collection.s_disposables := [] |}
                ∈ Collection.memento closed).
  { subst closed. cbn [Collection.memento]. unfold Collection.storeJupyterServers.
    rewrite fmap_app. apply elem_of_app. right. cbn. apply list_elem_of_here. }
  pose proof (coll_restore_settles (terminalsByPid terminals)
                (Collection.memento closed) closed) as Hall.
  rewrite Forall_forall in Hall.
  destruct (Hall _ Hin u eq_refl) as [Hf|[[e He]|Hn]].
  - cbn in Hf. congruence.
  - cbn [Collection.pid u] in He.
    unfold Collection.restoreJupyterServers.
    destruct (coll_restore_entry _ _ _ _ _ He)
      as [H0|(stored & u' & t0 & n & _ & _ & Hk & _ & Ht0 & ->)].
    + subst closed. cbn [Collection.servers] in H0. congruence.
    + apply (inj pretty) in Hk. eexists. exists n. split; [exact He|].
      cbn. rewrite <- Hk in Ht0. split; [congruence|]. congruence.
  - cbn in Hn. congruence.
Qed.

Lemma closed_server_comes_back_witness :
  exists e n,
    Collection.servers
      (Collection.restoreJupyterServers openTerminals
         (Collection.shutdownJupyterServer addedCollection jupyterTerminal).1)
      !! pretty 4242%Z = Some e
    /\ Collection.pid (Collection.serverUri e) = 4242%Z
    /\ Collection.disposables e
       = [Collection.DTerminal jupyterTerminal; Collection.DCreated n].
Proof.
  apply (closed_server_comes_back string textOf
           {| Collection.servers := ∅; Collection.created := [];
              Collection.channel := Some []; Collection.memento := [] |}
           (sampleServer 4242 (Some 1%nat)) jupyterTerminal jupyterTerminal
           openTerminals).
  - reflexivity.
  - discriminate.
  - reflexivity.
  - vm_compute. reflexivity.
Defined.

(** X25. What [addJupyterServer] of the two later revisions does for a
    process id that is not registered: it registers an entry under the
    process id in decimal, and it stores one new record after the old
    ones, every record of the stored list (old or new) written with an
    empty list of disposables. Where servers are created in the
    collection, the entry is disposable through the server and the
    object created for it, and that object is created with the label
    [Jupyter Notebook at <baseUrl>], whatever the kind of the server.
    Where the server provider is installed, the change event fires
    once. *)
Theorem fresh_add_stores_one_record :
  (forall (Uri : Type) (uriParse : string -> Uri) (st : Collection.State Uri)
          (server : JupyterServer),
      Collection.servers st !! pretty (pid server) = None ->
      let res := Collection.addJupyterServer uriParse st server in
      exists u,
        Collection.pid u = pid server
        /\ Collection.baseUrl u = uriParse (baseUrl server)
        /\ Collection.label u = typeName (type server) +:+ " " +:+ baseUrl server
        /\ res.2 = Some (length (Collection.created st))
        /\ Collection.servers res.1
           = <[pretty (pid server) :=
                 {| Collection.serverUri := u;
                    Collection.disposables :=
                      [Collection.DServer server;
                       Collection.DCreated (length (Collection.created st))] |}]>
               (Collection.servers st)
        /\ Collection.created res.1
           = Collection.created st
             ++ [(pretty (pid server), "Jupyter Notebook at " +:+ baseUrl server)]
        /\ Collection.memento res.1
           = (Collection.withoutDisposables <$> Collection.memento st)
             ++ [Some {| Collection.s_serverUri := Some u;
                         Collection.s_disposables := [] |}]
        /\ Forall (fun r => exists x, r = Some x /\ Collection.s_disposables x = [])
             (Collection.memento res.1))
  /\ (forall (Uri : Type) (uriParse uriFile : string -> Uri)
             (st : ServerProvider.State Uri) (server : JupyterServer),
        ServerProvider.servers st !! pretty (pid server) = None ->
        let st' := ServerProvider.addJupyterServer uriParse uriFile st server in
        exists l,
          ServerProvider.uris st !! l = None
          /\ ServerProvider.servers st'
             = <[pretty (pid server) :=
                   {| ServerProvider.serverUri := l;
                      ServerProvider.server := server;
                      ServerProvider.disposables := [ServerProvider.DServer server] |}]>
                 (ServerProvider.servers st)
          /\ ServerProvider.pid <$> (ServerProvider.uris st' !! l) = Some (pid server)
          /\ ServerProvider.fired st' = S (ServerProvider.fired st)
          /\ ServerProvider.memento st'
             = (ServerProvider.withoutDisposables <$> ServerProvider.memento st)
               ++ [Some {| ServerProvider.s_serverUri := Some l;
                           ServerProvider.s_server := Some server;
                           ServerProvider.s_disposables := [] |}]
          /\ Forall (fun r => exists x, r = Some x
                                        /\ ServerProvider.s_disposables x = [])
               (ServerProvider.memento st')).
Proof.
  split.
  - intros Uri uriParse st server Hfresh. cbv zeta.
    unfold Collection.addJupyterServer.
    rewrite bool_decide_eq_false_2
      by (rewrite Hfresh; intros [? ?]; discriminate).
    cbn [fst snd Collection.servers Collection.created Collection.memento].
    exists {| Collection.pid := pid server;
              Collection.baseUrl := uriParse (baseUrl server);
              Collection.token := token server;
              Collection.label := typeName (type server) +:+ " " +:+ baseUrl server;
              Collection.mappedRemoteNotebookDir :=
                jupyterExtensionWorkingDirectory server;
              Collection.authorizationHeader := None |}.
    split; [reflexivity|]. split; [reflexivity|]. split; [reflexivity|].
    split; [reflexivity|]. split; [reflexivity|]. split; [reflexivity|].
    unfold Collection.storeJupyterServers. rewrite fmap_app.
    split; [reflexivity|].
    apply Forall_app. split.
    + apply Forall_fmap, Forall_true. intros r. cbn. eauto.
    + repeat constructor. cbn. eauto.
  - intros Uri uriParse uriFile st server Hfresh. cbv zeta.
    unfold ServerProvider.addJupyterServer.
    rewrite bool_decide_eq_false_2
      by (rewrite Hfresh; intros [? ?]; discriminate).
    cbn [ServerProvider.servers ServerProvider.uris ServerProvider.fired
         ServerProvider.memento].
    exists (fresh (dom (ServerProvider.uris st))).
    split; [apply not_elem_of_dom, is_fresh|].
    split; [reflexivity|]. split; [rewrite lookup_insert_eq; reflexivity|].
    split; [reflexivity|].
    unfold ServerProvider.storeJupyterServers. rewrite fmap_app.
    split; [reflexivity|].
    apply Forall_app. split.
    + apply Forall_fmap, Forall_true. intros r. cbn. eauto.
    + repeat constructor. cbn. eauto.
Qed.

Lemma fresh_add_stores_one_record_witness :
  (exists u,
     Collection.pid u = 4242%Z
     /\ Collection.created addedCollection
        = [(pretty 4242%Z, "Jupyter Notebook at http://localhost:8888/")]
     /\ Collection.memento addedCollection
        = [Some {| Collection.s_serverUri := Some u;
                   Collection.s_disposables := [] |}])
  /\ ServerProvider.fired addedServerProvider = 1.
Proof.
  split.
  - destruct (proj1 fresh_add_stores_one_record string textOf
                {| Collection.servers := ∅; Collection.created := [];
                   Collection.channel := Some []; Collection.memento := [] |}
                (sampleServer 4242 (Some 1%nat)) ltac:(apply lookup_empty))
      as (u & Hp & _ & _ & _ & _ & Hc & Hm & _).
    exists u. split; [exact Hp|]. split; [exact Hc|exact Hm].
  - destruct (proj2 fresh_add_stores_one_record string textOf textOf
                {| ServerProvider.servers := ∅; ServerProvider.uris := ∅;
                   ServerProvider.fired := 0; ServerProvider.channel := Some [];
                   ServerProvider.memento := [] |}
                (sampleServer 4242 (Some 1%nat)) ltac:(apply lookup_empty))
      as (l & _ & _ & _ & Hf & _).
    exact Hf.
Defined.




(** In a host that keeps only listed items, a server launched with the
    options of [startJupyterServer] is not marked for registration: the
    item [Register with Jupyter Extension] is not listed. *)
Lemma picker_server_is_unmarked sha rnd dirname delimiter progress ty env script
    outcome probe cancelled now h tr tr' server :
  Forall (Launcher.reportsListed (pickerOptions ty)) script ->
  Launch.launchJupyter sha rnd (Launcher.assignListed (pickerOptions ty)) dirname
    delimiter progress (pickerOptions ty) env script outcome probe cancelled now h
    tr = (tr', Returned server) ->
  registerWithJupyterExtension server = false /\ type server = ty.
Proof.
  intros Hlisted Hlaunch.
  destruct (launched_register_flag _ _ _ _ _ _ _ _ _ _ _ _ _ _ _ _ _ Hlaunch)
    as (l & Hacc & Hreg & Hty).
  split; [|exact Hty]. rewrite Hreg.
  unfold Launcher.accepted in Hacc. cbn [Launcher.customize pickerOptions] in Hacc.
  unfold Launcher.readSelections in Hacc. destruct outcome; [|discriminate].
  destruct (_ =? 0)%nat; [discriminate|].
  destruct (forallb _ _); [discriminate|].
  injection Hacc as <-. cbn [Launcher.registerWithJupyterExtension].
  rewrite (someLabel_includes Launcher.registerWithJupyterExtensionPrompt).
  apply includes_false. intros Hin.
  pose proof (runWizard_listed (pickerOptions ty) env script _ Hlisted Hin) as H.
  cbn in H.
  repeat (apply elem_of_cons in H as [H|H]; [discriminate|]).
  apply elem_of_nil in H. exact H.
Qed.

(** X27. [startJupyterServer] of the two later revisions never throws:
    when the launch returns nothing or throws, it writes one line
    "[Error]: Failed to start <kind>, ..." and leaves the registry as it
    is. When the launch returns a server it gives the server to
    [addJupyterServer] without looking at
    [registerWithJupyterExtension]; and in a host that keeps only listed
    items that flag is always [false] there, since the wizard is opened
    without the item that sets it. *)
Theorem picker_launch_registers_whatever_the_flag :
  (forall (Uri : Type) (uriParse : string -> Uri) sha rnd dirname delimiter
          describe ty env script outcome probe cancelled now h tr
          (st : Collection.State Uri),
      Forall (Launcher.reportsListed (pickerOptions ty)) script ->
      let launched :=
        Launch.launchJupyter sha rnd (Launcher.assignListed (pickerOptions ty))
          dirname delimiter true (pickerOptions ty) env script outcome probe
          cancelled now h (Launch.showProgress true tr) in
      let res :=
        Collection.startJupyterServer uriParse sha rnd
          (Launcher.assignListed (pickerOptions ty)) dirname delimiter describe ty
          env script outcome probe cancelled now h tr st in
      (exists server,
         launched.2 = Returned server
         /\ registerWithJupyterExtension server = false
         /\ type server = ty
         /\ res.1.1 = launched.1
         /\ (res.1.2, res.2) = Collection.addJupyterServer uriParse st server)
      \/ (launched.2 = ReturnedUndefined
          /\ res
             = (Launch.appendLine
                  ("[Error]: Failed to start " +:+ typeName ty +:+ ", "
                     +:+ describe CaughtCancellation) launched.1, st, None))
      \/ (exists err,
            launched.2 = Thrown err
            /\ res
               = (Launch.appendLine
                    ("[Error]: Failed to start " +:+ typeName ty +:+ ", "
                       +:+ describe (CaughtThrown err)) launched.1, st, None)))
  /\ (forall (Uri : Type) (uriParse uriFile : string -> Uri) sha rnd dirname
             delimiter describe ty env script outcome probe cancelled now h tr
             (st : ServerProvider.State Uri),
        Forall (Launcher.reportsListed (pickerOptions ty)) script ->
        let launched :=
          Launch.launchJupyter sha rnd (Launcher.assignListed (pickerOptions ty))
            dirname delimiter true (pickerOptions ty) env script outcome probe
            cancelled now h (Launch.showProgress true tr) in
        let res :=
          ServerProvider.startJupyterServer uriParse uriFile sha rnd
            (Launcher.assignListed (pickerOptions ty)) dirname delimiter describe
            ty env script outcome probe cancelled now h tr st in
        (exists server,
           launched.2 = Returned server
           /\ registerWithJupyterExtension server = false
           /\ type server = ty
           /\ res
              = (launched.1,
                 ServerProvider.addJupyterServer uriParse uriFile st server,
                 Some server))
        \/ (launched.2 = ReturnedUndefined
            /\ res
               = (Launch.appendLine
                    ("[Error]: Failed to start " +:+ typeName ty +:+ ", "
                       +:+ describe CaughtCancellation) launched.1, st, None))
        \/ (exists err,
              launched.2 = Thrown err
              /\ res
                 = (Launch.appendLine
                      ("[Error]: Failed to start " +:+ typeName ty +:+ ", "
                         +:+ describe (CaughtThrown err)) launched.1, st, None))).
Proof.
  split.
  - intros Uri uriParse sha rnd dirname delimiter describe ty env script outcome
      probe cancelled now h tr st Hlisted. cbv zeta.
    unfold Collection.startJupyterServer.
    destruct (Launch.launchJupyter _ _ _ _ _ _ _ _ _ _ _ _ _ _ _)
      as [tr' launched] eqn:Hlaunch.
    cbn [fst snd]. destruct launched as [server| |err].
    + left. exists server.
      destruct (picker_server_is_unmarked _ _ _ _ _ _ _ _ _ _ _ _ _ _ _ _
                  Hlisted Hlaunch) as [Hflag Hty].
      destruct (Collection.addJupyterServer uriParse st server) as [st' created].
      repeat split; assumption.
    + right; left. split; reflexivity.
    + right; right. exists err. split; reflexivity.
  - intros Uri uriParse uriFile sha rnd dirname delimiter describe ty env script
      outcome probe cancelled now h tr st Hlisted. cbv zeta.
    unfold ServerProvider.startJupyterServer.
    destruct (Launch.launchJupyter _ _ _ _ _ _ _ _ _ _ _ _ _ _ _)
      as [tr' launched] eqn:Hlaunch.
    cbn [fst snd]. destruct launched as [server| |err].
    + left. exists server.
      destruct (picker_server_is_unmarked _ _ _ _ _ _ _ _ _ _ _ _ _ _ _ _
                  Hlisted Hlaunch) as [Hflag Hty].
      repeat split; assumption.
    + right; left. split; reflexivity.
    + right; right. exists err. split; reflexivity.
Qed.

Lemma picker_launch_registers_whatever_the_flag_witness :
  exists server,
    (Launch.launchJupyter sampleSha sampleBytes
       (Launcher.assignListed (pickerOptions Launcher.JupyterLab)) sampleDirname
       ":" true (pickerOptions Launcher.JupyterLab) tmpEnv [] Launcher.Accept
       (inr 8888%N) false 5%N readyPlatform
       (Launch.showProgress true quietTrace)).2 = Returned server
    /\ registerWithJupyterExtension server = false
    /\ is_Some
         (Collection.servers
            (Collection.startJupyterServer textOf sampleSha sampleBytes
               (Launcher.assignListed (pickerOptions Launcher.JupyterLab))
               sampleDirname ":" (fun _ => "Canceled") Launcher.JupyterLab tmpEnv
               [] Launcher.Accept (inr 8888%N) false 5%N readyPlatform quietTrace
               {| Collection.servers := ∅; Collection.created := [];
                  Collection.channel := Some []; Collection.memento := [] |}).1.2
            !! pretty 4242%Z).
Proof.
  destruct (proj1 picker_launch_registers_whatever_the_flag string textOf
              sampleSha sampleBytes sampleDirname ":" (fun _ => "Canceled")
              Launcher.JupyterLab tmpEnv [] Launcher.Accept (inr 8888%N) false
              5%N readyPlatform quietTrace
              {| Collection.servers := ∅; Collection.created := [];
                 Collection.channel := Some []; Collection.memento := [] |}
              (List.Forall_nil _))
    as [(server & Hl & Hflag & _)|[[Hl _]|(err & Hl & _)]].
  - exists server. split; [exact Hl|]. split; [exact Hflag|].
    vm_compute. eauto.
  - vm_compute in Hl. discriminate Hl.
  - vm_compute in Hl. discriminate Hl.
Defined.

End LifecycleFacts.
